(** * EduConnect User service: shallow embedding of the Python sources

    The Python values that flow through the service (request bodies, MongoDB
    documents, token payloads) are modelled by one inductive type [value];
    a Python [dict] / BSON document is an association list from string keys
    to values, in insertion order, as CPython keeps it. *)

From Stdlib Require Import String Ascii List ZArith Bool Lia.
Import ListNotations.
Open Scope string_scope.
Open Scope Z_scope.

#[local] Set Warnings "-register-all".

(** ** Python runtime values *)

(** [datetime.datetime]: the fields of the object, [tz_utc] records an
    aware datetime in UTC ([datetime.now(timezone.utc)]). *)
Record datetime := mk_datetime {
  dt_year : Z; dt_month : Z; dt_day : Z;
  dt_hour : Z; dt_minute : Z; dt_second : Z; dt_microsecond : Z;
  dt_tz_utc : bool
}.

Inductive value : Type :=
| VNone : value
| VBool : bool -> value
| VInt : Z -> value
| VStr : string -> value
| VDate : datetime -> value           (* datetime.datetime *)
| VOid : string -> value              (* bson.ObjectId, by its hex string *)
| VList : list value -> value
| VDict : list (string * value) -> value.

Definition dict := list (string * value).

(** Python truthiness ([if x:] / [not x]). *)
Definition truthy (v : value) : bool :=
  match v with
  | VNone => false
  | VBool b => b
  | VInt z => negb (z =? 0)
  | VStr s => negb (String.eqb s "")
  | VDate _ => true
  | VOid _ => true
  | VList l => match l with [] => false | _ => true end
  | VDict d => match d with [] => false | _ => true end
  end.

Definition datetime_eqb (a b : datetime) : bool :=
  (dt_year a =? dt_year b) && (dt_month a =? dt_month b) && (dt_day a =? dt_day b)
  && (dt_hour a =? dt_hour b) && (dt_minute a =? dt_minute b)
  && (dt_second a =? dt_second b) && (dt_microsecond a =? dt_microsecond b)
  && Bool.eqb (dt_tz_utc a) (dt_tz_utc b).

(** Python [==] on values (structural). *)
Fixpoint value_eqb (a b : value) {struct a} : bool :=
  match a, b with
  | VNone, VNone => true
  | VBool x, VBool y => Bool.eqb x y
  | VInt x, VInt y => x =? y
  | VStr x, VStr y => String.eqb x y
  | VDate x, VDate y => datetime_eqb x y
  | VOid x, VOid y => String.eqb x y
  | VList l1, VList l2 =>
      (fix go (l1 l2 : list value) : bool :=
         match l1, l2 with
         | [], [] => true
         | x :: xs, y :: ys => value_eqb x y && go xs ys
         | _, _ => false
         end) l1 l2
  | VDict d1, VDict d2 =>
      (fix go (d1 d2 : list (string * value)) : bool :=
         match d1, d2 with
         | [], [] => true
         | (k1, x) :: xs, (k2, y) :: ys => String.eqb k1 k2 && value_eqb x y && go xs ys
         | _, _ => false
         end) d1 d2
  | _, _ => false
  end.

(** [d.get(k)] and [d.get(k, default)]. *)
Fixpoint dict_lookup (k : string) (d : dict) : option value :=
  match d with
  | [] => None
  | (k', v) :: rest => if String.eqb k k' then Some v else dict_lookup k rest
  end.

Definition dict_get (d : dict) (k : string) (default : value) : value :=
  match dict_lookup k d with Some v => v | None => default end.

(** [k in d] *)
Definition dict_has (d : dict) (k : string) : bool :=
  match dict_lookup k d with Some _ => true | None => false end.

(** [d[k] = v]: an existing key keeps its position, a new key goes last. *)
Fixpoint dict_set (d : dict) (k : string) (v : value) : dict :=
  match d with
  | [] => [(k, v)]
  | (k', v') :: rest =>
      if String.eqb k k' then (k', v) :: rest else (k', v') :: dict_set rest k v
  end.

(** [x in l] for a Python list. *)
Definition list_contains (x : value) (l : list value) : bool :=
  existsb (value_eqb x) l.

(** How many elements of [l] are [== x]. *)
Definition count_eq (x : value) (l : list value) : nat :=
  length (filter (value_eqb x) l).

(** ** Python exceptions raised along the modelled paths *)
Inductive py_exc : Type :=
| ValueError : string -> py_exc
| AttributeError : string -> py_exc
| TypeError : string -> py_exc
| DuplicateKeyError : py_exc
| WriteError : string -> py_exc       (* pymongo.errors.WriteError *)
| InvalidTokenError : string -> py_exc
| InvalidAudienceError : string -> py_exc
| MissingRequiredClaimError : string -> py_exc   (* the missing claim *)
| JwtLibError : string -> py_exc.     (* any other error raised by jwt.decode *)

Inductive result (A : Type) : Type :=
| Ok : A -> result A
| Err : py_exc -> result A.
Arguments Ok {A} _.
Arguments Err {A} _.

Definition bind {A B} (r : result A) (f : A -> result B) : result B :=
  match r with Ok a => f a | Err e => Err e end.

Notation "'let!' x := r 'in' k" := (bind r (fun x => k))
  (at level 200, x name, r at level 100, k at level 200).

(** ** String helpers *)

(** [s.split('@')[0]]: the text before the first ['@'] (all of [s] if none). *)
Fixpoint split_at_first (c : ascii) (s : string) : string :=
  match s with
  | EmptyString => EmptyString
  | String a rest => if Ascii.eqb a c then EmptyString else String a (split_at_first c rest)
  end.

Definition local_part (s : string) : string := split_at_first "@"%char s.

(** [needle in hay] for two Python strings. *)
Fixpoint is_substring (needle hay : string) : bool :=
  match hay with
  | EmptyString => String.eqb needle EmptyString
  | String _ rest => String.prefix needle hay || is_substring needle rest
  end.

Fixpoint pos_digits (fuel : nat) (n : Z) (acc : string) : string :=
  match fuel with
  | O => acc
  | S f =>
      let acc' := String (ascii_of_nat (48 + Z.to_nat (n mod 10))) acc in
      if n <? 10 then acc' else pos_digits f (n / 10) acc'
  end.

(** [str(n)] for a Python int. *)
Definition z_to_dec (z : Z) : string :=
  let fuel := S (Z.to_nat (Z.log2 (Z.abs z))) in
  if z <? 0 then "-" ++ pos_digits fuel (- z) "" else pos_digits fuel z "".

(** ['%0*d' % (w, n)] for a non-negative [n]. *)
Definition pad_left (w : nat) (s : string) : string :=
  let fix zeros (k : nat) : string := match k with O => "" | S k' => "0" ++ zeros k' end in
  zeros (w - String.length s)%nat ++ s.

Definition zpad (w : nat) (z : Z) : string := pad_left w (z_to_dec z).

(** [datetime.isoformat(sep)]: microseconds only when non zero, the UTC
    offset only for an aware datetime. *)
Definition isoformat_sep (sep : string) (t : datetime) : string :=
  zpad 4 (dt_year t) ++ "-" ++ zpad 2 (dt_month t) ++ "-" ++ zpad 2 (dt_day t)
  ++ sep ++ zpad 2 (dt_hour t) ++ ":" ++ zpad 2 (dt_minute t) ++ ":" ++ zpad 2 (dt_second t)
  ++ (if dt_microsecond t =? 0 then "" else "." ++ zpad 6 (dt_microsecond t))
  ++ (if dt_tz_utc t then "+00:00" else "").

Definition isoformat (t : datetime) : string := isoformat_sep "T" t.

Fixpoint join (sep : string) (l : list string) : string :=
  match l with
  | [] => ""
  | [x] => x
  | x :: rest => x ++ sep ++ join sep rest
  end.

(** [repr(v)], used for the elements of containers; string escapes and the
    constructor syntax of [datetime] reprs are not reproduced. *)
Fixpoint py_repr (v : value) : string :=
  match v with
  | VNone => "None"
  | VBool true => "True"
  | VBool false => "False"
  | VInt z => z_to_dec z
  | VStr s => "'" ++ s ++ "'"
  | VDate t => isoformat_sep " " t
  | VOid o => "ObjectId('" ++ o ++ "')"
  | VList l => "[" ++ join ", " (map py_repr l) ++ "]"
  | VDict d => "{" ++ join ", " (map (fun kv => "'" ++ fst kv ++ "': " ++ py_repr (snd kv)) d) ++ "}"
  end.

(** [str(v)], as an f-string inserts it. *)
Definition py_str (v : value) : string :=
  match v with
  | VStr s => s
  | VOid o => o
  | _ => py_repr v
  end.

(** [type(v).__name__] as CPython's error messages print it. *)
Definition py_type_name (v : value) : string :=
  match v with
  | VNone => "NoneType" | VBool _ => "bool" | VInt _ => "int" | VStr _ => "str"
  | VDate _ => "datetime.datetime" | VOid _ => "ObjectId" | VList _ => "list" | VDict _ => "dict"
  end.

(** [str(e)] of the [AttributeError] raised by [v.attr]. *)
Definition attr_error (v : value) (attr : string) : string :=
  "'" ++ py_type_name v ++ "' object has no attribute '" ++ attr ++ "'".

(** Python [a or b] on two evaluated operands. *)
Definition py_or (a b : value) : value := if truthy a then a else b.

(** ** MongoDB: the [users] collection

    A collection is the list of its documents in natural order. Update
    operators are applied to top-level field names; dotted paths are not
    modelled. Fields added by an update go last. *)
Definition collection := list dict.

Definition id_matches (v : value) (d : dict) : bool :=
  match dict_lookup "_id" d with Some x => value_eqb x v | None => false end.

(** [collection.find_one({"_id": v})] *)
Definition find_one_by_id (c : collection) (v : value) : option dict :=
  find (id_matches v) c.

(** [collection.insert_one(doc)]; [_id] carries a unique index. *)
Definition insert_one (c : collection) (doc : dict) : result collection :=
  if existsb (id_matches (dict_get doc "_id" VNone)) c then Err DuplicateKeyError
  else Ok (c ++ [doc])%list.

(** [{"$set": upd}] on one document. *)
Definition apply_set (d : dict) (upd : dict) : dict :=
  fold_left (fun acc kv => dict_set acc (fst kv) (snd kv)) upd d.

(** [{"$addToSet": {f: x}}] on one document. *)
Definition add_to_set_field (d : dict) (f : string) (x : value) : result dict :=
  match dict_lookup f d with
  | None => Ok (dict_set d f (VList [x]))
  | Some (VList l) => Ok (if list_contains x l then d else dict_set d f (VList (l ++ [x])%list))
  | Some _ => Err (WriteError "Cannot apply $addToSet to non-array field")
  end.

(** [{"$pull": {f: x}}] on one document. *)
Definition pull_field (d : dict) (f : string) (x : value) : result dict :=
  match dict_lookup f d with
  | None => Ok d
  | Some (VList l) => Ok (dict_set d f (VList (filter (fun y => negb (value_eqb y x)) l)))
  | Some _ => Err (WriteError "Cannot apply $pull to a non-array value")
  end.

(** An update document built from [$addToSet], [$pull] and [$set]. *)
Record update_ops := mk_ops {
  op_add_to_set : list (string * value);
  op_pull : list (string * value);
  op_set : dict
}.

Fixpoint fold_result (f : dict -> string -> value -> result dict) (d : dict)
    (l : list (string * value)) : result dict :=
  match l with
  | [] => Ok d
  | (k, x) :: rest => let! d' := f d k x in fold_result f d' rest
  end.

Definition apply_ops (d : dict) (ops : update_ops) : result dict :=
  let! d1 := fold_result add_to_set_field d (op_add_to_set ops) in
  let! d2 := fold_result pull_field d1 (op_pull ops) in
  Ok (apply_set d2 (op_set ops)).

(** [collection.update_one({"_id": v}, ops)] (no upsert). *)
Fixpoint update_one (c : collection) (v : value) (ops : update_ops) : result collection :=
  match c with
  | [] => Ok []
  | d :: rest =>
      if id_matches v d then let! d' := apply_ops d ops in Ok (d' :: rest)
      else let! rest' := update_one rest v ops in Ok (d :: rest')
  end.

(** The query [{f: x}]: equality, or membership when the field is an array;
    a missing field matches [None]. *)
Definition field_matches (f : string) (x : value) (d : dict) : bool :=
  match dict_lookup f d with
  | Some (VList l) => list_contains x l || value_eqb (VList l) x
  | Some v => value_eqb v x
  | None => value_eqb x VNone
  end.

(** [collection.update_many(query, ops)]: the collection afterwards and
    [result.modified_count], the number of matched documents that changed. *)
Fixpoint update_many (c : collection) (q : dict -> bool) (ops : update_ops)
    : result (collection * nat) :=
  match c with
  | [] => Ok ([], 0%nat)
  | d :: rest =>
      if q d then
        let! d' := apply_ops d ops in
        let! r := update_many rest q ops in
        Ok (d' :: fst r, (if value_eqb (VDict d') (VDict d) then 0 else 1) + snd r)%nat
      else
        let! r := update_many rest q ops in Ok (d :: fst r, snd r)
  end.

(** [collection.find_one_and_update({"_id": v}, {"$set": upd},
    return_document=True, upsert=True)]: the collection afterwards and the
    document after the update. *)
Fixpoint update_first_by_id (c : collection) (v : value) (upd : dict)
    : option (collection * dict) :=
  match c with
  | [] => None
  | d :: rest =>
      if id_matches v d then let d' := apply_set d upd in Some (d' :: rest, d')
      else match update_first_by_id rest v upd with
           | Some (rest', d') => Some (d :: rest', d')
           | None => None
           end
  end.

Definition find_one_and_update_upsert (c : collection) (v : value) (upd : dict)
    : collection * dict :=
  match update_first_by_id c v upd with
  | Some r => r
  | None => let d := apply_set [("_id", v)] upd in ((c ++ [d])%list, d)
  end.

(** ** [app/services/user_service.py]: [MongoUserRepository] *)
Module UserRepo.

(** [data.get("email").split('@')[0]]: only a [str] has [split]. *)
Definition email_local_part (email : value) : result value :=
  match email with
  | VStr s => Ok (VStr (local_part s))
  | VNone => Err (AttributeError "'NoneType' object has no attribute 'split'")
  | _ => Err (AttributeError "object has no attribute 'split'")
  end.

Definition opt_truthy (o : option dict) : bool :=
  match o with Some d => truthy (VDict d) | None => false end.

(** [update(user_id, data)]: [datetime.now(timezone.utc)] is the instant [now]. *)
Definition sanitize (data : dict) : dict :=
  filter (fun kv => negb (existsb (String.eqb (fst kv)) ["_id"; "userId"; "createdAt"])) data.

Definition update (c : collection) (user_id : value) (data : dict) (now : datetime)
    : collection * dict :=
  let update_data := dict_set (sanitize data) "updatedAt" (VDate now) in
  find_one_and_update_upsert c user_id update_data.

(** The document [create] builds; Python evaluates the default of
    [data.get("username", ...)] before the lookup, so the email split runs
    even when a username is supplied. *)
Definition new_payload (cognito_id : value) (data : dict) (now : datetime) : result dict :=
  let! default_username := email_local_part (dict_get data "email" VNone) in
  Ok [("_id", cognito_id);
      ("email", dict_get data "email" VNone);
      ("name", dict_get data "name" VNone);
      ("username", dict_get data "username" default_username);
      ("gender", dict_get data "gender" (VStr ""));
      ("birthdate", dict_get data "birthdate" (VStr ""));
      ("role", VStr "student");
      ("avatar", VStr "");
      ("bio", VStr "");
      ("cognito_sub", cognito_id);
      ("serie_subscribe", VList []);
      ("createdAt", VDate now);
      ("updatedAt", VDate now);
      ("lastLogin", VDate now)].

Definition create (c : collection) (data : dict) (now : datetime)
    : result (collection * dict) :=
  let cognito_id := dict_get data "userId" VNone in
  if negb (truthy cognito_id) then Err (ValueError "userId is required")
  else
    let existing := find_one_by_id c cognito_id in
    if opt_truthy existing then Ok (update c cognito_id data now)
    else
      let! payload := new_payload cognito_id data now in
      let! c' := insert_one c payload in
      Ok (c', payload).

End UserRepo.

(** ** [app/clients/media_client.py]: [MediaServiceClient]

    [_make_request] either yields the decoded JSON of a 2xx response or
    raises; [http_outcome] is that outcome for one call. *)
Inductive http_outcome : Type :=
| HttpJson : value -> http_outcome
| HttpFailure : string -> http_outcome.

Module MediaClient.

(** [upload_thumbnail]: every exception is caught and gives [None];
    [result.get('url')] on a non-dict raises and is caught too. *)
Definition upload_thumbnail (resp : http_outcome) : value :=
  match resp with
  | HttpJson (VDict d) => dict_get d "url" VNone
  | HttpJson _ => VNone
  | HttpFailure _ => VNone
  end.

(** [delete_file]: never raises, [False] on any failure. *)
Definition delete_file (resp : http_outcome) : value :=
  match resp with
  | HttpJson (VDict d) => dict_get d "success" (VBool false)
  | HttpJson _ => VBool false
  | HttpFailure _ => VBool false
  end.

End MediaClient.

(** ** [UserService.update_user]

    [avatar_file] is the uploaded [FileStorage] by its filename
    ([bool(FileStorage)] is [bool(filename)]); [delete_resp] and
    [upload_resp] are the outcomes of the two Media-service calls. The third
    component lists the Media-service requests issued. *)
Module UserService.

Definition file_truthy (avatar_file : option string) : bool :=
  match avatar_file with Some fn => negb (String.eqb fn "") | None => false end.

Definition update_user (c : collection) (user_id : value) (data : dict)
    (avatar_file : option string) (delete_resp upload_resp : http_outcome)
    (now : datetime) : collection * dict * list string :=
  if file_truthy avatar_file then
    let current_user := find_one_by_id c user_id in
    let deletes :=
      match current_user with
      | Some cu =>
          if truthy (VDict cu) && truthy (dict_get cu "avatar" VNone)
          then let _ := MediaClient.delete_file delete_resp in ["DELETE /api/delete"]
          else []
      | None => []
      end in
    let avatar_url := MediaClient.upload_thumbnail upload_resp in
    let data' := if truthy avatar_url then dict_set data "avatar" avatar_url else data in
    let r := UserRepo.update c user_id data' now in
    (fst r, snd r, (deletes ++ ["POST /api/upload/thumbnail"])%list)
  else
    let r := UserRepo.update c user_id data now in (fst r, snd r, []).

(** [UserService.sync_cognito_user], branch for a user not found: the
    [name] default splits the email only when no truthy name is given. *)
Definition sync_new_user (c : collection) (user_data : dict) (cognito_sub email : value)
    (now : datetime) : collection * (value * value) :=
  let given_name := dict_get user_data "name" VNone in
  let name_r :=
    if truthy given_name then inl given_name
    else match email with
         | VStr e => inl (VStr (local_part e))
         | v => inr (attr_error v "split")
         end in
  match name_r with
  | inr msg => (c, (VNone, VStr msg))
  | inl name =>
      let new_user_data :=
        [("_id", cognito_sub); ("email", email); ("cognito_sub", cognito_sub); ("name", name);
         ("gender", dict_get user_data "gender" (VStr ""));
         ("birthdate", dict_get user_data "birthdate" (VStr ""));
         ("avatar", dict_get user_data "avatar" (VStr ""));
         ("role", VStr "student"); ("bio", VStr ""); ("serie_subscribe", VList []);
         ("createdAt", VDate now); ("updatedAt", VDate now); ("lastLogin", VDate now)] in
      match insert_one c new_user_data with
      | Ok c' => (c', (VDict new_user_data, VNone))
      | Err _ => (c, (VNone, VStr "E11000 duplicate key error"))
      end
  end.

(** [UserService.sync_cognito_user(user_data)]: the collection afterwards
    and the returned pair [(user, error)]; an exception is caught and gives
    [(None, str(e))]. *)
Definition sync_cognito_user (c : collection) (user_data : dict) (now : datetime)
    : collection * (value * value) :=
  let cognito_sub := dict_get user_data "cognito_sub" VNone in
  let email := dict_get user_data "email" VNone in
  if negb (truthy cognito_sub) || negb (truthy email)
  then (c, (VNone, VStr "Missing required user info"))
  else
    let by_id := find_one_by_id c cognito_sub in
    let existing_user :=
      if UserRepo.opt_truthy by_id then by_id else find (field_matches "email" email) c in
    match existing_user with
    | Some u =>
        if truthy (VDict u) then
          match dict_lookup "_id" u with
          | None => (c, (VNone, VStr "'_id'"))
          | Some uid =>
              match update_first_by_id c uid [("lastLogin", VDate now); ("updatedAt", VDate now)] with
              | Some (c', d') => (c', (VDict d', VNone))
              | None => (c, (VNone, VNone))
              end
          end
        else sync_new_user c user_data cognito_sub email now
    | None => sync_new_user c user_data cognito_sub email now
    end.

End UserService.

(** The attributes [authenticate_jwt] stores on [flask.g]. *)
Record flask_g := mk_flask_g {
  g_user_sub : value; g_user_email : value; g_user_name : value; g_user_role : value
}.

(** ** [app/blueprints/users.py] *)
Module UsersApi.

Record response := mk_response { status : Z; body : value }.

(** [_success_response(data, message, status)] *)
Definition success_response (data : value) (message : option string) (st : Z) : response :=
  mk_response st (VDict ([("success", VBool true); ("data", data)]
    ++ match message with Some m => if truthy (VStr m) then [("message", VStr m)] else [] | None => [] end)%list).

(** [_error_response(message, status)] *)
Definition error_response (message : string) (st : Z) : response :=
  mk_response st (VDict [("success", VBool false); ("message", VStr message)]).

Definition dq : string := String (ascii_of_nat 34) EmptyString.

(** [str(e)] *)
Definition exc_message (e : py_exc) : string :=
  match e with
  | ValueError m | AttributeError m | TypeError m | WriteError m
  | InvalidTokenError m | InvalidAudienceError m | JwtLibError m => m
  | DuplicateKeyError => "E11000 duplicate key error"
  | MissingRequiredClaimError cl => "Token is missing the " ++ dq ++ cl ++ dq ++ " claim"
  end.

(** [request.get_json() or {}] followed by a [.get]: a JSON body that is not
    an object fails on [.get]. *)
Definition json_body_dict (body : value) : result dict :=
  match (if truthy body then body else VDict []) with
  | VDict d => Ok d
  | _ => Err (AttributeError "object has no attribute 'get'")
  end.

(** [POST /api/v1/users/profile] (after [authenticate_jwt] let it through). *)
Definition create_profile (c : collection) (body : value) (now : datetime)
    : collection * response :=
  match json_body_dict body with
  | Err e => (c, error_response (exc_message e) 500)
  | Ok user_data =>
      let user_id := dict_get user_data "userId" VNone in
      if negb (truthy user_id) then (c, error_response "userId is required" 400)
      else if UserRepo.opt_truthy (find_one_by_id c user_id)
      then (c, error_response "User profile already exists" 409)
      else match UserRepo.create c user_data now with
           | Ok (c', r) => (c', success_response (VDict r) (Some "User profile created successfully") 201)
           | Err e => (c, error_response (exc_message e) 500)
           end
  end.

(** Python [x in container]. *)
Definition py_in (x container : value) : result bool :=
  match container with
  | VList l => Ok (list_contains x l)
  | VStr s =>
      match x with
      | VStr t => Ok (is_substring t s)
      | _ => Err (TypeError "'in <string>' requires string as left operand")
      end
  | VDict d =>
      match x with
      | VStr k => Ok (dict_has d k)
      | VList _ | VDict _ => Err (TypeError "unhashable type")
      | _ => Ok false
      end
  | _ => Err (TypeError "argument is not iterable")
  end.

(** [POST /api/v1/users/<user_id>/subscriptions] *)
Definition add_subscription (c : collection) (user_id : string) (body : value)
    (now : datetime) : collection * response :=
  match json_body_dict body with
  | Err e => (c, error_response (exc_message e) 500)
  | Ok data =>
      let serie_id := dict_get data "serie_id" VNone in
      if negb (truthy serie_id) then (c, error_response "serie_id is required" 400)
      else match find_one_by_id c (VStr user_id) with
      | None => (c, error_response "User not found" 404)
      | Some user =>
          if negb (truthy (VDict user)) then (c, error_response "User not found" 404)
          else
            let subscriptions := dict_get user "serie_subcribe" (VList []) in
            match py_in serie_id subscriptions with
            | Err e => (c, error_response (exc_message e) 500)
            | Ok true => (c, error_response "Already subscribed" 409)
            | Ok false =>
                match update_one c (VStr user_id)
                        (mk_ops [("serie_subcribe", serie_id)] [] [("updatedAt", VDate now)]) with
                | Ok c' => (c', success_response
                                  (VDict [("message", VStr "Subscription added successfully")]) None 200)
                | Err e => (c, error_response (exc_message e) 500)
                end
            end
      end
  end.

(** [DELETE /api/v1/users/subscriptions/serie/<serie_id>] *)
Definition remove_serie_ops (serie_id : string) (now : datetime) : update_ops :=
  mk_ops [] [("serie_subcribe", VStr serie_id)] [("updatedAt", VDate now)].

Definition remove_serie_response (n : nat) : response :=
  success_response
    (VDict [("message", VStr ("Serie removed from " ++ z_to_dec (Z.of_nat n) ++ " users"));
            ("modified_count", VInt (Z.of_nat n))]) None 200.

Definition remove_serie_from_all_users (c : collection) (serie_id : string) (now : datetime)
    : collection * response :=
  match update_many c (field_matches "serie_subcribe" (VStr serie_id)) (remove_serie_ops serie_id now) with
  | Ok (c', n) => (c', remove_serie_response n)
  | Err e => (c, error_response (exc_message e) 500)
  end.

(** [get_user_by_id(user_id)] followed by [if not user]. *)
Definition found_user (c : collection) (user_id : value) : option dict :=
  match find_one_by_id c user_id with
  | Some u => if truthy (VDict u) then Some u else None
  | None => None
  end.

(** [GET /api/v1/users/profile] for the identity [g]. *)
Definition get_current_profile (c : collection) (g : flask_g) (now : datetime)
    : collection * response :=
  let user_id := g_user_sub g in
  match found_user c user_id with
  | Some u => (c, success_response (VDict u) None 200)
  | None =>
      let user_data := [("userId", user_id); ("name", g_user_name g); ("email", g_user_email g)] in
      match UserRepo.create c user_data now with
      | Ok (c', u) => (c', success_response (VDict u) (Some "User profile created automatically") 201)
      | Err e => (c, error_response (exc_message e) 500)
      end
  end.

(** [PUT /api/v1/users/<user_id>]: [avatar_part] is the filename of the
    [avatar] part when the request has one (the data is then the form
    fields), otherwise the data is the JSON body or [{}]. *)
Definition update_user_profile (c : collection) (user_id : string) (avatar_part : option string)
    (form : dict) (body : value) (delete_resp upload_resp : http_outcome) (now : datetime)
    : collection * response :=
  let data := match avatar_part with
              | Some _ => VDict form
              | None => if truthy body then body else VDict []
              end in
  match found_user c (VStr user_id) with
  | None => (c, error_response "User not found" 404)
  | Some _ =>
      match data with
      | VDict d =>
          let r := UserService.update_user c (VStr user_id) d avatar_part delete_resp upload_resp now in
          (fst (fst r), success_response (VDict (snd (fst r))) (Some "User updated successfully") 200)
      | v => (c, error_response (attr_error v "items") 500)
      end
  end.

(** [POST /api/v1/users/sync]: [body] is the JSON body ([request.json]). *)
Definition sync_user (c : collection) (g : flask_g) (body : value) (now : datetime)
    : collection * response :=
  let name_r :=
    if truthy (g_user_name g) then inl (g_user_name g)
    else match body with
         | VDict d => inl (dict_get d "name" VNone)
         | v => inr (attr_error v "get")
         end in
  let info_r :=
    match (if truthy body then body else VDict []) with
    | VDict d => inl d
    | v => inr (attr_error v "get")
    end in
  match name_r, info_r with
  | inr msg, _ | inl _, inr msg => (c, mk_response 500 (VDict [("error", VStr msg)]))
  | inl name, inl additional_info =>
      let user_data := [("cognito_sub", g_user_sub g); ("email", g_user_email g); ("name", name)] in
      let user_data := dict_set user_data "gender" (dict_get additional_info "gender" VNone) in
      let user_data := dict_set user_data "birthdate" (dict_get additional_info "birthdate" VNone) in
      let user_data := dict_set user_data "avatar" (dict_get additional_info "avatar" VNone) in
      let r := UserService.sync_cognito_user c user_data now in
      let synced_user := fst (snd r) in
      let error := snd (snd r) in
      if truthy error then (fst r, mk_response 400 (VDict [("error", error)]))
      else (fst r, mk_response 200 (VDict [("success", VBool true);
                                           ("message", VStr "User synced successfully");
                                           ("data", synced_user)]))
  end.

(** [GET /api/v1/users/<user_id>/subscriptions] *)
Definition get_user_subscriptions (c : collection) (user_id : string) : response :=
  match found_user c (VStr user_id) with
  | None => error_response "User not found" 404
  | Some user =>
      let subscriptions := py_or (dict_get user "serie_subcribe" (VList []))
                                 (dict_get user "serie_subscribe" (VList [])) in
      success_response (VDict [("user_id", VStr user_id); ("subscriptions", subscriptions)]) None 200
  end.

(** [DELETE /api/v1/users/<user_id>/subscriptions/<serie_id>] *)
Definition remove_subscription (c : collection) (user_id serie_id : string) (now : datetime)
    : collection * response :=
  match found_user c (VStr user_id) with
  | None => (c, error_response "User not found" 404)
  | Some _ =>
      match update_one c (VStr user_id)
              (mk_ops [] [("serie_subcribe", VStr serie_id)] [("updatedAt", VDate now)]) with
      | Ok c' => (c', success_response
                        (VDict [("message", VStr "Subscription removed successfully")]) None 200)
      | Err e => (c, error_response (exc_message e) 500)
      end
  end.

(** [find({"serie_subcribe": serie_id}, {"email": 1, "_id": 0})] keeps the
    [email] field of each matching document. *)
Definition project_email (d : dict) : dict :=
  match dict_lookup "email" d with Some e => [("email", e)] | None => [] end.

(** [GET /api/v1/users/subscribers/<serie_id>] *)
Definition get_serie_subscribers (c : collection) (serie_id : string) : response :=
  let subscribers := map project_email (filter (field_matches "serie_subcribe" (VStr serie_id)) c) in
  let emails := filter truthy (map (fun sub => dict_get sub "email" VNone) subscribers) in
  success_response (VDict [("serie_id", VStr serie_id); ("emails", VList emails);
                           ("count", VInt (Z.of_nat (length emails)))]) None 200.

End UsersApi.

(** ** [app/utils/json_encoder.py]: [serialize_doc] *)
Fixpoint serialize_doc (doc : value) : value :=
  match doc with
  | VNone => VNone
  | VList l => VList (map serialize_doc l)
  | VDict d =>
      VDict (map (fun '(key, v) =>
        (key,
         match v with
         | VDate t => VStr (isoformat t)
         | VOid o => VStr o
         | VDict _ => serialize_doc v
         | VList l => VList (map serialize_doc l)
         | _ => v
         end)) d)
  | _ => doc
  end.

(** ** [app/utils/cache.py]: cache keys *)
Module Cache.

Definition KEY_PREFIX : string := "educonnect".

(** The parts of [flask.request] the key uses; [query_string] is the raw
    query string after [.decode('utf-8')]. *)
Record request := mk_request { method : string; path : string; query_string : string }.

(** [g.user] when it is set: the identity context. *)
Definition g_context := option dict.

(** [_build_cache_key(scope, include_user)] *)
Definition _build_cache_key (req : request) (g_user : g_context) (scope : string)
    (include_user : bool) : string :=
  let scope' :=
    if include_user then
      let user_id := dict_get (match g_user with Some u => u | None => [] end)
                              "userId" (VStr "anonymous") in
      "user_" ++ py_str user_id
    else scope in
  KEY_PREFIX ++ ":" ++ scope' ++ ":" ++ method req ++ ":" ++ path req ++ ":" ++ query_string req.

Definition make_cache_key_public (req : request) (g_user : g_context) : string :=
  _build_cache_key req g_user "public" false.

Definition make_cache_key_with_user (req : request) (g_user : g_context) : string :=
  _build_cache_key req g_user "user" true.

(** *** Redis key patterns

    [stringmatchlen] of Redis (case-sensitive), which [SCAN ... MATCH]
    applies to each key: [*], [?], [[...]] with [^] and ranges, and the
    escape [\]. [fuel] bounds the recursion by the pattern's length;
    [stringmatch] gives it enough. *)
Definition backslash : ascii := ascii_of_nat 92.

Definition in_range (a b c : ascii) : bool :=
  let x := nat_of_ascii a in let y := nat_of_ascii b in let z := nat_of_ascii c in
  if Nat.leb x y then Nat.leb x z && Nat.leb z y else Nat.leb y z && Nat.leb z x.

(** The body of a [[...]] class against the key character [c]: whether it
    matches, and the pattern after the closing [']'] (empty if unclosed). *)
Fixpoint bracket_scan (p : string) (c : ascii) (m : bool) : bool * string :=
  match p with
  | EmptyString => (m, EmptyString)
  | String a rest =>
      if Ascii.eqb a backslash then
        match rest with
        | String q rest' => bracket_scan rest' c (m || Ascii.eqb q c)
        | EmptyString => (m || Ascii.eqb a c, EmptyString)
        end
      else if Ascii.eqb a "]"%char then (m, rest)
      else match rest with
           | String d (String b rest'') =>
               if Ascii.eqb d "-"%char then bracket_scan rest'' c (m || in_range a b c)
               else bracket_scan rest c (m || Ascii.eqb a c)
           | _ => bracket_scan rest c (m || Ascii.eqb a c)
           end
  end.

Fixpoint strip_stars (p : string) : string :=
  match p with
  | String a rest => if Ascii.eqb a "*"%char then strip_stars rest else p
  | EmptyString => EmptyString
  end.

Fixpoint sm (fuel : nat) (p s : string) {struct fuel} : bool :=
  match fuel with
  | O => false
  | S f =>
      match p, s with
      | String a prest, String c srest =>
          if Ascii.eqb a "*"%char then
            match strip_stars prest with
            | EmptyString => true
            | p' => (fix try_from (t : string) : bool :=
                       match t with
                       | EmptyString => false
                       | String _ t' => sm f p' t || try_from t'
                       end) s
            end
          else
            let next :=
              if Ascii.eqb a "?"%char then Some prest
              else if Ascii.eqb a "["%char then
                let '(neg, body) :=
                  match prest with
                  | String x r => if Ascii.eqb x "^"%char then (true, r) else (false, prest)
                  | EmptyString => (false, EmptyString)
                  end in
                let '(m, rest) := bracket_scan body c false in
                if (if neg then negb m else m) then Some rest else None
              else if Ascii.eqb a backslash then
                match prest with
                | String q r => if Ascii.eqb q c then Some r else None
                | EmptyString => if Ascii.eqb a c then Some EmptyString else None
                end
              else if Ascii.eqb a c then Some prest else None in
            match next with
            | None => false
            | Some p' =>
                match srest with
                | EmptyString => match strip_stars p' with EmptyString => true | _ => false end
                | _ => sm f p' srest
                end
            end
      | EmptyString, EmptyString => true
      | _, _ => false
      end
  end.

Definition stringmatch (pattern key : string) : bool :=
  sm (S (String.length pattern)) pattern key.

(** *** Cache contents and invalidation

    The cache's entries by their stored key; Flask-Caching's Redis backend
    stores the key [k] as ["flask_cache_" ++ k]. [redis_up] is whether
    [_get_redis_client()] connects (taken to be the same for all the calls
    of one invalidation); [SCAN] is taken to report each key once. *)
Definition REDIS_KEY_PREFIX : string := "flask_cache_" ++ KEY_PREFIX.

Definition stored_key (k : string) : string := "flask_cache_" ++ k.

Definition cache_store := list (string * value).

(** [_delete_by_pattern(pattern)]: the entries afterwards and the count
    returned ([-1] after [cache.clear()]). *)
Definition _delete_by_pattern (redis_up : bool) (store : cache_store) (pattern : string)
    : cache_store * Z :=
  if redis_up then
    (filter (fun kv => negb (stringmatch pattern (fst kv))) store,
     Z.of_nat (length (filter (fun kv => stringmatch pattern (fst kv)) store)))
  else ([], -1).

Definition delete_all (store : cache_store) (patterns : list string) : cache_store :=
  fold_left (fun st pat => fst (_delete_by_pattern true st pat)) patterns store.

(** [invalidate_series_cache(serie_id)] *)
Definition invalidate_series_cache (redis_up : bool) (store : cache_store)
    (serie_id : option string) : cache_store :=
  if redis_up then
    let patterns :=
      app [REDIS_KEY_PREFIX ++ ":public:GET:/api/v1/series*";
           REDIS_KEY_PREFIX ++ ":user_*:GET:/api/v1/series/subscriptions*";
           REDIS_KEY_PREFIX ++ ":user_*:GET:/api/v1/series/me*"]
       (match serie_id with
          | Some sid =>
              if truthy (VStr sid)
              then [REDIS_KEY_PREFIX ++ ":public:GET:/api/v1/series/" ++ sid ++ "*";
                    REDIS_KEY_PREFIX ++ ":user_*:GET:/api/v1/series/" ++ sid ++ "/lessons*"]
              else []
          | None => []
          end) in
    delete_all store patterns
  else [].

(** [invalidate_lessons_cache(series_id, lesson_id)] *)
Definition invalidate_lessons_cache (redis_up : bool) (store : cache_store)
    (series_id : string) (lesson_id : option string) : cache_store :=
  if redis_up then
    let base_pattern := REDIS_KEY_PREFIX ++ ":user_*:GET:/api/v1/series/" ++ series_id ++ "/lessons" in
    let store1 :=
      match lesson_id with
      | Some lid =>
          if truthy (VStr lid)
          then fst (_delete_by_pattern true store (base_pattern ++ "/" ++ lid ++ "*"))
          else store
      | None => store
      end in
    fst (_delete_by_pattern true store1 (base_pattern ++ "*"))
  else [].

(** [invalidate_user_cache(user_id)] *)
Definition invalidate_user_cache (redis_up : bool) (store : cache_store) (user_id : string)
    : cache_store :=
  fst (_delete_by_pattern redis_up store (REDIS_KEY_PREFIX ++ ":user_" ++ user_id ++ ":*")).

(** [invalidate_all_cache()]: the entries afterwards and the count. *)
Definition invalidate_all_cache (redis_up : bool) (store : cache_store) : cache_store * Z :=
  _delete_by_pattern redis_up store (REDIS_KEY_PREFIX ++ ":*").

End Cache.

(** ** [app/middleware/auth.py]: [_verify_token]

    The file runs [import jwt] and then [from jose import jwt, jwk], so inside
    [_verify_token] the name [jwt] is python-jose's module [jose.jwt], not
    PyJWT. A module is its attribute names, the keyword parameters of its
    [decode], and the behaviour of its functions: each returns its result or
    [Err] with what it raises. An [except jwt.<C>] clause evaluates
    [jwt.<C>] only once the [try] body has raised; a missing attribute then
    raises [AttributeError] in place of the first exception. *)
Module Auth.

Record jwt_module := mk_jwt_module {
  jm_name : string;
  jm_attrs : list string;
  jm_decode_params : list string;      (* the parameters of [decode] *)
  jm_decode_required : list string;    (* those without a default *)
  jm_get_unverified_header : string -> result dict;
  jm_decode : string -> dict -> result dict;   (* [decode(token, **kwargs)] *)
  (* [isinstance(e, jwt.<path>)], for a path whose first attribute exists *)
  jm_isinstance : py_exc -> list string -> bool
}.

(** The module-level names of python-jose's [jose/jwt.py]. *)
Definition jose_jwt_attrs : list string :=
  ["json"; "timegm"; "datetime"; "timedelta"; "Mapping"; "jws"; "ALGORITHMS";
   "ExpiredSignatureError"; "JWSError"; "JWTClaimsError"; "JWTError";
   "calculate_at_hash"; "timedelta_total_seconds"; "encode"; "decode";
   "get_unverified_header"; "get_unverified_headers"; "get_unverified_claims";
   "_validate_iat"; "_validate_nbf"; "_validate_exp"; "_validate_aud"; "_validate_iss";
   "_validate_sub"; "_validate_jti"; "_validate_at_hash"; "_validate_claims"].

(** [jose.jwt.decode(token, key, algorithms=None, options=None, audience=None,
    issuer=None, subject=None, access_token=None)] *)
Definition jose_decode_params : list string :=
  ["token"; "key"; "algorithms"; "options"; "audience"; "issuer"; "subject"; "access_token"].

Definition jose_jwt (get_header : string -> result dict) (dec : string -> dict -> result dict)
    (inst : py_exc -> list string -> bool) : jwt_module :=
  mk_jwt_module "jose.jwt" jose_jwt_attrs jose_decode_params ["token"; "key"] get_header dec inst.

Definition has_attr (m : jwt_module) (n : string) : bool := existsb (String.eqb n) (jm_attrs m).

Definition no_attr (m : jwt_module) (n : string) : py_exc :=
  AttributeError ("module '" ++ jm_name m ++ "' has no attribute '" ++ n ++ "'").

(** [raise jwt.<cls>(...)] *)
Definition raise_jwt {A : Type} (m : jwt_module) (cls : string) (e : py_exc) : result A :=
  if has_attr m cls then Err e else Err (no_attr m cls).

(** [except jwt.<path>:] reached with the exception [e]. *)
Definition except_jwt {A : Type} (m : jwt_module) (path : list string) (e : py_exc)
    (handler : result A) : result A :=
  match path with
  | [] => Err e
  | n :: _ =>
      if has_attr m n then (if jm_isinstance m e path then handler else Err e)
      else Err (no_attr m n)
  end.

(** [jwt.decode(token, **kwargs)]: Python binds the arguments first, and an
    unknown keyword or a missing required argument raises [TypeError]. *)
Definition call_decode (m : jwt_module) (token : string) (kwargs : dict) : result dict :=
  match find (fun kv => negb (existsb (String.eqb (fst kv)) (jm_decode_params m))) kwargs with
  | Some (k, _) => Err (TypeError ("decode() got an unexpected keyword argument '" ++ k ++ "'"))
  | None =>
      match find (fun p => negb (existsb (String.eqb p) ("token" :: map fst kwargs)))
                 (jm_decode_required m) with
      | Some p => Err (TypeError ("decode() missing 1 required positional argument: '" ++ p ++ "'"))
      | None => jm_decode m token kwargs
      end
  end.

(** The configuration [_verify_token] reads: [_get_jwks_client()] (a client
    is its [get_signing_key_from_jwt], giving [signing_key.key]),
    [_get_issuer()], [COGNITO_APP_CLIENT_ID], and [int(JWT_LEEWAY)], which
    raises [ValueError] on a text that is not an integer. *)
Record auth_config := mk_auth_config {
  jwks_client : option (string -> result value);
  issuer : option string;
  app_client_id : option string;
  jwt_leeway : result Z
}.

Definition str_opt_truthy (o : option string) : bool :=
  match o with Some s => truthy (VStr s) | None => false end.

Definition opt_str_value (o : option string) : value :=
  match o with Some s => VStr s | None => VNone end.

Definition no_verify_aud : value := VDict [("verify_aud", VBool false)].

(** [decode_options] as built before the verifying decode. *)
Definition decode_options_for (cfg : auth_config) (leeway : Z) (token_use : value) : dict :=
  let o1 := [("algorithms", VList [VStr "RS256"]); ("leeway", VInt leeway)] in
  let o2 := if str_opt_truthy (issuer cfg) then dict_set o1 "issuer" (opt_str_value (issuer cfg)) else o1 in
  if value_eqb token_use (VStr "id") then
    if str_opt_truthy (app_client_id cfg)
    then dict_set o2 "audience" (opt_str_value (app_client_id cfg))
    else dict_set o2 "options" no_verify_aud
  else dict_set o2 "options" no_verify_aud.

Definition _verify_token (m : jwt_module) (cfg : auth_config) (token : string) : result dict :=
  let! header :=
    match jm_get_unverified_header m token with
    | Ok h => Ok h
    | Err e => except_jwt m ["InvalidTokenError"] e
                 (raise_jwt m "InvalidTokenError"
                    (InvalidTokenError ("Invalid token header: " ++ UsersApi.exc_message e)))
    end in
  let kid := dict_get header "kid" VNone in
  if negb (truthy kid) then raise_jwt m "InvalidTokenError" (InvalidTokenError "Token missing kid in header")
  else
  match jwks_client cfg with
  | None => raise_jwt m "InvalidTokenError" (InvalidTokenError "JWKS client not available")
  | Some get_signing_key_from_jwt =>
  let! key :=
    match get_signing_key_from_jwt token with
    | Ok k => Ok k
    | Err e => raise_jwt m "InvalidTokenError"
                 (InvalidTokenError ("Failed to get signing key: " ++ UsersApi.exc_message e))
    end in
  let unverified_payload :=
    match call_decode m token [("options", VDict [("verify_signature", VBool false)])] with
    | Ok p => p
    | Err _ => []
    end in
  let token_use := dict_get unverified_payload "token_use" VNone in
  let! leeway := jwt_leeway cfg in
  let opts := decode_options_for cfg leeway token_use in
  let! payload :=
    match call_decode m token (("key", key) :: opts) with
    | Ok p => Ok p
    | Err e =>
        except_jwt m ["exceptions"; "MissingRequiredClaimError"] e
          (if is_substring "aud" (UsersApi.exc_message e) && value_eqb token_use (VStr "access")
           then call_decode m token (("key", key) :: dict_set opts "options" no_verify_aud)
           else Err e)
    end in
  let! _ :=
    if value_eqb token_use (VStr "access") && str_opt_truthy (app_client_id cfg) then
      let token_client_id := dict_get payload "client_id" VNone in
      if truthy token_client_id && negb (value_eqb token_client_id (opt_str_value (app_client_id cfg)))
      then raise_jwt m "InvalidAudienceError" (InvalidAudienceError "Token client_id mismatch")
      else Ok tt
    else Ok tt in
  if truthy token_use && negb (value_eqb token_use (VStr "id") || value_eqb token_use (VStr "access"))
  then raise_jwt m "InvalidTokenError" (InvalidTokenError ("Invalid token_use: " ++ py_str token_use))
  else Ok payload
  end.

(** *** Configuration lookups *)

(** The process environment ([os.environ]). *)
Definition environ := list (string * string).

(** [os.getenv(key, default)] *)
Definition getenv (env : environ) (key : string) (default : value) : value :=
  match find (fun kv => String.eqb (fst kv) key) env with
  | Some kv => VStr (snd kv)
  | None => default
  end.

(** [_get_config(key, default)]: [app_config] is [current_app.config], or
    [None] outside an application context ([RuntimeError]). *)
Definition _get_config (app_config : option dict) (env : environ) (key : string)
    (default : value) : value :=
  match app_config with
  | Some cfg => dict_get cfg key (getenv env key default)
  | None => getenv env key default
  end.

Definition cognito_pool_and_region (app_config : option dict) (env : environ) : value * value :=
  (py_or (_get_config app_config env "COGNITO_USER_POOL_ID" VNone)
         (_get_config app_config env "COGNITO_POOL_ID" VNone),
   py_or (_get_config app_config env "COGNITO_REGION" VNone)
         (_get_config app_config env "AWS_REGION" (VStr "ap-southeast-1"))).

(** [_get_jwks_url()] *)
Definition _get_jwks_url (app_config : option dict) (env : environ) : value :=
  let jwks_url := py_or (_get_config app_config env "COGNITO_JWKS_URL" VNone)
                        (_get_config app_config env "JWKS_URL" VNone) in
  if truthy jwks_url then jwks_url
  else
    let '(pool_id, region) := cognito_pool_and_region app_config env in
    if truthy pool_id && truthy region
    then VStr ("https://cognito-idp." ++ py_str region ++ ".amazonaws.com/" ++ py_str pool_id
               ++ "/.well-known/jwks.json")
    else VNone.

(** [_get_issuer()] *)
Definition _get_issuer (app_config : option dict) (env : environ) : value :=
  let iss := py_or (_get_config app_config env "JWT_ISSUER" VNone)
                   (_get_config app_config env "COGNITO_ISSUER" VNone) in
  if truthy iss then iss
  else
    let '(pool_id, region) := cognito_pool_and_region app_config env in
    if truthy pool_id && truthy region
    then VStr ("https://cognito-idp." ++ py_str region ++ ".amazonaws.com/" ++ py_str pool_id)
    else VNone.

(** *** The [authenticate_jwt] decorator

    It uses [jose.jwt] (the later import shadows PyJWT). An exception of the
    verification is [ExpiredSignatureError], [JWTClaimsError] or any other
    one, by its [str]. *)
Inductive jose_error : Type :=
| ExpiredSignature : jose_error
| JWTClaims : string -> jose_error
| JoseOther : string -> jose_error.

Inductive jresult (A : Type) : Type :=
| JOk : A -> jresult A
| JErr : jose_error -> jresult A.
Arguments JOk {A} _.
Arguments JErr {A} _.

(** [jwt.get_unverified_header], [jwk.construct(key).to_pem()] and
    [jwt.decode(token, pem, algorithms=['RS256'], audience=APP_CLIENT_ID,
    issuer=..., options=...)] with the module's constants. *)
Record jose_lib := mk_jose_lib {
  jose_get_unverified_header : string -> jresult dict;
  jose_to_pem : value -> jresult value;
  jose_decode : string -> value -> jresult dict
}.

(** [s.split(" ")] *)
Fixpoint split_on (c : ascii) (s : string) : list string :=
  match s with
  | EmptyString => [EmptyString]
  | String a rest =>
      if Ascii.eqb a c then EmptyString :: split_on c rest
      else match split_on c rest with
           | w :: ws => String a w :: ws
           | [] => [String a EmptyString]
           end
  end.

(** The token the decorator reads from the [Authorization] header: the
    part after ["Bearer "] up to the next space. After the [startswith]
    test the split has at least two parts. *)
Definition bearer_token (authorization : option string) : option string :=
  match authorization with
  | Some auth_header =>
      if String.prefix "Bearer " auth_header then
        match split_on " "%char auth_header with
        | _ :: t :: _ => Some t
        | _ => None
        end
      else None
  | None => None
  end.

(** [v[k]] for a string key, with the message of the error it raises. *)
Definition py_getitem (v : value) (k : string) : jresult value :=
  match v with
  | VDict d => match dict_lookup k d with
               | Some x => JOk x
               | None => JErr (JoseOther ("'" ++ k ++ "'"))
               end
  | VList _ => JErr (JoseOther "list indices must be integers or slices, not str")
  | VStr _ => JErr (JoseOther "string indices must be integers, not 'str'")
  | v => JErr (JoseOther ("'" ++ py_type_name v ++ "' object is not subscriptable"))
  end.

(** [for x in v] *)
Definition py_iter (v : value) : jresult (list value) :=
  match v with
  | VList l => JOk l
  | VDict d => JOk (map (fun kv => VStr (fst kv)) d)
  | VStr s => JOk (map (fun a => VStr (String a EmptyString)) (list_ascii_of_string s))
  | v => JErr (JoseOther ("'" ++ py_type_name v ++ "' object is not iterable"))
  end.

(** The key loop: the PEM of the first key whose [kid] equals the header's,
    [None] when no key does. *)
Fixpoint find_pem (lib : jose_lib) (keys : list value) (header : dict) : jresult value :=
  match keys with
  | [] => JOk VNone
  | key :: rest =>
      match py_getitem key "kid" with
      | JErr e => JErr e
      | JOk kid =>
          match py_getitem (VDict header) "kid" with
          | JErr e => JErr e
          | JOk hkid => if value_eqb kid hkid then jose_to_pem lib key else find_pem lib rest header
          end
      end
  end.

(** What the decorator does: answer the request itself, or call the route
    with [flask.g] set. *)
Inductive auth_outcome : Type :=
| AuthDenied : UsersApi.response -> auth_outcome
| AuthPassed : flask_g -> auth_outcome.

Definition deny_401 (m : string) : auth_outcome :=
  AuthDenied (UsersApi.mk_response 401 (VDict [("message", VStr m)])).

(** The three [except] clauses. *)
Definition jose_failure (e : jose_error) : auth_outcome :=
  match e with
  | ExpiredSignature => deny_401 "Token expired"
  | JWTClaims m => deny_401 ("Invalid claims: " ++ m)
  | JoseOther m => deny_401 ("Invalid token: " ++ m)
  end.

(** [authenticate_jwt(f)] on a request: [authorization] is the
    [Authorization] header if present, [jwks_resp] the outcome of
    [requests.get(COGNITO_JWKS_URL).json()]. *)
Definition authenticate_jwt (lib : jose_lib) (c : collection) (authorization : option string)
    (jwks_resp : http_outcome) : auth_outcome :=
  match bearer_token authorization with
  | None => deny_401 "Token is missing"
  | Some token =>
  if String.eqb token "" then deny_401 "Token is missing" else
  match jwks_resp with
  | HttpFailure m => jose_failure (JoseOther m)
  | HttpJson jwks =>
  match jose_get_unverified_header lib token with
  | JErr e => jose_failure e
  | JOk header =>
  match py_getitem jwks "keys" with
  | JErr e => jose_failure e
  | JOk keys =>
  match py_iter keys with
  | JErr e => jose_failure e
  | JOk ks =>
  match find_pem lib ks header with
  | JErr e => jose_failure e
  | JOk pem_key =>
  if negb (truthy pem_key) then deny_401 "Unable to find appropriate key" else
  match jose_decode lib token pem_key with
  | JErr e => jose_failure e
  | JOk payload =>
  match py_getitem (VDict payload) "sub" with
  | JErr e => jose_failure e
  | JOk user_sub =>
      let user_email := dict_get payload "email" VNone in
      let user_name := py_or (dict_get payload "name" VNone)
                             (dict_get payload "cognito:username" VNone) in
      let user_role := match UsersApi.found_user c user_sub with
                       | Some u => dict_get u "role" (VStr "student")
                       | None => VStr "student"
                       end in
      AuthPassed (mk_flask_g user_sub user_email user_name user_role)
  end end end end end end end
  end.

(** [instructor_required(f)]: [None] when the route runs; [g] is [None]
    when [authenticate_jwt] did not set [g.user_role]. *)
Definition instructor_required (g : option flask_g) : option UsersApi.response :=
  match g with
  | None => Some (UsersApi.mk_response 401 (VDict [("message", VStr "Authentication required first")]))
  | Some g =>
      if list_contains (g_user_role g) [VStr "instructor"; VStr "admin"] then None
      else Some (UsersApi.mk_response 403
                   (VDict [("success", VBool false);
                           ("message", VStr "Permission denied. Instructor role required.")]))
  end.

End Auth.

(** ** [app/blueprints/auth.py] *)
Module AuthApi.

(** [POST /api/v1/auth/verify]; its [_success_response] is the same code as
    the users blueprint's. *)
Definition verify_jwt (c : collection) (g : flask_g) : UsersApi.response :=
  let user := UsersApi.found_user c (g_user_sub g) in
  let role := match user with Some u => dict_get u "role" (VStr "student") | None => VStr "student" end in
  UsersApi.success_response (VDict [("user_id", g_user_sub g); ("email", g_user_email g);
                                    ("name", g_user_name g); ("role", role)]) None 200.

End AuthApi.

(** ** Predicates used by the statements *)

(** The subscription array the subscription endpoints read and write is the
    field [serie_subcribe]. A stored document obeys the data-model invariant
    when that field is absent or an array holding each id at most once. *)
Definition subs_ok (d : dict) : Prop :=
  match dict_lookup "serie_subcribe" d with
  | None => True
  | Some (VList l) => forall x, (count_eq x l <= 1)%nat
  | Some _ => False
  end.

Definition store_subs_ok (c : collection) : Prop := Forall subs_ok c.

(** The subscription array of user [uid] as stored in [c]. *)
Definition user_subs (c : collection) (uid : string) : option value :=
  match find_one_by_id c (VStr uid) with
  | Some d => dict_lookup "serie_subcribe" d
  | None => None
  end.

(** A sequence of [POST /<user_id>/subscriptions] calls, each with its user
    id, JSON body and instant. *)
Fixpoint run_add_subscriptions (c : collection) (calls : list (string * value * datetime))
    : collection :=
  match calls with
  | [] => c
  | (uid, body, now) :: rest =>
      run_add_subscriptions (fst (UsersApi.add_subscription c uid body now)) rest
  end.

(** The subscription field is absent or an array (the data model's type). *)
Definition subs_typed (d : dict) : Prop :=
  match dict_lookup "serie_subcribe" d with
  | None => True
  | Some (VList _) => True
  | Some _ => False
  end.

(** The user's [serie_subcribe] array contains [x]. *)
Definition has_sub (x : value) (d : dict) : bool :=
  match dict_lookup "serie_subcribe" d with
  | Some (VList l) => list_contains x l
  | _ => false
  end.

(** A document with every [x] taken out of its array and [updatedAt] set. *)
Definition pull_serie (x : value) (now : datetime) (d : dict) : dict :=
  match dict_lookup "serie_subcribe" d with
  | Some (VList l) =>
      dict_set (dict_set d "serie_subcribe" (VList (filter (fun y => negb (value_eqb y x)) l)))
               "updatedAt" (VDate now)
  | _ => d
  end.

(** The role [authenticate_jwt] and [verify_jwt] read for an identity:
    the stored [role], [student] by default. *)
Definition stored_role (c : collection) (sub : value) : value :=
  match UsersApi.found_user c sub with
  | Some u => dict_get u "role" (VStr "student")
  | None => VStr "student"
  end.

(** A value with no [datetime] and no [ObjectId] anywhere in it. *)
Fixpoint json_safe (v : value) : bool :=
  match v with
  | VDate _ | VOid _ => false
  | VList l => forallb json_safe l
  | VDict d => forallb (fun kv => json_safe (snd kv)) d
  | _ => true
  end.

(** The declarative reading of a key pattern built from literal characters
    and [*]: a [*] matches any run of characters, the empty one included. *)
Fixpoint tails (s : string) : list string :=
  s :: match s with EmptyString => [] | String _ t => tails t end.

Fixpoint glob_match (p s : string) : bool :=
  match p with
  | EmptyString => String.eqb s EmptyString
  | String a p' =>
      if Ascii.eqb a "*"%char then existsb (glob_match p') (tails s)
      else match s with
           | EmptyString => false
           | String c s' => Ascii.eqb a c && glob_match p' s'
           end
  end.

(** A pattern with none of Redis' [?], [[] and [\]. *)
Fixpoint plain_pattern (p : string) : bool :=
  match p with
  | EmptyString => true
  | String a rest =>
      negb (Ascii.eqb a "?"%char || Ascii.eqb a "["%char || Ascii.eqb a Cache.backslash)
      && plain_pattern rest
  end.

(** A string with no character that is special in a Redis pattern. *)
Definition glob_literal (s : string) : bool :=
  plain_pattern s && negb (is_substring "*" s).

(** ** Sample inputs used by the witnesses and counterexamples *)
Definition t_now : datetime := mk_datetime 2025 3 14 10 30 0 0 true.
Definition t_later : datetime := mk_datetime 2025 3 14 11 0 0 0 true.

(** python-jose with every token's header [sample_header] and every
    [decode] that binds its arguments giving [p]: a token that passes
    signature, issuer and expiration verification. *)
Definition sample_header : dict := [("kid", VStr "key-1"); ("alg", VStr "RS256")].

Definition sample_jose_jwt (p : dict) : Auth.jwt_module :=
  Auth.jose_jwt (fun _ => Ok sample_header) (fun _ _ => Ok p) (fun _ _ => false).

(** The claims of an access token, with its [client_id] claim if any. *)
Definition access_payload (client_id : option value) : dict :=
  ([("sub", VStr "u1"); ("token_use", VStr "access"); ("iss", VStr "https://issuer")]
   ++ match client_id with Some v => [("client_id", v)] | None => [] end)%list.

Definition sample_auth_config : Auth.auth_config :=
  Auth.mk_auth_config (Some (fun _ => Ok (VStr "rsa-public-key"))) (Some "https://issuer") (Some "app1") (Ok 0).


Definition media_down : http_outcome := HttpFailure "Connection refused".

(** A [jose] environment whose header names key [k1], whose JWKS holds that
    key, and whose decode gives the claims [p]. *)
Definition sample_jose_lib (p : dict) : Auth.jose_lib :=
  Auth.mk_jose_lib (fun _ => Auth.JOk [("kid", VStr "k1"); ("alg", VStr "RS256")])
                   (fun _ => Auth.JOk (VStr "rsa-public-key")) (fun _ _ => Auth.JOk p).

Definition sample_jwks : http_outcome :=
  HttpJson (VDict [("keys", VList [VDict [("kid", VStr "k0")]; VDict [("kid", VStr "k1")]])]).

Definition sample_request : Cache.request :=
  Cache.mk_request "GET" "/api/v1/series/subscriptions" "".

(** * Proofs *)

(** ** Structural equality on values *)

Section ValueInd.
Variable P : value -> Prop.
Hypothesis HNone : P VNone.
Hypothesis HBool : forall b, P (VBool b).
Hypothesis HInt : forall z, P (VInt z).
Hypothesis HStr : forall s, P (VStr s).
Hypothesis HDate : forall t, P (VDate t).
Hypothesis HOid : forall o, P (VOid o).
Hypothesis HList : forall l, Forall P l -> P (VList l).
Hypothesis HDict : forall d, Forall (fun kv => P (snd kv)) d -> P (VDict d).

Fixpoint value_ind' (v : value) : P v :=
  match v with
  | VNone => HNone
  | VBool b => HBool b
  | VInt z => HInt z
  | VStr s => HStr s
  | VDate t => HDate t
  | VOid o => HOid o
  | VList l =>
      HList l ((fix go (l : list value) : Forall P l :=
                  match l with
                  | [] => Forall_nil _
                  | x :: xs => Forall_cons x (value_ind' x) (go xs)
                  end) l)
  | VDict d =>
      HDict d ((fix go (d : list (string * value)) : Forall (fun kv => P (snd kv)) d :=
                  match d with
                  | [] => Forall_nil _
                  | (k, x) :: xs => Forall_cons (k, x) (value_ind' x) (go xs)
                  end) d)
  end.
End ValueInd.

Lemma datetime_eqb_eq (a b : datetime) : datetime_eqb a b = true <-> a = b.
Proof.
  destruct a as [y1 m1 d1 h1 n1 s1 u1 z1], b as [y2 m2 d2 h2 n2 s2 u2 z2].
  unfold datetime_eqb; simpl.
  rewrite !andb_true_iff, !Z.eqb_eq, Bool.eqb_true_iff.
  split.
  - intros [[[[[[[-> ->] ->] ->] ->] ->] ->] ->]; reflexivity.
  - intros H; inversion H; subst; tauto.
Qed.

Lemma value_eqb_eq (a b : value) : value_eqb a b = true -> a = b.
Proof.
  revert b; induction a using value_ind'; intros w Hb; destruct w; simpl in Hb;
    try discriminate.
  - reflexivity.
  - destruct b, b0; simpl in Hb; congruence.
  - apply Z.eqb_eq in Hb; now subst.
  - apply String.eqb_eq in Hb; now subst.
  - apply datetime_eqb_eq in Hb; now subst.
  - apply String.eqb_eq in Hb; now subst.
  - f_equal. revert l0 Hb; induction H; intros [|y ys] Hb; try discriminate.
    + reflexivity.
    + apply andb_true_iff in Hb as [H1 H2]. f_equal; auto.
  - f_equal. revert l Hb; induction H; intros [|[k2 y] ys] Hb;
      try destruct x as [k1 x]; simpl in *; try discriminate.
    + reflexivity.
    + apply andb_true_iff in Hb as [H1 H3]; apply andb_true_iff in H1 as [Hk H1].
      apply String.eqb_eq in Hk; subst. f_equal; [f_equal; auto | auto].
Qed.

Lemma value_eqb_refl (a : value) : value_eqb a a = true.
Proof.
  induction a using value_ind'; simpl;
    try apply Bool.eqb_reflx; try apply Z.eqb_refl; try apply String.eqb_refl; auto.
  - apply datetime_eqb_eq; reflexivity.
  - induction H; simpl; auto. rewrite H, IHForall; reflexivity.
  - induction H; simpl; auto. destruct x as [k x]; simpl in *.
    rewrite String.eqb_refl, H, IHForall; reflexivity.
Qed.

Lemma value_eqb_true_iff (a b : value) : value_eqb a b = true <-> a = b.
Proof.
  split; [apply value_eqb_eq | intros ->; apply value_eqb_refl].
Qed.

Lemma value_eqb_sym (a b : value) : value_eqb a b = value_eqb b a.
Proof.
  destruct (value_eqb a b) eqn:E1, (value_eqb b a) eqn:E2; auto.
  - apply value_eqb_eq in E1; subst; rewrite value_eqb_refl in E2; discriminate.
  - apply value_eqb_eq in E2; subst; rewrite value_eqb_refl in E1; discriminate.
Qed.

(** ** Dictionaries *)

Lemma lookup_dict_set (d : dict) (k k' : string) (v : value) :
  dict_lookup k (dict_set d k' v) = (if String.eqb k k' then Some v else dict_lookup k d).
Proof.
  induction d as [|[k0 v0] rest IH]; simpl.
  - reflexivity.
  - destruct (String.eqb k' k0) eqn:E1; simpl.
    + apply String.eqb_eq in E1; subst.
      destruct (String.eqb k k0); reflexivity.
    + rewrite IH. destruct (String.eqb k k0) eqn:E2, (String.eqb k k') eqn:E3; auto.
      apply String.eqb_eq in E2; apply String.eqb_eq in E3; subst.
      rewrite String.eqb_refl in E1; discriminate.
Qed.

Lemma keys_dict_set (d : dict) (k : string) (v : value) :
  map fst (dict_set d k v) =
  (if existsb (String.eqb k) (map fst d) then map fst d else (map fst d ++ [k])%list).
Proof.
  induction d as [|[k0 v0] rest IH]; simpl; auto.
  destruct (String.eqb k k0) eqn:E; simpl; auto.
  rewrite IH. destruct (existsb (String.eqb k) (map fst rest)); reflexivity.
Qed.

Lemma existsb_eqb_In (k : string) (l : list string) :
  existsb (String.eqb k) l = true <-> In k l.
Proof.
  rewrite existsb_exists. split.
  - intros [x [Hx Hk]]. apply String.eqb_eq in Hk; subst; auto.
  - intros H. exists k; split; auto. apply String.eqb_refl.
Qed.

Lemma NoDup_keys_dict_set (d : dict) (k : string) (v : value) :
  NoDup (map fst d) -> NoDup (map fst (dict_set d k v)).
Proof.
  intros H. rewrite keys_dict_set.
  destruct (existsb (String.eqb k) (map fst d)) eqn:E; auto.
  apply NoDup_app; auto.
  - constructor; [intros []| constructor].
  - intros x Hx [<-|[]]. apply existsb_eqb_In in Hx. congruence.
Qed.

Lemma lookup_apply_set_notin (d upd : dict) (k : string) :
  ~ In k (map fst upd) -> dict_lookup k (apply_set d upd) = dict_lookup k d.
Proof.
  unfold apply_set. revert d.
  induction upd as [|[k0 v0] rest IH]; intros d Hk; simpl in *; auto.
  rewrite IH by tauto. rewrite lookup_dict_set.
  destruct (String.eqb k k0) eqn:E; auto.
  apply String.eqb_eq in E; subst; tauto.
Qed.

Lemma lookup_apply_set_in (d upd : dict) (k : string) (v : value) :
  NoDup (map fst upd) -> dict_lookup k upd = Some v ->
  dict_lookup k (apply_set d upd) = Some v.
Proof.
  unfold apply_set. revert d.
  induction upd as [|[k0 v0] rest IH]; intros d Hnd Hk; simpl in *; [discriminate|].
  inversion Hnd as [|? ? Hnin Hnd']; subst.
  destruct (String.eqb k k0) eqn:E.
  - injection Hk as <-. apply String.eqb_eq in E; subst.
    fold (apply_set (dict_set d k0 v0) rest).
    rewrite lookup_apply_set_notin by auto.
    rewrite lookup_dict_set, String.eqb_refl; reflexivity.
  - apply IH; auto.
Qed.

Lemma lookup_in_keys (d : dict) (k : string) (v : value) :
  dict_lookup k d = Some v -> In k (map fst d).
Proof.
  induction d as [|[k0 v0] rest IH]; simpl; [discriminate|].
  destruct (String.eqb k k0) eqn:E; intros H.
  - apply String.eqb_eq in E; auto.
  - auto.
Qed.

Lemma lookup_notin_keys (d : dict) (k : string) :
  ~ In k (map fst d) -> dict_lookup k d = None.
Proof.
  destruct (dict_lookup k d) eqn:E; auto.
  intros H; exfalso; apply H; eapply lookup_in_keys; eauto.
Qed.

Lemma lookup_filter (p : string * value -> bool) (d : dict) (k : string) :
  (forall v, p (k, v) = true) ->
  dict_lookup k (filter p d) = dict_lookup k d.
Proof.
  intros Hp. induction d as [|[k0 v0] rest IH]; simpl; auto.
  destruct (String.eqb k k0) eqn:E.
  - apply String.eqb_eq in E; subst. rewrite Hp; simpl. rewrite String.eqb_refl; auto.
  - destruct (p (k0, v0)); simpl; rewrite ?E; auto.
Qed.

Lemma keys_filter_incl (p : string * value -> bool) (d : dict) (k : string) :
  In k (map fst (filter p d)) -> In k (map fst d) /\ exists v, p (k, v) = true.
Proof.
  induction d as [|[k0 v0] rest IH]; simpl; [tauto|].
  destruct (p (k0, v0)) eqn:Hp; simpl.
  - intros [<-|H]; [split; eauto|]. destruct (IH H) as [H1 H2]; auto.
  - intros H. destruct (IH H) as [H1 H2]; auto.
Qed.

Lemma NoDup_keys_filter (p : string * value -> bool) (d : dict) :
  NoDup (map fst d) -> NoDup (map fst (filter p d)).
Proof.
  induction d as [|[k0 v0] rest IH]; simpl; intros H; auto.
  inversion H; subst. destruct (p (k0, v0)); simpl; auto.
  constructor; auto. intros Hin. apply keys_filter_incl in Hin as [Hin _]; auto.
Qed.

(** ** Collections *)

Lemma find_some_split (p : dict -> bool) (c : collection) (d : dict) :
  find p c = Some d ->
  exists pre post, c = (pre ++ d :: post)%list /\ p d = true /\ Forall (fun x => p x = false) pre.
Proof.
  induction c as [|x rest IH]; simpl; [discriminate|].
  destruct (p x) eqn:E; intros H.
  - injection H as ->. exists [], rest; auto.
  - destruct (IH H) as (pre & post & -> & Hd & Hpre).
    exists (x :: pre), post; simpl; auto.
Qed.

Lemma find_none_existsb (p : dict -> bool) (c : collection) :
  find p c = None -> existsb p c = false.
Proof.
  induction c as [|x rest IH]; simpl; auto.
  destruct (p x); [discriminate|auto].
Qed.

Lemma update_first_by_id_some (c : collection) (v : value) (upd : dict) (d : dict) :
  find_one_by_id c v = Some d ->
  exists pre post, c = (pre ++ d :: post)%list /\
    update_first_by_id c v upd = Some ((pre ++ apply_set d upd :: post)%list, apply_set d upd).
Proof.
  unfold find_one_by_id.
  induction c as [|x rest IH]; simpl; [discriminate|].
  destruct (id_matches v x) eqn:E; intros H.
  - injection H as ->. exists [], rest; auto.
  - destruct (IH H) as (pre & post & -> & Hu). rewrite Hu.
    exists (x :: pre), post; auto.
Qed.

Lemma update_first_by_id_none (c : collection) (v : value) (upd : dict) :
  find_one_by_id c v = None -> update_first_by_id c v upd = None.
Proof.
  unfold find_one_by_id.
  induction c as [|x rest IH]; simpl; auto.
  destruct (id_matches v x); [discriminate|]. intros H; rewrite IH; auto.
Qed.

Lemma find_one_by_id_nonempty (c : collection) (v : value) (d : dict) :
  find_one_by_id c v = Some d -> truthy (VDict d) = true.
Proof.
  intros H. apply find_some_split in H as (pre & post & _ & Hd & _).
  unfold id_matches in Hd. destruct d; simpl in *; [discriminate|reflexivity].
Qed.

(** The update document of [UserRepo.update] is a proper dict. *)
Lemma update_data_keys (data : dict) (now : datetime) (k : string) :
  In k (map fst (dict_set (UserRepo.sanitize data) "updatedAt" (VDate now))) ->
  k = "updatedAt" \/ (In k (map fst data) /\ ~ In k ["_id"; "userId"; "createdAt"]).
Proof.
  assert (Hs : forall k, In k (map fst (UserRepo.sanitize data)) ->
            In k (map fst data) /\ ~ In k ["_id"; "userId"; "createdAt"]).
  { intros k0 H0. unfold UserRepo.sanitize in H0.
    apply keys_filter_incl in H0 as [H1 [w Hw]]. split; auto.
    intros Hin. apply existsb_eqb_In in Hin. cbn beta in Hw. simpl fst in Hw.
    rewrite Hin in Hw. discriminate. }
  rewrite keys_dict_set.
  destruct (existsb _ _); [|rewrite in_app_iff]; intros H.
  - right; auto.
  - destruct H as [H|[H|[]]]; [right; auto|left; auto].
Qed.

(** ** The sanitised partial update *)

Lemma update_data_NoDup (data : dict) (now : datetime) :
  NoDup (map fst data) ->
  NoDup (map fst (dict_set (UserRepo.sanitize data) "updatedAt" (VDate now))).
Proof.
  intros H. apply NoDup_keys_dict_set, NoDup_keys_filter, H.
Qed.

Lemma update_data_lookup (data : dict) (now : datetime) (k : string) :
  dict_lookup k (dict_set (UserRepo.sanitize data) "updatedAt" (VDate now)) =
  (if String.eqb k "updatedAt" then Some (VDate now)
   else if existsb (String.eqb k) ["_id"; "userId"; "createdAt"] then None
   else dict_lookup k data).
Proof.
  rewrite lookup_dict_set. destruct (String.eqb k "updatedAt"); auto.
  destruct (existsb (String.eqb k) ["_id"; "userId"; "createdAt"]) eqn:E.
  - apply lookup_notin_keys. intros Hin.
    apply keys_filter_incl in Hin as [_ [w Hw]]. cbn beta in Hw. simpl fst in Hw.
    rewrite E in Hw; discriminate.
  - unfold UserRepo.sanitize. apply lookup_filter. intros v. cbn beta. simpl fst.
    rewrite E; reflexivity.
Qed.



(** ** Profile creation *)

Lemma json_body_dict_of_dict (d : dict) : UsersApi.json_body_dict (VDict d) = Ok d.
Proof. destruct d; reflexivity. Qed.

Lemma insert_one_fresh (c : collection) (doc : dict) :
  existsb (id_matches (dict_get doc "_id" VNone)) c = false ->
  insert_one c doc = Ok (c ++ [doc])%list.
Proof. intros H; unfold insert_one; rewrite H; reflexivity. Qed.

Lemma repo_update_length (c : collection) (uid : value) (data : dict) (now : datetime) (d : dict) :
  find_one_by_id c uid = Some d -> length (fst (UserRepo.update c uid data now)) = length c.
Proof.
  intros H.
  destruct (update_first_by_id_some c uid (dict_set (UserRepo.sanitize data) "updatedAt" (VDate now)) d H)
    as (pre & post & -> & Hu).
  unfold UserRepo.update, find_one_and_update_upsert. rewrite Hu; simpl.
  rewrite !length_app; reflexivity.
Qed.

(** Claim C1, as amended. [UserRepo.create] fails with [ValueError] when
    [userId] is missing or falsy; when a record with that id exists it
    returns the result of [UserRepo.update] and the collection keeps its
    size; otherwise, when [email] is a string, it appends a new record with
    [_id] and [cognito_sub] equal to the id, role "student", empty avatar and
    bio, an empty [serie_subscribe] array and [username] defaulting to the
    part of the email before the first '@', and returns that record. *)
Theorem repo_create_contract (c : collection) (data : dict) (now : datetime) :
  let uid := dict_get data "userId" VNone in
  (truthy uid = false -> UserRepo.create c data now = Err (ValueError "userId is required")) /\
  (forall d, truthy uid = true -> find_one_by_id c uid = Some d ->
     UserRepo.create c data now = Ok (UserRepo.update c uid data now) /\
     length (fst (UserRepo.update c uid data now)) = length c) /\
  (forall e, truthy uid = true -> find_one_by_id c uid = None ->
     dict_get data "email" VNone = VStr e ->
     exists payload,
       UserRepo.create c data now = Ok ((c ++ [payload])%list, payload) /\
       dict_lookup "_id" payload = Some uid /\
       dict_lookup "cognito_sub" payload = Some uid /\
       dict_lookup "role" payload = Some (VStr "student") /\
       dict_lookup "avatar" payload = Some (VStr "") /\
       dict_lookup "bio" payload = Some (VStr "") /\
       dict_lookup "serie_subscribe" payload = Some (VList []) /\
       dict_lookup "username" payload = Some (dict_get data "username" (VStr (local_part e)))).
Proof.
  intros uid. unfold UserRepo.create. fold uid. split; [|split].
  - intros H; rewrite H; reflexivity.
  - intros d Ht Hf. rewrite Ht, Hf. unfold negb, UserRepo.opt_truthy.
    rewrite (find_one_by_id_nonempty c uid d Hf).
    split; [reflexivity|]. eapply repo_update_length; eauto.
  - intros e Ht Hf He.
    pose proof (find_none_existsb _ _ Hf) as Hx.
    rewrite Ht, Hf. cbn [negb UserRepo.opt_truthy].
    unfold UserRepo.new_payload. rewrite He. cbn [bind UserRepo.email_local_part].
    rewrite insert_one_fresh by exact Hx.
    eexists; split; [reflexivity|]. repeat split.
Qed.

Lemma repo_create_contract_witness :
  let data := [("userId", VStr "u7"); ("email", VStr "ann@edu.vn")] in
  exists payload,
    UserRepo.create [] data t_now = Ok (([] ++ [payload])%list, payload) /\
    dict_lookup "_id" payload = Some (VStr "u7") /\
    dict_lookup "cognito_sub" payload = Some (VStr "u7") /\
    dict_lookup "role" payload = Some (VStr "student") /\
    dict_lookup "avatar" payload = Some (VStr "") /\
    dict_lookup "bio" payload = Some (VStr "") /\
    dict_lookup "serie_subscribe" payload = Some (VList []) /\
    dict_lookup "username" payload = Some (dict_get data "username" (VStr (local_part "ann@edu.vn"))).
Proof.
  intros data.
  apply (proj2 (proj2 (repo_create_contract [] data t_now)) "ann@edu.vn"); reflexivity.
Defined.

(** Claim C1 fails as stated: with a fresh [userId] and no [email], no
    record is inserted; the email split raises on [None]. *)
Lemma repo_create_no_email_counterexample :
  UserRepo.create [] [("userId", VStr "u7")] t_now =
  Err (AttributeError "'NoneType' object has no attribute 'split'").
Proof. reflexivity. Qed.

Lemma found_opt_truthy (c : collection) (v : value) (u : dict) :
  find_one_by_id c v = Some u -> UserRepo.opt_truthy (Some u) = true.
Proof.
  unfold find_one_by_id. intros H. apply find_some in H as [_ H].
  unfold id_matches in H. destruct u; [discriminate|reflexivity].
Qed.

(** Claim C9, as amended. For data with a truthy [userId] and with neither
    [email] nor [username]: when no stored record carries the id, [create]
    raises [AttributeError] while deriving the default username, so nothing
    is inserted, and [POST /profile] answers the generic 500 envelope with
    the collection unchanged; when a record carries it, [create] resolves
    to [update] and [POST /profile] answers 409 with the collection
    unchanged. *)
Theorem create_without_email_fails (c : collection) (data : dict) (now : datetime) :
  truthy (dict_get data "userId" VNone) = true ->
  dict_lookup "email" data = None ->
  dict_lookup "username" data = None ->
  (find_one_by_id c (dict_get data "userId" VNone) = None ->
   UserRepo.create c data now = Err (AttributeError "'NoneType' object has no attribute 'split'") /\
   UsersApi.create_profile c (VDict data) now =
     (c, UsersApi.error_response "'NoneType' object has no attribute 'split'" 500)) /\
  (forall u, find_one_by_id c (dict_get data "userId" VNone) = Some u ->
   UserRepo.create c data now = Ok (UserRepo.update c (dict_get data "userId" VNone) data now) /\
   UsersApi.create_profile c (VDict data) now =
     (c, UsersApi.error_response "User profile already exists" 409)).
Proof.
  intros Ht He _. split.
  - intros Hf.
    assert (Hc : UserRepo.create c data now =
                 Err (AttributeError "'NoneType' object has no attribute 'split'")).
    { unfold UserRepo.create. rewrite Ht, Hf; simpl.
      unfold UserRepo.new_payload, dict_get at 1. rewrite He; reflexivity. }
    split; auto.
    unfold UsersApi.create_profile. rewrite json_body_dict_of_dict, Ht; simpl.
    rewrite Hf; simpl. rewrite Hc; reflexivity.
  - intros u Hf. pose proof (found_opt_truthy c _ u Hf) as Hu. split.
    + unfold UserRepo.create. rewrite Ht, Hf, Hu. reflexivity.
    + unfold UsersApi.create_profile. rewrite json_body_dict_of_dict, Ht. cbn [negb].
      rewrite Hf, Hu. reflexivity.
Qed.

Lemma create_without_email_fails_witness :
  (UserRepo.create [[("_id", VStr "u1")]] [("userId", VStr "u2"); ("name", VStr "Bo")] t_now =
     Err (AttributeError "'NoneType' object has no attribute 'split'") /\
   UsersApi.create_profile [[("_id", VStr "u1")]] (VDict [("userId", VStr "u2"); ("name", VStr "Bo")]) t_now =
     ([[("_id", VStr "u1")]], UsersApi.error_response "'NoneType' object has no attribute 'split'" 500)) /\
  (UsersApi.create_profile [[("_id", VStr "u1")]] (VDict [("userId", VStr "u1"); ("name", VStr "Bo")]) t_now =
     ([[("_id", VStr "u1")]], UsersApi.error_response "User profile already exists" 409)).
Proof.
  split.
  - exact (proj1 (create_without_email_fails [[("_id", VStr "u1")]]
                    [("userId", VStr "u2"); ("name", VStr "Bo")] t_now eq_refl eq_refl eq_refl) eq_refl).
  - exact (proj2 (proj2 (create_without_email_fails [[("_id", VStr "u1")]]
                           [("userId", VStr "u1"); ("name", VStr "Bo")] t_now eq_refl eq_refl eq_refl)
                    [("_id", VStr "u1")] eq_refl)).
Defined.

(** Claim C9 fails as stated: when a record with the id already exists,
    [create] resolves to an update instead of raising, and the endpoint
    answers 409. *)
Lemma create_without_email_existing_counterexample :
  let c := [[("_id", VStr "u1"); ("role", VStr "student")]] in
  UserRepo.create c [("userId", VStr "u1")] t_now =
    Ok (UserRepo.update c (VStr "u1") [("userId", VStr "u1")] t_now) /\
  UsersApi.create_profile c (VDict [("userId", VStr "u1")]) t_now =
    (c, UsersApi.error_response "User profile already exists" 409).
Proof. split; reflexivity. Qed.

(** ** Subscriptions: one user *)

Definition add_ops (sid : value) (now : datetime) : update_ops :=
  mk_ops [("serie_subcribe", sid)] [] [("updatedAt", VDate now)].

Lemma update_one_found (c : collection) (v : value) (ops : update_ops) (d d' : dict) :
  find_one_by_id c v = Some d -> apply_ops d ops = Ok d' ->
  exists pre post, c = (pre ++ d :: post)%list /\
    update_one c v ops = Ok (pre ++ d' :: post)%list /\
    Forall (fun x => id_matches v x = false) pre.
Proof.
  unfold find_one_by_id. intros Hf Ha.
  induction c as [|x rest IH]; simpl in Hf; [discriminate|].
  simpl. destruct (id_matches v x) eqn:E.
  - injection Hf as ->. rewrite Ha. exists [], rest; simpl; auto.
  - destruct (IH Hf) as (pre & post & -> & Hu & Hpre). rewrite Hu; simpl.
    exists (x :: pre), post; auto.
Qed.

Lemma find_after_update (pre post : collection) (v : value) (d' : dict) :
  Forall (fun x => id_matches v x = false) pre -> id_matches v d' = true ->
  find_one_by_id (pre ++ d' :: post)%list v = Some d'.
Proof.
  unfold find_one_by_id. induction 1 as [|x pre Hx _ IH]; simpl; intros Hd.
  - rewrite Hd; reflexivity.
  - rewrite Hx; auto.
Qed.

Lemma update_one_Forall (P : dict -> Prop) (c c' : collection) (v : value) (ops : update_ops) :
  (forall d d', P d -> apply_ops d ops = Ok d' -> P d') ->
  Forall P c -> update_one c v ops = Ok c' -> Forall P c'.
Proof.
  intros HP Hc. revert c'. induction Hc as [|x rest Hx Hrest IH]; simpl; intros c' Hu.
  - injection Hu as <-; constructor.
  - destruct (id_matches v x).
    + destruct (apply_ops x ops) eqn:Ha; simpl in Hu; [|discriminate].
      injection Hu as <-. constructor; eauto.
    + destruct (update_one rest v ops) eqn:Hr; simpl in Hu; [|discriminate].
      injection Hu as <-. constructor; auto.
Qed.

Lemma apply_add_ops (d : dict) (sid : value) (now : datetime) :
  apply_ops d (add_ops sid now) =
  match add_to_set_field d "serie_subcribe" sid with
  | Ok d1 => Ok (dict_set d1 "updatedAt" (VDate now))
  | Err e => Err e
  end.
Proof.
  unfold apply_ops, add_ops; simpl.
  destruct (add_to_set_field d "serie_subcribe" sid); reflexivity.
Qed.

Lemma count_eq_app (x : value) (l1 l2 : list value) :
  count_eq x (l1 ++ l2)%list = (count_eq x l1 + count_eq x l2)%nat.
Proof. unfold count_eq. rewrite filter_app, length_app; reflexivity. Qed.

Lemma count_eq_not_contains (x : value) (l : list value) :
  list_contains x l = false -> count_eq x l = 0%nat.
Proof.
  unfold list_contains, count_eq. induction l as [|y l IH]; simpl; auto.
  destruct (value_eqb x y); [discriminate|auto].
Qed.

Lemma count_eq_contains (x : value) (l : list value) :
  list_contains x l = true -> (1 <= count_eq x l)%nat.
Proof.
  unfold list_contains, count_eq. induction l as [|y l IH]; simpl; [discriminate|].
  destruct (value_eqb x y); simpl; [lia|auto].
Qed.

Lemma subs_ok_add (d d' : dict) (sid : value) (now : datetime) :
  subs_ok d -> apply_ops d (add_ops sid now) = Ok d' -> subs_ok d'.
Proof.
  unfold subs_ok. rewrite apply_add_ops. unfold add_to_set_field.
  destruct (dict_lookup "serie_subcribe" d) as [v|] eqn:E.
  - destruct v; try (intros _ H; discriminate). intros Hl H. injection H as <-.
    rewrite lookup_dict_set; simpl.
    destruct (list_contains sid l) eqn:Hc.
    + rewrite E; auto.
    + rewrite lookup_dict_set; simpl. intros x. rewrite count_eq_app.
      specialize (Hl x). unfold count_eq at 2; simpl.
      destruct (value_eqb x sid) eqn:Hx; simpl; [|lia].
      apply value_eqb_eq in Hx; subst. rewrite count_eq_not_contains; auto.
  - intros _ H. injection H as <-. rewrite lookup_dict_set; simpl.
    rewrite lookup_dict_set; simpl. intros x.
    unfold count_eq; simpl. destruct (value_eqb x sid); simpl; lia.
Qed.

Lemma add_ops_keeps_id (d d' : dict) (sid v : value) (now : datetime) :
  apply_ops d (add_ops sid now) = Ok d' -> id_matches v d' = id_matches v d.
Proof.
  rewrite apply_add_ops. unfold add_to_set_field, id_matches.
  destruct (dict_lookup "serie_subcribe" d) as [w|]; [destruct w|];
    intros H; try discriminate; injection H as <-;
    rewrite !lookup_dict_set; simpl; auto.
  destruct (list_contains sid l); rewrite ?lookup_dict_set; auto.
Qed.

(** One call on an existing user with a truthy [serie_id]. *)
Lemma add_subscription_existing (c : collection) (uid : string) (data : dict)
    (now : datetime) (user : dict) (l : list value) (sid : value) :
  find_one_by_id c (VStr uid) = Some user ->
  dict_get data "serie_id" VNone = sid -> truthy sid = true ->
  dict_get user "serie_subcribe" (VList []) = VList l ->
  if list_contains sid l
  then UsersApi.add_subscription c uid (VDict data) now =
         (c, UsersApi.error_response "Already subscribed" 409)
  else exists c' user',
         UsersApi.add_subscription c uid (VDict data) now =
           (c', UsersApi.success_response
                  (VDict [("message", VStr "Subscription added successfully")]) None 200) /\
         find_one_by_id c' (VStr uid) = Some user' /\
         dict_lookup "serie_subcribe" user' = Some (VList (l ++ [sid])%list).
Proof.
  intros Hf Hs Ht Hl.
  unfold UsersApi.add_subscription. rewrite json_body_dict_of_dict, Hs, Ht, Hf.
  cbn [negb]. rewrite (find_one_by_id_nonempty _ _ _ Hf). cbn [negb].
  rewrite Hl. cbn [UsersApi.py_in].
  destruct (list_contains sid l) eqn:Hc; [reflexivity|].
  assert (Ha : exists d', apply_ops user (add_ops sid now) = Ok d' /\
                          dict_lookup "serie_subcribe" d' = Some (VList (l ++ [sid])%list)).
  { rewrite apply_add_ops. unfold add_to_set_field. unfold dict_get in Hl.
    destruct (dict_lookup "serie_subcribe" user) as [w|].
    - subst w. rewrite Hc. eexists; split; [reflexivity|].
      rewrite !lookup_dict_set; reflexivity.
    - injection Hl as <-. eexists; split; [reflexivity|].
      rewrite !lookup_dict_set; reflexivity. }
  destruct Ha as (d' & Ha & Hd').
  destruct (update_one_found c (VStr uid) _ user d' Hf Ha) as (pre & post & Hc' & Hu & Hpre).
  fold (add_ops sid now). rewrite Hu.
  exists (pre ++ d' :: post)%list, d'. split; [reflexivity|]. split; auto.
  apply find_after_update; auto.
  rewrite (add_ops_keeps_id user d' sid (VStr uid) now Ha).
  apply find_some_split in Hf as (_ & _ & _ & H & _); auto.
Qed.

Lemma add_subscription_preserves (c : collection) (uid : string) (body : value) (now : datetime) :
  store_subs_ok c -> store_subs_ok (fst (UsersApi.add_subscription c uid body now)).
Proof.
  intros Hc. unfold UsersApi.add_subscription.
  destruct (UsersApi.json_body_dict body) as [data|e]; [|exact Hc].
  destruct (negb (truthy (dict_get data "serie_id" VNone))); [exact Hc|].
  destruct (find_one_by_id c (VStr uid)) as [user|]; [|exact Hc].
  destruct (negb (truthy (VDict user))); [exact Hc|].
  destruct (UsersApi.py_in _ _) as [[|]|e]; try exact Hc.
  destruct (update_one c (VStr uid) _) eqn:Hu; [|exact Hc].
  simpl. eapply update_one_Forall; [|exact Hc|exact Hu].
  intros d d'; apply subs_ok_add.
Qed.

Lemma store_subs_ok_find (c : collection) (uid : string) (user : dict) :
  store_subs_ok c -> find_one_by_id c (VStr uid) = Some user -> subs_ok user.
Proof.
  intros Hc Hf. apply find_some_split in Hf as (pre & post & -> & _ & _).
  unfold store_subs_ok in Hc. rewrite Forall_app in Hc. destruct Hc as [_ Hc].
  inversion Hc; auto.
Qed.

Lemma list_contains_last (x : value) (l : list value) : list_contains x (l ++ [x])%list = true.
Proof.
  unfold list_contains. rewrite existsb_app; simpl. rewrite value_eqb_refl, orb_true_r; reflexivity.
Qed.

(** Claim C3. [POST /<user_id>/subscriptions] on an existing user with a
    [serie_id]: it answers 409 exactly when the id is already in the user's
    [serie_subcribe] array and otherwise appends it; starting from a store
    whose arrays hold each id at most once, every sequence of calls keeps it
    so; adding the same id twice makes the second call answer 409, leave the
    store as the first call left it, and the array holds the id once. *)
Theorem add_subscription_set_semantics :
  (forall c calls, store_subs_ok c -> store_subs_ok (run_add_subscriptions c calls)) /\
  (forall c uid data now user l sid,
     find_one_by_id c (VStr uid) = Some user ->
     dict_get data "serie_id" VNone = sid -> truthy sid = true ->
     dict_get user "serie_subcribe" (VList []) = VList l ->
     (UsersApi.status (snd (UsersApi.add_subscription c uid (VDict data) now)) = 409
        <-> list_contains sid l = true) /\
     (list_contains sid l = false ->
        user_subs (fst (UsersApi.add_subscription c uid (VDict data) now)) uid
          = Some (VList (l ++ [sid])%list))) /\
  (forall c uid sid now1 now2 user,
     store_subs_ok c -> find_one_by_id c (VStr uid) = Some user -> truthy sid = true ->
     let r1 := UsersApi.add_subscription c uid (VDict [("serie_id", sid)]) now1 in
     let r2 := UsersApi.add_subscription (fst r1) uid (VDict [("serie_id", sid)]) now2 in
     UsersApi.status (snd r2) = 409 /\ fst r2 = fst r1 /\
     exists l, user_subs (fst r2) uid = Some (VList l) /\ count_eq sid l = 1%nat).
Proof.
  split; [|split].
  - intros c calls; revert c. induction calls as [|[[uid body] now] rest IH]; simpl; auto.
    intros c Hc. apply IH, add_subscription_preserves, Hc.
  - intros c uid data now user l sid Hf Hs Ht Hl.
    pose proof (add_subscription_existing c uid data now user l sid Hf Hs Ht Hl) as H.
    destruct (list_contains sid l).
    + rewrite H; simpl. split; [split; auto|discriminate].
    + destruct H as (c' & user' & H & Hf' & Hl'). rewrite H; simpl.
      split; [split; discriminate|]. intros _. unfold user_subs. rewrite Hf'; auto.
  - intros c uid sid now1 now2 user Hc Hf Ht r1 r2.
    pose proof (store_subs_ok_find c uid user Hc Hf) as Hok. unfold subs_ok in Hok.
    set (l := match dict_lookup "serie_subcribe" user with Some (VList l) => l | _ => [] end).
    assert (Hl : dict_get user "serie_subcribe" (VList []) = VList l).
    { unfold l, dict_get. destruct (dict_lookup "serie_subcribe" user) as [[]|]; auto; contradiction. }
    pose proof (add_subscription_existing c uid [("serie_id", sid)] now1 user l sid
                  Hf eq_refl Ht Hl) as H1.
    destruct (list_contains sid l) eqn:Hcl.
    + assert (Hr1 : r1 = (c, UsersApi.error_response "Already subscribed" 409)) by exact H1.
      pose proof (add_subscription_existing c uid [("serie_id", sid)] now2 user l sid
                    Hf eq_refl Ht Hl) as H2. rewrite Hcl in H2.
      assert (Hr2 : r2 = (c, UsersApi.error_response "Already subscribed" 409)).
      { unfold r2. rewrite Hr1. exact H2. }
      rewrite Hr2, Hr1. split; [reflexivity|split; [reflexivity|]].
      exists l. unfold user_subs. simpl. rewrite Hf.
      unfold l in *. destruct (dict_lookup "serie_subcribe" user) as [[]|];
        try contradiction; try discriminate.
      split; auto. specialize (Hok sid). pose proof (count_eq_contains sid l0 Hcl). lia.
    + destruct H1 as (c' & user' & H1 & Hf' & Hl').
      assert (Hl'' : dict_get user' "serie_subcribe" (VList []) = VList (l ++ [sid])%list).
      { unfold dict_get; rewrite Hl'; reflexivity. }
      pose proof (add_subscription_existing c' uid [("serie_id", sid)] now2 user' _ sid
                    Hf' eq_refl Ht Hl'') as H2. rewrite list_contains_last in H2.
      assert (Hr2 : r2 = (c', UsersApi.error_response "Already subscribed" 409)).
      { unfold r2, r1. rewrite H1. exact H2. }
      rewrite Hr2. unfold r1. rewrite H1. split; [reflexivity|split; [reflexivity|]].
      exists (l ++ [sid])%list. unfold user_subs; simpl. rewrite Hf'. split; auto.
      rewrite count_eq_app, count_eq_not_contains by exact Hcl.
      unfold count_eq; simpl. rewrite value_eqb_refl; reflexivity.
Qed.

Lemma add_subscription_set_semantics_witness :
  let c := [[("_id", VStr "u1"); ("serie_subcribe", VList [VStr "s0"])]] in
  let r1 := UsersApi.add_subscription c "u1" (VDict [("serie_id", VStr "s1")]) t_now in
  let r2 := UsersApi.add_subscription (fst r1) "u1" (VDict [("serie_id", VStr "s1")]) t_later in
  UsersApi.status (snd r2) = 409 /\ fst r2 = fst r1 /\
  exists l, user_subs (fst r2) "u1" = Some (VList l) /\ count_eq (VStr "s1") l = 1%nat.
Proof.
  intros c r1 r2.
  apply (proj2 (proj2 add_subscription_set_semantics) c "u1" (VStr "s1") t_now t_later
           [("_id", VStr "u1"); ("serie_subcribe", VList [VStr "s0"])]).
  - constructor; [|constructor]. unfold subs_ok; simpl. intros y.
    unfold count_eq; simpl. destruct (value_eqb y (VStr "s0")); simpl; lia.
  - reflexivity.
  - reflexivity.
Defined.

(** ** Subscriptions: bulk removal *)

Lemma field_matches_typed (sid : string) (d : dict) :
  subs_typed d -> field_matches "serie_subcribe" (VStr sid) d = has_sub (VStr sid) d.
Proof.
  unfold subs_typed, field_matches, has_sub.
  destruct (dict_lookup "serie_subcribe" d) as [[]|]; intros H; try contradiction;
    simpl; auto using orb_false_r.
Qed.

Lemma apply_remove_ops (d : dict) (sid : string) (now : datetime) :
  has_sub (VStr sid) d = true ->
  apply_ops d (UsersApi.remove_serie_ops sid now) = Ok (pull_serie (VStr sid) now d).
Proof.
  unfold has_sub, apply_ops, UsersApi.remove_serie_ops, pull_serie; simpl.
  unfold pull_field.
  destruct (dict_lookup "serie_subcribe" d) as [[]|]; intros H; try discriminate; reflexivity.
Qed.

Lemma filter_length_le' (p : value -> bool) (l : list value) :
  (length (filter p l) <= length l)%nat.
Proof. induction l as [|y l IH]; simpl; [lia|destruct (p y); simpl; lia]. Qed.

Lemma filter_strict (p : value -> bool) (l : list value) :
  existsb (fun y => negb (p y)) l = true -> (length (filter p l) < length l)%nat.
Proof.
  induction l as [|y l IH]; simpl; [discriminate|].
  pose proof (filter_length_le' p l) as Hle.
  destruct (p y); simpl; intros H; [apply IH in H; lia|lia].
Qed.

Lemma pull_serie_changes (sid : string) (now : datetime) (d : dict) :
  has_sub (VStr sid) d = true ->
  value_eqb (VDict (pull_serie (VStr sid) now d)) (VDict d) = false.
Proof.
  unfold has_sub, pull_serie. destruct (dict_lookup "serie_subcribe" d) as [[]|] eqn:E;
    try discriminate.
  intros Hc. destruct (value_eqb _ _) eqn:Heq; auto. exfalso.
  apply value_eqb_eq in Heq. injection Heq as Heq.
  assert (Hl : dict_lookup "serie_subcribe"
                 (dict_set (dict_set d "serie_subcribe"
                    (VList (filter (fun y => negb (value_eqb y (VStr sid))) l))) "updatedAt" (VDate now))
               = dict_lookup "serie_subcribe" d) by (rewrite Heq; reflexivity).
  rewrite !lookup_dict_set in Hl. simpl in Hl. rewrite E in Hl. injection Hl as Hl.
  assert (Hs : (length (filter (fun y => negb (value_eqb y (VStr sid))) l) < length l)%nat).
  { apply filter_strict. unfold list_contains in Hc.
    apply existsb_exists in Hc as [y [Hy Hxy]]. apply existsb_exists. exists y; split; auto.
    rewrite value_eqb_sym, Hxy; reflexivity. }
  rewrite Hl in Hs. lia.
Qed.

Lemma pull_serie_no_sub (sid : string) (now : datetime) (d : dict) :
  has_sub (VStr sid) d = true -> has_sub (VStr sid) (pull_serie (VStr sid) now d) = false.
Proof.
  unfold has_sub, pull_serie. destruct (dict_lookup "serie_subcribe" d) as [[]|] eqn:E;
    try discriminate.
  intros _. rewrite !lookup_dict_set; simpl.
  unfold list_contains. apply not_true_is_false. intros H.
  apply existsb_exists in H as [y [Hy Hxy]]. apply filter_In in Hy as [_ Hy].
  rewrite value_eqb_sym, Hxy in Hy. discriminate.
Qed.

Lemma pull_serie_typed (sid : string) (now : datetime) (d : dict) :
  subs_typed d -> subs_typed (pull_serie (VStr sid) now d).
Proof.
  unfold subs_typed, pull_serie. destruct (dict_lookup "serie_subcribe" d) as [[]|] eqn:E;
    intros H; try contradiction; rewrite ?E; auto.
  rewrite !lookup_dict_set; simpl; auto.
Qed.

Lemma update_many_remove (c : collection) (sid : string) (now : datetime) :
  Forall subs_typed c ->
  update_many c (field_matches "serie_subcribe" (VStr sid)) (UsersApi.remove_serie_ops sid now) =
  Ok (map (fun d => if has_sub (VStr sid) d then pull_serie (VStr sid) now d else d) c,
      length (filter (has_sub (VStr sid)) c)).
Proof.
  induction 1 as [|d rest Hd _ IH]; [reflexivity|].
  cbn [update_many]. rewrite field_matches_typed by exact Hd.
  cbn [map filter length]. destruct (has_sub (VStr sid) d) eqn:Hs.
  - rewrite apply_remove_ops by exact Hs. cbn [bind]. rewrite IH. cbn [bind fst snd].
    rewrite pull_serie_changes by exact Hs. reflexivity.
  - rewrite IH; reflexivity.
Qed.

(** Claim C7. [DELETE /subscriptions/serie/<serie_id>] on a store whose
    subscription fields are arrays takes the id out of the array of exactly
    the users whose array contains it (setting their [updatedAt]), leaves
    every other user untouched, and reports N = the number of those users;
    afterwards no array contains the id, and a second run reports 0 and
    leaves the store as it is. *)
Theorem remove_serie_from_all_users_idempotent (c : collection) (sid : string)
    (now now' : datetime) :
  Forall subs_typed c ->
  let n := length (filter (has_sub (VStr sid)) c) in
  let c' := map (fun d => if has_sub (VStr sid) d then pull_serie (VStr sid) now d else d) c in
  UsersApi.remove_serie_from_all_users c sid now = (c', UsersApi.remove_serie_response n) /\
  Forall (fun d => has_sub (VStr sid) d = false) c' /\
  UsersApi.remove_serie_from_all_users c' sid now' = (c', UsersApi.remove_serie_response 0).
Proof.
  intros Hc n c'.
  assert (Ht : Forall subs_typed c').
  { unfold c'. apply Forall_map. eapply Forall_impl; [|exact Hc].
    intros d Hd. destruct (has_sub (VStr sid) d); auto using pull_serie_typed. }
  assert (Hn : Forall (fun d => has_sub (VStr sid) d = false) c').
  { unfold c'. apply Forall_map, Forall_forall. intros d _.
    destruct (has_sub (VStr sid) d) eqn:E; auto using pull_serie_no_sub. }
  split; [|split; auto].
  - unfold UsersApi.remove_serie_from_all_users. rewrite update_many_remove by exact Hc.
    reflexivity.
  - unfold UsersApi.remove_serie_from_all_users. rewrite update_many_remove by exact Ht.
    assert (Hid : map (fun d => if has_sub (VStr sid) d then pull_serie (VStr sid) now' d else d) c' = c').
    { clear Ht. induction Hn as [|d rest Hd _ IH]; simpl; auto. rewrite Hd, IH; reflexivity. }
    assert (H0 : length (filter (has_sub (VStr sid)) c') = 0%nat).
    { clear Ht Hid. induction Hn as [|d rest Hd _ IH]; simpl; auto. rewrite Hd; auto. }
    rewrite Hid, H0; reflexivity.
Qed.

Lemma remove_serie_from_all_users_idempotent_witness :
  let c := [[("_id", VStr "u1"); ("serie_subcribe", VList [VStr "s1"; VStr "s2"])];
            [("_id", VStr "u2")];
            [("_id", VStr "u3"); ("serie_subcribe", VList [VStr "s1"])]] in
  let n := length (filter (has_sub (VStr "s1")) c) in
  let c' := map (fun d => if has_sub (VStr "s1") d then pull_serie (VStr "s1") t_now d else d) c in
  UsersApi.remove_serie_from_all_users c "s1" t_now = (c', UsersApi.remove_serie_response n) /\
  Forall (fun d => has_sub (VStr "s1") d = false) c' /\
  UsersApi.remove_serie_from_all_users c' "s1" t_later = (c', UsersApi.remove_serie_response 0).
Proof.
  intros c n c'.
  apply remove_serie_from_all_users_idempotent.
  repeat constructor.
Defined.

(** ** Token verification *)

(** The keyless decode that reads [token_use] always fails to bind: python-jose's
    [decode] requires [key]. *)
Lemma jose_unverified_decode (gh : string -> result dict) (dec : string -> dict -> result dict)
    (inst : py_exc -> list string -> bool) (tok : string) :
  Auth.call_decode (Auth.jose_jwt gh dec inst) tok [("options", VDict [("verify_signature", VBool false)])]
  = Err (TypeError "decode() missing 1 required positional argument: 'key'").
Proof. reflexivity. Qed.

(** The verifying decode always fails to bind: python-jose's [decode] has no
    [leeway] parameter, and [decode_options] always holds one. *)
Lemma jose_verifying_decode (gh : string -> result dict) (dec : string -> dict -> result dict)
    (inst : py_exc -> list string -> bool) (cfg : Auth.auth_config) (tok : string) (n : Z)
    (tu key : value) :
  Auth.call_decode (Auth.jose_jwt gh dec inst) tok (("key", key) :: Auth.decode_options_for cfg n tu)
  = Err (TypeError "decode() got an unexpected keyword argument 'leeway'").
Proof.
  unfold Auth.decode_options_for.
  destruct (Auth.str_opt_truthy (Auth.issuer cfg)), (value_eqb tu (VStr "id")),
    (Auth.str_opt_truthy (Auth.app_client_id cfg)); reflexivity.
Qed.


(** Claim C4 (a defect of the code). For an access token that would pass
    signature, issuer and expiration verification (a header with a [kid], a
    key client and a signing key, an integer leeway, and every [decode]
    that binds its arguments giving the access payload [p]), [_verify_token]
    raises [AttributeError] whatever [p]'s [client_id]: with
    [jwt] = [jose.jwt] the verifying decode raises [TypeError] on [leeway]
    and the clause [except jwt.exceptions.MissingRequiredClaimError] finds
    no [exceptions] attribute. A matching token is not accepted, and a
    mismatching one is not refused with an invalid-audience error. *)
Theorem verify_access_attribute_error (gh : string -> result dict)
    (dec : string -> dict -> result dict) (inst : py_exc -> list string -> bool)
    (cfg : Auth.auth_config) (tok : string) (h p : dict) (client : string -> result value)
    (key : value) (n : Z) :
  gh tok = Ok h -> truthy (dict_get h "kid" VNone) = true ->
  Auth.jwks_client cfg = Some client -> client tok = Ok key -> Auth.jwt_leeway cfg = Ok n ->
  (forall kw, dec tok kw = Ok p) -> dict_get p "token_use" VNone = VStr "access" ->
  Auth._verify_token (Auth.jose_jwt gh dec inst) cfg tok =
    Err (AttributeError "module 'jose.jwt' has no attribute 'exceptions'").
Proof.
  intros Hh Hk Hc Hkey Hl _ _.
  unfold Auth._verify_token. cbn [Auth.jm_get_unverified_header Auth.jose_jwt].
  rewrite Hh. cbn [bind]. rewrite Hk. cbn [negb]. rewrite Hc, Hkey. cbn [bind].
  rewrite jose_unverified_decode, Hl. cbn [bind]. rewrite jose_verifying_decode. reflexivity.
Qed.

Lemma verify_access_attribute_error_witness :
  Auth._verify_token (sample_jose_jwt (access_payload (Some (VStr "app1")))) sample_auth_config "tok"
    = Err (AttributeError "module 'jose.jwt' has no attribute 'exceptions'") /\
  Auth._verify_token (sample_jose_jwt (access_payload (Some (VStr "other-app")))) sample_auth_config "tok"
    = Err (AttributeError "module 'jose.jwt' has no attribute 'exceptions'").
Proof.
  split.
  - apply (verify_access_attribute_error (fun _ => Ok sample_header)
             (fun _ _ => Ok (access_payload (Some (VStr "app1")))) (fun _ _ => false)
             sample_auth_config "tok" sample_header (access_payload (Some (VStr "app1")))
             (fun _ => Ok (VStr "rsa-public-key")) (VStr "rsa-public-key") 0);
      reflexivity.
  - apply (verify_access_attribute_error (fun _ => Ok sample_header)
             (fun _ _ => Ok (access_payload (Some (VStr "other-app")))) (fun _ _ => false)
             sample_auth_config "tok" sample_header (access_payload (Some (VStr "other-app")))
             (fun _ => Ok (VStr "rsa-public-key")) (VStr "rsa-public-key") 0);
      reflexivity.
Defined.

Lemma dict_get_none (d : dict) (k : string) (dflt : value) :
  dict_lookup k d = None -> dict_get d k dflt = dflt.
Proof. unfold dict_get; intros ->; reflexivity. Qed.



(** ** Serialization *)

(** Claim C5. [serialize_doc] converts a timestamp or an identifier that is
    the value of a key, but a timestamp or an identifier that is an element
    of a list (or the value passed itself) is returned unchanged: it falls
    in the [not isinstance(doc, dict)] branch of the recursive call. *)
Theorem serialize_doc_list_elements_unconverted (t : datetime) (o : string) :
  serialize_doc (VDict [("createdAt", VDate t); ("_id", VOid o)]) =
    VDict [("createdAt", VStr (isoformat t)); ("_id", VStr o)] /\
  serialize_doc (VDict [("history", VList [VDate t; VOid o])]) =
    VDict [("history", VList [VDate t; VOid o])] /\
  serialize_doc (VList [VDate t; VOid o]) = VList [VDate t; VOid o] /\
  serialize_doc (VDate t) = VDate t /\
  serialize_doc VNone = VNone.
Proof. repeat split. Qed.

(** ** Avatar upload *)





(** ** Cache keys *)

(** Claim C8. The public key is
    [educonnect:public:{method}:{path}:{query}]; the per-user key is
    [educonnect:user_{userId}:{method}:{path}:{query}] with [userId] the
    [str] of the identity context's [userId], which defaults to
    [anonymous]: with no identity context, or one without [userId], the
    scope is [user_anonymous]. *)
Theorem cache_key_format (req : Cache.request) (g : Cache.g_context) :
  let tail := (":" ++ Cache.method req ++ ":" ++ Cache.path req ++ ":" ++ Cache.query_string req)%string in
  Cache.make_cache_key_public req g = ("educonnect:public" ++ tail)%string /\
  Cache.make_cache_key_with_user req g =
    ("educonnect:user_" ++ py_str (dict_get (match g with Some u => u | None => [] end)
                                            "userId" (VStr "anonymous")) ++ tail)%string /\
  Cache.make_cache_key_with_user req None = ("educonnect:user_anonymous" ++ tail)%string /\
  (forall u, dict_lookup "userId" u = None ->
     Cache.make_cache_key_with_user req (Some u) = ("educonnect:user_anonymous" ++ tail)%string) /\
  (forall u uid, dict_lookup "userId" u = Some (VStr uid) ->
     Cache.make_cache_key_with_user req (Some u) = ("educonnect:user_" ++ uid ++ tail)%string).
Proof.
  intros tail. repeat split.
  - intros u Hu. unfold Cache.make_cache_key_with_user, Cache._build_cache_key.
    rewrite (dict_get_none u "userId" _ Hu). reflexivity.
  - intros u uid Hu. unfold Cache.make_cache_key_with_user, Cache._build_cache_key.
    unfold dict_get at 1. rewrite Hu. reflexivity.
Qed.

Lemma cache_key_format_witness :
  Cache.make_cache_key_with_user sample_request (Some [("userId", VStr "abc123")]) =
    "educonnect:user_abc123:GET:/api/v1/series/subscriptions:" /\
  Cache.make_cache_key_with_user sample_request (Some [("email", VStr "a@b.c")]) =
    "educonnect:user_anonymous:GET:/api/v1/series/subscriptions:".
Proof.
  destruct (cache_key_format sample_request None) as (_ & _ & _ & H1 & H2).
  split.
  - exact (eq_trans (H2 [("userId", VStr "abc123")] "abc123" eq_refl) eq_refl).
  - exact (eq_trans (H1 [("email", VStr "a@b.c")] eq_refl) eq_refl).
Defined.

(** With no identity context the per-user scope is [user_anonymous], not
    [anonymous]. *)
Lemma cache_key_anonymous_counterexample :
  Cache.make_cache_key_with_user sample_request None =
    "educonnect:user_anonymous:GET:/api/v1/series/subscriptions:" /\
  Cache.make_cache_key_with_user sample_request None <>
    "educonnect:anonymous:GET:/api/v1/series/subscriptions:".
Proof. split; [reflexivity|discriminate]. Qed.

(** * More of the service *)

(** ** Serialization *)

Lemma serialize_doc_dict (d : dict) :
  serialize_doc (VDict d) =
  VDict (map (fun kv => (fst kv, match snd kv with
                                 | VDate t => VStr (isoformat t)
                                 | VOid o => VStr o
                                 | VDict _ => serialize_doc (snd kv)
                                 | VList l => VList (map serialize_doc l)
                                 | v => v
                                 end)) d).
Proof. cbn [serialize_doc]. f_equal. apply map_ext. intros [k v]. destruct v; reflexivity. Qed.

(** [serialize_doc] applied to its own output changes nothing. *)
Theorem serialize_doc_idempotent (v : value) :
  serialize_doc (serialize_doc v) = serialize_doc v.
Proof.
  induction v as [| | | | | | l IH | d IH] using value_ind'; try reflexivity.
  - cbn [serialize_doc]. rewrite map_map. f_equal. apply map_ext_Forall.
    eapply Forall_impl; [|exact IH]. intros x Hx; exact Hx.
  - rewrite serialize_doc_dict, serialize_doc_dict, map_map. f_equal.
    apply map_ext_Forall. eapply Forall_impl; [|exact IH].
    intros [k x] Hx. cbn [fst snd] in *. f_equal.
    destruct x as [| | | | | |l' |d']; try reflexivity.
    + cbn [serialize_doc] in Hx |- *. exact Hx.
    + exact Hx.
Qed.

(** A value with no datetime and no ObjectId is returned as it is. *)
Theorem serialize_doc_json_safe_fixed (v : value) :
  json_safe v = true -> serialize_doc v = v.
Proof.
  induction v as [| | | | | | l IH | d IH] using value_ind'; intros H; try reflexivity;
    try discriminate.
  - cbn [serialize_doc json_safe] in *. f_equal.
    induction IH as [|x l Hx _ IHl]; [reflexivity|].
    simpl in H. apply andb_true_iff in H as [H1 H2]. simpl. rewrite Hx, IHl; auto.
  - rewrite serialize_doc_dict. f_equal. cbn [json_safe] in H.
    induction IH as [|[k x] d Hx _ IHd]; [reflexivity|].
    simpl in H. apply andb_true_iff in H as [H1 H2]. cbn [map]. rewrite IHd by exact H2.
    cbn [fst snd] in *. f_equal. f_equal.
    destruct x as [| | | | | |l' |d']; try reflexivity; try discriminate.
    + specialize (Hx H1). cbn [serialize_doc] in Hx. exact Hx.
    + exact (Hx H1).
Qed.

(** ** Login sync *)

Lemma truthy_str_nonempty (s : string) : s <> "" -> truthy (VStr s) = true.
Proof.
  intros H. simpl. destruct (String.eqb s "") eqn:E; [|reflexivity].
  apply String.eqb_eq in E; contradiction.
Qed.

Lemma find_one_by_id_lookup (c : collection) (v : value) (u : dict) :
  find_one_by_id c v = Some u -> dict_lookup "_id" u = Some v.
Proof.
  intros H. apply find_some_split in H as (_ & _ & _ & Hu & _).
  unfold id_matches in Hu. destruct (dict_lookup "_id" u) as [x|]; [|discriminate].
  apply value_eqb_eq in Hu; subst; reflexivity.
Qed.

Lemma login_update_lookups (u : dict) (now : datetime) :
  let u' := apply_set u [("lastLogin", VDate now); ("updatedAt", VDate now)] in
  dict_lookup "lastLogin" u' = Some (VDate now) /\
  dict_lookup "updatedAt" u' = Some (VDate now) /\
  (forall k, k <> "lastLogin" -> k <> "updatedAt" -> dict_lookup k u' = dict_lookup k u).
Proof.
  intros u'. subst u'.
  assert (Hnd : NoDup (map fst [("lastLogin", VDate now); ("updatedAt", VDate now)])).
  { constructor; [simpl; intros [H|[]]; discriminate|constructor; [intros []|constructor]]. }
  split; [|split].
  - apply lookup_apply_set_in; auto.
  - apply lookup_apply_set_in; auto.
  - intros k H1 H2. apply lookup_apply_set_notin. simpl. intuition.
Qed.

(** [sync_cognito_user] without a truthy [cognito_sub] or [email] answers
    [(None, "Missing required user info")] and writes nothing. *)
Theorem sync_cognito_user_missing_info (c : collection) (user_data : dict) (now : datetime) :
  truthy (dict_get user_data "cognito_sub" VNone) = false \/
  truthy (dict_get user_data "email" VNone) = false ->
  UserService.sync_cognito_user c user_data now = (c, (VNone, VStr "Missing required user info")).
Proof.
  intros H. unfold UserService.sync_cognito_user.
  destruct H as [H|H]; rewrite H; [reflexivity|].
  rewrite orb_true_r; reflexivity.
Qed.

Lemma sync_cognito_user_missing_info_witness :
  UserService.sync_cognito_user [] [("cognito_sub", VStr "u1"); ("email", VStr "")] t_now
  = ([], (VNone, VStr "Missing required user info")).
Proof. apply sync_cognito_user_missing_info. right; reflexivity. Defined.

Lemma sync_found_user (c : collection) (user_data : dict) (now : datetime) (u : dict) (uid : value) :
  truthy (dict_get user_data "cognito_sub" VNone) = true ->
  truthy (dict_get user_data "email" VNone) = true ->
  (if UserRepo.opt_truthy (find_one_by_id c (dict_get user_data "cognito_sub" VNone))
   then find_one_by_id c (dict_get user_data "cognito_sub" VNone)
   else find (field_matches "email" (dict_get user_data "email" VNone)) c) = Some u ->
  find_one_by_id c uid = Some u ->
  let u' := apply_set u [("lastLogin", VDate now); ("updatedAt", VDate now)] in
  exists pre post, c = (pre ++ u :: post)%list /\
    UserService.sync_cognito_user c user_data now = ((pre ++ u' :: post)%list, (VDict u', VNone)).
Proof.
  intros Hs He Hex Hu u'.
  destruct (update_first_by_id_some c uid [("lastLogin", VDate now); ("updatedAt", VDate now)] u Hu)
    as (pre & post & Hc & Hupd).
  exists pre, post; split; [exact Hc|].
  unfold UserService.sync_cognito_user. rewrite Hs, He. cbn [negb orb].
  rewrite Hex. cbv iota beta.
  pose proof (find_one_by_id_nonempty c uid u Hu) as Ht.
  destruct (truthy (VDict u)); [|discriminate].
  rewrite (find_one_by_id_lookup c uid u Hu), Hupd.
  reflexivity.
Qed.

(** A user found by [cognito_sub] keeps its position in the collection;
    [lastLogin] and [updatedAt] become [now], every other field is kept,
    nothing is inserted, and the updated record is returned. *)
Theorem sync_cognito_user_existing (c : collection) (user_data : dict) (now : datetime) (u : dict) :
  truthy (dict_get user_data "cognito_sub" VNone) = true ->
  truthy (dict_get user_data "email" VNone) = true ->
  find_one_by_id c (dict_get user_data "cognito_sub" VNone) = Some u ->
  let u' := apply_set u [("lastLogin", VDate now); ("updatedAt", VDate now)] in
  exists pre post, c = (pre ++ u :: post)%list /\
    UserService.sync_cognito_user c user_data now = ((pre ++ u' :: post)%list, (VDict u', VNone)) /\
    dict_lookup "lastLogin" u' = Some (VDate now) /\
    dict_lookup "updatedAt" u' = Some (VDate now) /\
    (forall k, k <> "lastLogin" -> k <> "updatedAt" -> dict_lookup k u' = dict_lookup k u).
Proof.
  intros Hs He Hu u'.
  destruct (sync_found_user c user_data now u (dict_get user_data "cognito_sub" VNone) Hs He)
    as (pre & post & Hc & Hr); [|exact Hu|].
  - rewrite Hu. unfold UserRepo.opt_truthy. rewrite (find_one_by_id_nonempty _ _ _ Hu); reflexivity.
  - exists pre, post. repeat split; auto; apply login_update_lookups.
Qed.

Lemma sync_cognito_user_existing_witness :
  let c := [[("_id", VStr "u1"); ("email", VStr "a@b.c"); ("role", VStr "admin")]] in
  let ud := [("cognito_sub", VStr "u1"); ("email", VStr "a@b.c")] in
  let u := [("_id", VStr "u1"); ("email", VStr "a@b.c"); ("role", VStr "admin")] in
  let u' := apply_set u [("lastLogin", VDate t_now); ("updatedAt", VDate t_now)] in
  exists pre post, c = (pre ++ u :: post)%list /\
    UserService.sync_cognito_user c ud t_now = ((pre ++ u' :: post)%list, (VDict u', VNone)) /\
    dict_lookup "lastLogin" u' = Some (VDate t_now) /\
    dict_lookup "updatedAt" u' = Some (VDate t_now) /\
    (forall k, k <> "lastLogin" -> k <> "updatedAt" -> dict_lookup k u' = dict_lookup k u).
Proof.
  intros c ud u u'.
  exact (sync_cognito_user_existing c ud t_now u eq_refl eq_refl eq_refl).
Defined.

Lemma find_app_none (p : dict -> bool) (l1 l2 : list dict) :
  find p l1 = None -> find p (l1 ++ l2)%list = find p l2.
Proof. induction l1 as [|x l1 IH]; simpl; auto. destruct (p x); [discriminate|auto]. Qed.

Lemma update_first_by_id_app_none (c l : collection) (v : value) (upd : dict) :
  find_one_by_id c v = None ->
  update_first_by_id (c ++ l)%list v upd =
  match update_first_by_id l v upd with Some (r, d) => Some ((c ++ r)%list, d) | None => None end.
Proof.
  unfold find_one_by_id. induction c as [|x c IH]; simpl; intros H.
  - destruct (update_first_by_id l v upd) as [[r d]|]; reflexivity.
  - destruct (id_matches v x); [discriminate|]. rewrite (IH H).
    destruct (update_first_by_id l v upd) as [[r d]|]; reflexivity.
Qed.

Lemma find_replace_none (p : dict -> bool) (pre post : list dict) (x y : dict) :
  find p (pre ++ x :: post)%list = None -> p y = p x -> find p (pre ++ y :: post)%list = None.
Proof.
  intros H Hp. induction pre as [|z pre IH]; simpl in *.
  - rewrite Hp. destruct (p x); [discriminate|exact H].
  - destruct (p z); [discriminate|auto].
Qed.

(** With no record whose [_id] is the [cognito_sub], the record found by
    [email] is updated in place (its [_id] is not the [cognito_sub]) and
    returned, and still no record has the [cognito_sub] as [_id]. *)
Theorem sync_cognito_user_email_fallback (c : collection) (user_data : dict) (now : datetime)
    (u : dict) (uid : value) :
  truthy (dict_get user_data "cognito_sub" VNone) = true ->
  truthy (dict_get user_data "email" VNone) = true ->
  find_one_by_id c (dict_get user_data "cognito_sub" VNone) = None ->
  find (field_matches "email" (dict_get user_data "email" VNone)) c = Some u ->
  find_one_by_id c uid = Some u ->
  let u' := apply_set u [("lastLogin", VDate now); ("updatedAt", VDate now)] in
  exists pre post, c = (pre ++ u :: post)%list /\
    UserService.sync_cognito_user c user_data now = ((pre ++ u' :: post)%list, (VDict u', VNone)) /\
    dict_lookup "_id" u' = Some uid /\
    find_one_by_id (pre ++ u' :: post)%list (dict_get user_data "cognito_sub" VNone) = None.
Proof.
  intros Hs He Hnone Hem Hu u'.
  destruct (sync_found_user c user_data now u uid Hs He) as (pre & post & Hc & Hr);
    [rewrite Hnone; exact Hem|exact Hu|].
  destruct (login_update_lookups u now) as (_ & _ & Hfr).
  assert (Hid : dict_lookup "_id" u' = dict_lookup "_id" u) by (apply Hfr; discriminate).
  exists pre, post. split; [exact Hc|]. split; [exact Hr|]. split.
  - rewrite Hid. exact (find_one_by_id_lookup c uid u Hu).
  - unfold find_one_by_id in *. rewrite Hc in Hnone.
    apply (find_replace_none _ _ _ u); [exact Hnone|].
    unfold id_matches. rewrite Hid; reflexivity.
Qed.

Lemma sync_cognito_user_email_fallback_witness :
  let c := [[("_id", VStr "old"); ("email", VStr "a@b.c")]] in
  let ud := [("cognito_sub", VStr "u1"); ("email", VStr "a@b.c")] in
  let u := [("_id", VStr "old"); ("email", VStr "a@b.c")] in
  let u' := apply_set u [("lastLogin", VDate t_now); ("updatedAt", VDate t_now)] in
  exists pre post, c = (pre ++ u :: post)%list /\
    UserService.sync_cognito_user c ud t_now = ((pre ++ u' :: post)%list, (VDict u', VNone)) /\
    dict_lookup "_id" u' = Some (VStr "old") /\
    find_one_by_id (pre ++ u' :: post)%list (VStr "u1") = None.
Proof.
  intros c ud u u'.
  exact (sync_cognito_user_email_fallback c ud t_now u (VStr "old") eq_refl eq_refl eq_refl eq_refl eq_refl).
Defined.

Lemma sync_cognito_user_insert (c : collection) (user_data : dict) (now : datetime) (e : string) :
  truthy (dict_get user_data "cognito_sub" VNone) = true ->
  dict_get user_data "email" VNone = VStr e -> e <> "" ->
  find_one_by_id c (dict_get user_data "cognito_sub" VNone) = None ->
  find (field_matches "email" (VStr e)) c = None ->
  let sub := dict_get user_data "cognito_sub" VNone in
  let nd := [("_id", sub); ("email", VStr e); ("cognito_sub", sub);
             ("name", py_or (dict_get user_data "name" VNone) (VStr (local_part e)));
             ("gender", dict_get user_data "gender" (VStr ""));
             ("birthdate", dict_get user_data "birthdate" (VStr ""));
             ("avatar", dict_get user_data "avatar" (VStr ""));
             ("role", VStr "student"); ("bio", VStr ""); ("serie_subscribe", VList []);
             ("createdAt", VDate now); ("updatedAt", VDate now); ("lastLogin", VDate now)] in
  UserService.sync_cognito_user c user_data now = ((c ++ [nd])%list, (VDict nd, VNone)).
Proof.
  intros Hs Hem Hne Hnone Hnoe sub nd.
  assert (He : truthy (dict_get user_data "email" VNone) = true)
    by (rewrite Hem; apply truthy_str_nonempty; exact Hne).
  unfold UserService.sync_cognito_user. rewrite Hs, He. cbn [negb orb].
  rewrite Hnone. cbn [UserRepo.opt_truthy]. rewrite Hem, Hnoe.
  unfold UserService.sync_new_user.
  destruct (truthy (dict_get user_data "name" VNone)) eqn:Hn; cbv iota beta;
    rewrite insert_one_fresh by exact (find_none_existsb _ _ Hnone);
    unfold nd, py_or; rewrite Hn; reflexivity.
Qed.

(** A user found neither by [cognito_sub] nor by [email] (a string) is
    appended as a new [student] record whose [_id] is the [cognito_sub] and
    whose [name] defaults to the part of the email before [@]; a second
    sync with the same data finds that record and inserts nothing. *)
Theorem sync_cognito_user_new (c : collection) (user_data : dict) (now later : datetime) (e : string) :
  truthy (dict_get user_data "cognito_sub" VNone) = true ->
  dict_get user_data "email" VNone = VStr e -> e <> "" ->
  find_one_by_id c (dict_get user_data "cognito_sub" VNone) = None ->
  find (field_matches "email" (VStr e)) c = None ->
  exists nd, UserService.sync_cognito_user c user_data now = ((c ++ [nd])%list, (VDict nd, VNone)) /\
    dict_lookup "_id" nd = Some (dict_get user_data "cognito_sub" VNone) /\
    dict_lookup "name" nd = Some (py_or (dict_get user_data "name" VNone) (VStr (local_part e))) /\
    dict_lookup "role" nd = Some (VStr "student") /\
    fst (UserService.sync_cognito_user (c ++ [nd])%list user_data later) =
      (c ++ [apply_set nd [("lastLogin", VDate later); ("updatedAt", VDate later)]])%list.
Proof.
  intros Hs Hem Hne Hnone Hnoe.
  assert (He : truthy (dict_get user_data "email" VNone) = true).
  { rewrite Hem; simpl. destruct (String.eqb e "") eqn:E; [|reflexivity].
    apply String.eqb_eq in E; contradiction. }
  set (sub := dict_get user_data "cognito_sub" VNone) in *.
  set (nm := py_or (dict_get user_data "name" VNone) (VStr (local_part e))).
  set (nd := [("_id", sub); ("email", VStr e); ("cognito_sub", sub); ("name", nm);
         ("gender", dict_get user_data "gender" (VStr ""));
         ("birthdate", dict_get user_data "birthdate" (VStr ""));
         ("avatar", dict_get user_data "avatar" (VStr ""));
         ("role", VStr "student"); ("bio", VStr ""); ("serie_subscribe", VList []);
         ("createdAt", VDate now); ("updatedAt", VDate now); ("lastLogin", VDate now)]).
  assert (Hfirst : UserService.sync_cognito_user c user_data now = ((c ++ [nd])%list, (VDict nd, VNone)))
    by exact (sync_cognito_user_insert c user_data now e Hs Hem Hne Hnone Hnoe).
  exists nd. split; [exact Hfirst|]. split; [reflexivity|]. split; [reflexivity|]. split; [reflexivity|].
  assert (Hf : find_one_by_id (c ++ @cons dict nd nil)%list sub = Some nd).
  { unfold find_one_by_id. rewrite find_app_none by exact Hnone.
    simpl. unfold id_matches. simpl. rewrite value_eqb_refl. reflexivity. }
  unfold UserService.sync_cognito_user. fold sub. rewrite Hs, He. cbn [negb orb].
  rewrite Hf. unfold UserRepo.opt_truthy. cbn [truthy nd]. cbv iota beta.
  replace (dict_lookup "_id" nd) with (Some sub) by reflexivity. cbv iota beta.
  rewrite update_first_by_id_app_none by exact Hnone.
  cbn [update_first_by_id]. replace (id_matches sub nd) with true
    by (unfold id_matches; simpl; rewrite value_eqb_refl; reflexivity).
  reflexivity.
Qed.

Lemma sync_cognito_user_new_witness :
  exists nd, UserService.sync_cognito_user [] [("cognito_sub", VStr "u1"); ("email", VStr "ann@b.c")] t_now
      = ([nd], (VDict nd, VNone)) /\
    dict_lookup "_id" nd = Some (VStr "u1") /\
    dict_lookup "name" nd = Some (py_or VNone (VStr "ann")) /\
    dict_lookup "role" nd = Some (VStr "student") /\
    fst (UserService.sync_cognito_user [nd] [("cognito_sub", VStr "u1"); ("email", VStr "ann@b.c")] t_later) =
      [apply_set nd [("lastLogin", VDate t_later); ("updatedAt", VDate t_later)]].
Proof.
  exact (sync_cognito_user_new [] [("cognito_sub", VStr "u1"); ("email", VStr "ann@b.c")] t_now t_later
           "ann@b.c" eq_refl eq_refl ltac:(discriminate) eq_refl eq_refl).
Defined.

(** ** Subscriptions of one user *)

Lemma id_matches_dict_set (v : value) (d : dict) (k : string) (x : value) :
  k <> "_id" -> id_matches v (dict_set d k x) = id_matches v d.
Proof.
  intros Hk. unfold id_matches. rewrite lookup_dict_set.
  destruct (String.eqb "_id" k) eqn:E; [apply String.eqb_eq in E; congruence|reflexivity].
Qed.

Lemma list_contains_filter_out (x : value) (l : list value) :
  list_contains x (filter (fun y => negb (value_eqb y x)) l) = false.
Proof.
  unfold list_contains. apply not_true_is_false. intros H.
  apply existsb_exists in H as [y [Hy Hxy]]. apply filter_In in Hy as [_ Hy].
  rewrite value_eqb_sym, Hxy in Hy. discriminate.
Qed.

Lemma filter_out_absent (x : value) (l : list value) :
  list_contains x l = false -> filter (fun y => negb (value_eqb y x)) l = l.
Proof.
  unfold list_contains. induction l as [|y l IH]; simpl; auto.
  rewrite (value_eqb_sym y x). destruct (value_eqb x y); simpl; [intros H; discriminate|].
  intros H; rewrite IH; auto.
Qed.

Lemma apply_remove_ops_typed (d : dict) (sid : string) (now : datetime) :
  subs_typed d ->
  apply_ops d (UsersApi.remove_serie_ops sid now) =
  Ok (dict_set (match dict_lookup "serie_subcribe" d with
                | Some (VList l) =>
                    dict_set d "serie_subcribe" (VList (filter (fun y => negb (value_eqb y (VStr sid))) l))
                | _ => d
                end) "updatedAt" (VDate now)).
Proof.
  unfold subs_typed, apply_ops, UsersApi.remove_serie_ops; simpl. unfold pull_field.
  destruct (dict_lookup "serie_subcribe" d) as [[]|]; intros H; try contradiction; reflexivity.
Qed.

Lemma remove_subscription_found (c : collection) (uid sid : string) (now : datetime) (user : dict) :
  find_one_by_id c (VStr uid) = Some user -> subs_typed user ->
  let user' := dict_set (match dict_lookup "serie_subcribe" user with
                         | Some (VList l) =>
                             dict_set user "serie_subcribe"
                               (VList (filter (fun y => negb (value_eqb y (VStr sid))) l))
                         | _ => user
                         end) "updatedAt" (VDate now) in
  exists pre post, c = (pre ++ user :: post)%list /\
    UsersApi.remove_subscription c uid sid now =
      ((pre ++ user' :: post)%list,
       UsersApi.success_response (VDict [("message", VStr "Subscription removed successfully")]) None 200) /\
    find_one_by_id (pre ++ user' :: post)%list (VStr uid) = Some user' /\
    has_sub (VStr sid) user' = false.
Proof.
  intros Hf Ht user'.
  pose proof (apply_remove_ops_typed user sid now Ht) as Ha.
  destruct (update_one_found c (VStr uid) _ user user' Hf Ha) as (pre & post & Hc & Hu & Hpre).
  assert (Hid : id_matches (VStr uid) user' = true).
  { unfold user'. rewrite id_matches_dict_set by discriminate.
    apply find_some_split in Hf as (_ & _ & _ & Hm & _).
    destruct (dict_lookup "serie_subcribe" user) as [[]|]; auto.
    rewrite id_matches_dict_set by discriminate; exact Hm. }
  exists pre, post. split; [exact Hc|]. split; [|split].
  - unfold UsersApi.remove_subscription, UsersApi.found_user. rewrite Hf.
    rewrite (find_one_by_id_nonempty _ _ _ Hf).
    change (mk_ops [] [("serie_subcribe", VStr sid)] [("updatedAt", VDate now)])
      with (UsersApi.remove_serie_ops sid now).
    rewrite Hu. reflexivity.
  - apply find_after_update; auto.
  - unfold has_sub, user'. rewrite lookup_dict_set. cbn [String.eqb Ascii.eqb Bool.eqb].
    destruct (dict_lookup "serie_subcribe" user) as [[]|] eqn:E; try reflexivity; try (rewrite E; reflexivity).
    rewrite lookup_dict_set. cbn. apply list_contains_filter_out.
Qed.

(** [DELETE /<user_id>/subscriptions/<serie_id>] on an existing user whose
    subscription field is absent or an array takes every occurrence of the id
    out of the array, sets [updatedAt], leaves the other users and
    positions alone, and answers 200 also when the id was not there. *)
Theorem remove_subscription_existing (c : collection) (uid sid : string) (now : datetime) (user : dict) :
  find_one_by_id c (VStr uid) = Some user -> subs_typed user ->
  let user' := dict_set (match dict_lookup "serie_subcribe" user with
                         | Some (VList l) =>
                             dict_set user "serie_subcribe"
                               (VList (filter (fun y => negb (value_eqb y (VStr sid))) l))
                         | _ => user
                         end) "updatedAt" (VDate now) in
  exists pre post, c = (pre ++ user :: post)%list /\
    UsersApi.remove_subscription c uid sid now =
      ((pre ++ user' :: post)%list,
       UsersApi.success_response (VDict [("message", VStr "Subscription removed successfully")]) None 200) /\
    find_one_by_id (pre ++ user' :: post)%list (VStr uid) = Some user' /\
    has_sub (VStr sid) user' = false.
Proof. exact (remove_subscription_found c uid sid now user). Qed.

Lemma remove_subscription_existing_witness :
  let user := [("_id", VStr "u1"); ("serie_subcribe", VList [VStr "s1"; VStr "s2"; VStr "s1"])] in
  let user' := dict_set (dict_set user "serie_subcribe" (VList [VStr "s2"])) "updatedAt" (VDate t_now) in
  exists pre post, [user] = (pre ++ user :: post)%list /\
    UsersApi.remove_subscription [user] "u1" "s1" t_now =
      ((pre ++ user' :: post)%list,
       UsersApi.success_response (VDict [("message", VStr "Subscription removed successfully")]) None 200) /\
    find_one_by_id (pre ++ user' :: post)%list (VStr "u1") = Some user' /\
    has_sub (VStr "s1") user' = false.
Proof.
  intros user user'.
  exact (remove_subscription_existing [user] "u1" "s1" t_now user eq_refl I).
Defined.

Lemma truthy_snoc (l : list value) (x : value) : truthy (VList (l ++ [x])%list) = true.
Proof. destruct l; reflexivity. Qed.

(** After [POST /<user_id>/subscriptions] has added a new id to an existing
    user, [GET /<user_id>/subscriptions] lists the user's previous array
    with the id at its end. *)
Theorem add_then_get_subscriptions (c : collection) (uid sid : string) (now : datetime)
    (user : dict) (l : list value) :
  find_one_by_id c (VStr uid) = Some user -> sid <> "" ->
  dict_get user "serie_subcribe" (VList []) = VList l ->
  list_contains (VStr sid) l = false ->
  let r := UsersApi.add_subscription c uid (VDict [("serie_id", VStr sid)]) now in
  UsersApi.status (snd r) = 200 /\
  UsersApi.get_user_subscriptions (fst r) uid =
    UsersApi.success_response
      (VDict [("user_id", VStr uid); ("subscriptions", VList (l ++ [VStr sid])%list)]) None 200.
Proof.
  intros Hf Hne Hl Hnc r.
  pose proof (add_subscription_existing c uid [("serie_id", VStr sid)] now user l (VStr sid)
                Hf eq_refl (truthy_str_nonempty sid Hne) Hl) as H.
  rewrite Hnc in H. destruct H as (c' & user' & Hr & Hf' & Hs).
  subst r. rewrite Hr. split; [reflexivity|].
  cbn [fst]. unfold UsersApi.get_user_subscriptions, UsersApi.found_user.
  rewrite Hf', (find_one_by_id_nonempty _ _ _ Hf').
  unfold dict_get at 1. rewrite Hs. unfold py_or. rewrite truthy_snoc. reflexivity.
Qed.

Lemma add_then_get_subscriptions_witness :
  let c := [[("_id", VStr "u1"); ("serie_subcribe", VList [VStr "s0"])]] in
  let r := UsersApi.add_subscription c "u1" (VDict [("serie_id", VStr "s1")]) t_now in
  UsersApi.status (snd r) = 200 /\
  UsersApi.get_user_subscriptions (fst r) "u1" =
    UsersApi.success_response
      (VDict [("user_id", VStr "u1"); ("subscriptions", VList ([VStr "s0"] ++ [VStr "s1"])%list)]) None 200.
Proof.
  intros c r.
  exact (add_then_get_subscriptions c "u1" "s1" t_now _ [VStr "s0"] eq_refl ltac:(discriminate)
           eq_refl eq_refl).
Defined.

(** Adding an id the user did not have and then deleting it gives back the
    user's subscription array as it was before. *)
Theorem add_then_remove_subscription (c : collection) (uid sid : string) (now later : datetime)
    (user : dict) (l : list value) :
  find_one_by_id c (VStr uid) = Some user -> sid <> "" ->
  dict_lookup "serie_subcribe" user = Some (VList l) ->
  list_contains (VStr sid) l = false ->
  let c1 := fst (UsersApi.add_subscription c uid (VDict [("serie_id", VStr sid)]) now) in
  let c2 := fst (UsersApi.remove_subscription c1 uid sid later) in
  user_subs c1 uid = Some (VList (l ++ [VStr sid])%list) /\
  user_subs c2 uid = Some (VList l).
Proof.
  intros Hf Hne Hl Hnc c1 c2.
  assert (Hg : dict_get user "serie_subcribe" (VList []) = VList l) by (unfold dict_get; rewrite Hl; reflexivity).
  pose proof (add_subscription_existing c uid [("serie_id", VStr sid)] now user l (VStr sid)
                Hf eq_refl (truthy_str_nonempty sid Hne) Hg) as H.
  rewrite Hnc in H. destruct H as (c' & user' & Hr & Hf' & Hs).
  assert (Hc1 : c1 = c') by (subst c1; rewrite Hr; reflexivity).
  assert (Ht : subs_typed user') by (unfold subs_typed; rewrite Hs; exact I).
  destruct (remove_subscription_found c' uid sid later user' Hf' Ht) as (pre & post & _ & Hr2 & Hf2 & _).
  split.
  - unfold user_subs. rewrite Hc1, Hf'. exact Hs.
  - unfold user_subs. subst c2. rewrite Hc1, Hr2. cbn [fst]. rewrite Hf2.
    rewrite lookup_dict_set. cbn [String.eqb Ascii.eqb Bool.eqb]. rewrite Hs.
    rewrite lookup_dict_set. cbn [String.eqb Ascii.eqb Bool.eqb].
    rewrite filter_app, filter_out_absent by exact Hnc.
    cbn [filter value_eqb]. rewrite String.eqb_refl. cbn. rewrite app_nil_r. reflexivity.
Qed.

Lemma add_then_remove_subscription_witness :
  let c := [[("_id", VStr "u1"); ("serie_subcribe", VList [VStr "s0"])]] in
  let c1 := fst (UsersApi.add_subscription c "u1" (VDict [("serie_id", VStr "s1")]) t_now) in
  let c2 := fst (UsersApi.remove_subscription c1 "u1" "s1" t_later) in
  user_subs c1 "u1" = Some (VList ([VStr "s0"] ++ [VStr "s1"])%list) /\
  user_subs c2 "u1" = Some (VList [VStr "s0"]).
Proof.
  intros c c1 c2.
  exact (add_then_remove_subscription c "u1" "s1" t_now t_later _ [VStr "s0"] eq_refl
           ltac:(discriminate) eq_refl eq_refl).
Defined.

(** ** Subscribers of a series *)

(** After [DELETE /subscriptions/serie/<serie_id>] on a store whose
    subscription fields are arrays, [GET /subscribers/<serie_id>] finds no
    subscriber: no email and a count of 0. *)
Theorem serie_subscribers_after_removal (c : collection) (sid : string) (now : datetime) :
  Forall subs_typed c ->
  UsersApi.get_serie_subscribers (fst (UsersApi.remove_serie_from_all_users c sid now)) sid =
  UsersApi.success_response
    (VDict [("serie_id", VStr sid); ("emails", VList []); ("count", VInt 0)]) None 200.
Proof.
  intros Hc. unfold UsersApi.remove_serie_from_all_users. rewrite update_many_remove by exact Hc.
  cbn [fst]. unfold UsersApi.get_serie_subscribers.
  replace (filter (field_matches "serie_subcribe" (VStr sid))
             (map (fun d => if has_sub (VStr sid) d then pull_serie (VStr sid) now d else d) c))
    with (@nil dict); [reflexivity|].
  induction Hc as [|d rest Hd _ IH]; [reflexivity|].
  cbn [map filter]. destruct (has_sub (VStr sid) d) eqn:Hs.
  - rewrite field_matches_typed by (apply pull_serie_typed; exact Hd).
    rewrite pull_serie_no_sub by exact Hs. exact IH.
  - rewrite field_matches_typed by exact Hd. rewrite Hs. exact IH.
Qed.

Lemma serie_subscribers_after_removal_witness :
  let c := [[("_id", VStr "u1"); ("email", VStr "a@b.c"); ("serie_subcribe", VList [VStr "s1"])];
            [("_id", VStr "u2"); ("email", VStr "d@e.f")]] in
  UsersApi.get_serie_subscribers (fst (UsersApi.remove_serie_from_all_users c "s1" t_now)) "s1" =
  UsersApi.success_response
    (VDict [("serie_id", VStr "s1"); ("emails", VList []); ("count", VInt 0)]) None 200.
Proof.
  intros c. apply serie_subscribers_after_removal. repeat constructor.
Defined.

Lemma add_subscription_new (c : collection) (uid : string) (sid : value) (now : datetime)
    (user : dict) (l : list value) :
  find_one_by_id c (VStr uid) = Some user -> truthy sid = true ->
  dict_get user "serie_subcribe" (VList []) = VList l ->
  list_contains sid l = false ->
  let user' := dict_set (dict_set user "serie_subcribe" (VList (l ++ [sid])%list)) "updatedAt" (VDate now) in
  exists pre post, c = (pre ++ user :: post)%list /\
    UsersApi.add_subscription c uid (VDict [("serie_id", sid)]) now =
      ((pre ++ user' :: post)%list,
       UsersApi.success_response (VDict [("message", VStr "Subscription added successfully")]) None 200).
Proof.
  intros Hf Ht Hl Hnc user'.
  assert (Ha : apply_ops user (add_ops sid now) = Ok user').
  { rewrite apply_add_ops. unfold add_to_set_field. unfold dict_get in Hl.
    destruct (dict_lookup "serie_subcribe" user) as [w|].
    - subst w. rewrite Hnc. reflexivity.
    - injection Hl as <-. reflexivity. }
  destruct (update_one_found c (VStr uid) _ user user' Hf Ha) as (pre & post & Hc & Hu & _).
  exists pre, post. split; [exact Hc|].
  unfold UsersApi.add_subscription. rewrite json_body_dict_of_dict.
  cbn [dict_get dict_lookup String.eqb Ascii.eqb Bool.eqb]. rewrite Ht, Hf.
  cbn [negb]. rewrite (find_one_by_id_nonempty _ _ _ Hf). cbn [negb].
  rewrite Hl. cbn [UsersApi.py_in]. rewrite Hnc.
  fold (add_ops sid now). rewrite Hu. reflexivity.
Qed.

(** A user who has just subscribed with a non-empty email is listed by
    [GET /subscribers/<serie_id>]: its email is among the returned ones,
    and [count] is the number of returned emails. *)
Theorem subscriber_listed_after_add (c : collection) (uid sid e : string) (now : datetime)
    (user : dict) (l : list value) :
  find_one_by_id c (VStr uid) = Some user -> sid <> "" ->
  dict_get user "serie_subcribe" (VList []) = VList l ->
  list_contains (VStr sid) l = false ->
  dict_lookup "email" user = Some (VStr e) -> e <> "" ->
  exists emails,
    UsersApi.get_serie_subscribers
      (fst (UsersApi.add_subscription c uid (VDict [("serie_id", VStr sid)]) now)) sid =
    UsersApi.success_response (VDict [("serie_id", VStr sid); ("emails", VList emails);
                                      ("count", VInt (Z.of_nat (length emails)))]) None 200 /\
    In (VStr e) emails.
Proof.
  intros Hf Hne Hl Hnc He Hen.
  destruct (add_subscription_new c uid (VStr sid) now user l Hf (truthy_str_nonempty sid Hne) Hl Hnc)
    as (pre & post & _ & Hr).
  rewrite Hr. cbn [fst]. unfold UsersApi.get_serie_subscribers.
  eexists; split; [reflexivity|].
  apply filter_In. split; [|apply truthy_str_nonempty; exact Hen].
  apply in_map_iff. exists [("email", VStr e)]. split; [reflexivity|].
  apply in_map_iff.
  exists (dict_set (dict_set user "serie_subcribe" (VList (l ++ [VStr sid])%list)) "updatedAt" (VDate now)).
  split.
  - unfold UsersApi.project_email. rewrite !lookup_dict_set. cbn [String.eqb Ascii.eqb Bool.eqb].
    rewrite He. reflexivity.
  - apply filter_In. split; [apply in_or_app; right; left; reflexivity|].
    unfold field_matches. rewrite !lookup_dict_set. cbn [String.eqb Ascii.eqb Bool.eqb].
    rewrite list_contains_last. reflexivity.
Qed.

Lemma subscriber_listed_after_add_witness :
  let c := [[("_id", VStr "u1"); ("email", VStr "a@b.c")]] in
  exists emails,
    UsersApi.get_serie_subscribers
      (fst (UsersApi.add_subscription c "u1" (VDict [("serie_id", VStr "s1")]) t_now)) "s1" =
    UsersApi.success_response (VDict [("serie_id", VStr "s1"); ("emails", VList emails);
                                      ("count", VInt (Z.of_nat (length emails)))]) None 200 /\
    In (VStr "a@b.c") emails.
Proof.
  intros c.
  exact (subscriber_listed_after_add c "u1" "s1" "a@b.c" t_now _ [] eq_refl ltac:(discriminate)
           eq_refl eq_refl eq_refl ltac:(discriminate)).
Defined.

(** ** Profile updates *)

(** [PUT /<user_id>] never adds a record: the collection keeps its size,
    whatever the request (for an unknown user it answers 404 before any
    write). *)
Theorem update_user_profile_no_insert (c : collection) (user_id : string) (avatar_part : option string)
    (form : dict) (body : value) (delete_resp upload_resp : http_outcome) (now : datetime) :
  length (fst (UsersApi.update_user_profile c user_id avatar_part form body delete_resp upload_resp now))
  = length c.
Proof.
  unfold UsersApi.update_user_profile, UsersApi.found_user.
  destruct (find_one_by_id c (VStr user_id)) as [u|] eqn:Hf; [|reflexivity].
  destruct (truthy (VDict u)); [|reflexivity].
  set (data := match avatar_part with Some _ => VDict form | None => if truthy body then body else VDict [] end).
  destruct data as [| | | | | | |d]; try reflexivity.
  cbn [fst]. unfold UserService.update_user.
  destruct (UserService.file_truthy avatar_part); cbn [fst]; eapply repo_update_length; exact Hf.
Qed.

Lemma update_first_by_id_find (c : collection) (v : value) (upd : dict) (u : dict) :
  find_one_by_id c v = Some u -> ~ In "_id" (map fst upd) ->
  exists pre post, c = (pre ++ u :: post)%list /\
    update_first_by_id c v upd = Some ((pre ++ apply_set u upd :: post)%list, apply_set u upd) /\
    find_one_by_id (pre ++ apply_set u upd :: post)%list v = Some (apply_set u upd).
Proof.
  intros Hf Hk.
  assert (Hid : id_matches v (apply_set u upd) = id_matches v u)
    by (unfold id_matches; rewrite lookup_apply_set_notin by exact Hk; reflexivity).
  unfold find_one_by_id in *.
  induction c as [|x rest IH]; simpl in Hf; [discriminate|].
  simpl. destruct (id_matches v x) eqn:E.
  - injection Hf as ->. exists [], rest. simpl. rewrite Hid, E. auto.
  - destruct (IH Hf) as (pre & post & -> & Hu & Hf'). rewrite Hu.
    exists (x :: pre), post. simpl. rewrite E. auto.
Qed.

Lemma update_data_no_id (data : dict) (now : datetime) :
  ~ In "_id" (map fst (dict_set (UserRepo.sanitize data) "updatedAt" (VDate now))).
Proof.
  intros H. apply update_data_keys in H as [H|[_ H]]; [discriminate|]. apply H; left; reflexivity.
Qed.

Lemma update_profile_role_found (c : collection) (user_id : string) (d : dict) (v : value)
    (delete_resp upload_resp : http_outcome) (now : datetime) (u : dict) :
  find_one_by_id c (VStr user_id) = Some u ->
  dict_lookup "role" d = Some v -> NoDup (map fst d) ->
  exists pre post u', c = (pre ++ u :: post)%list /\
    UsersApi.update_user_profile c user_id None [] (VDict d) delete_resp upload_resp now =
      ((pre ++ u' :: post)%list,
       UsersApi.success_response (VDict u') (Some "User updated successfully") 200) /\
    dict_lookup "role" u' = Some v /\
    find_one_by_id (pre ++ u' :: post)%list (VStr user_id) = Some u'.
Proof.
  intros Hf Hr Hnd.
  set (upd := dict_set (UserRepo.sanitize d) "updatedAt" (VDate now)).
  destruct (update_first_by_id_find c (VStr user_id) upd u Hf (update_data_no_id d now))
    as (pre & post & Hc & Hu & Hf').
  exists pre, post, (apply_set u upd). split; [exact Hc|]. split; [|split; [|exact Hf']].
  - unfold UsersApi.update_user_profile, UsersApi.found_user. rewrite Hf.
    rewrite (find_one_by_id_nonempty _ _ _ Hf).
    assert (Hd : truthy (VDict d) = true) by (destruct d; [discriminate|reflexivity]).
    rewrite Hd. unfold UserService.update_user. cbn [UserService.file_truthy].
    unfold UserRepo.update, find_one_and_update_upsert. fold upd. rewrite Hu. reflexivity.
  - apply lookup_apply_set_in; [apply update_data_NoDup; exact Hnd|].
    unfold upd. rewrite update_data_lookup. exact Hr.
Qed.



(** ** The profile of the caller *)

(** [GET /profile] for an identity with no record and a string email
    creates the record (201), whose [_id] is the caller's [sub]; a second
    call finds it and answers 200 with it, writing nothing. *)
Theorem get_current_profile_autocreate (c : collection) (g : flask_g) (now later : datetime) (e : string) :
  truthy (g_user_sub g) = true -> g_user_email g = VStr e ->
  find_one_by_id c (g_user_sub g) = None ->
  exists u,
    UsersApi.get_current_profile c g now =
      ((c ++ [u])%list, UsersApi.success_response (VDict u) (Some "User profile created automatically") 201) /\
    dict_lookup "_id" u = Some (g_user_sub g) /\
    UsersApi.get_current_profile (c ++ [u])%list g later =
      ((c ++ [u])%list, UsersApi.success_response (VDict u) None 200).
Proof.
  intros Hs He Hn.
  set (data := [("userId", g_user_sub g); ("name", g_user_name g); ("email", g_user_email g)]).
  destruct (UserRepo.new_payload (g_user_sub g) data now) as [u|ex] eqn:Hp;
    [|unfold UserRepo.new_payload in Hp; unfold data in Hp; cbn in Hp; rewrite He in Hp; discriminate].
  assert (Hid : dict_lookup "_id" u = Some (g_user_sub g)).
  { unfold UserRepo.new_payload in Hp. unfold data in Hp. cbn in Hp. rewrite He in Hp.
    injection Hp as <-. reflexivity. }
  assert (Hget : dict_get u "_id" VNone = g_user_sub g) by (unfold dict_get; rewrite Hid; reflexivity).
  assert (Hu : truthy (VDict u) = true) by (destruct u; [discriminate|reflexivity]).
  exists u. split; [|split; [exact Hid|]].
  - unfold UsersApi.get_current_profile, UsersApi.found_user. rewrite Hn. fold data.
    unfold UserRepo.create. cbn [data dict_get dict_lookup String.eqb Ascii.eqb Bool.eqb].
    rewrite Hs. cbn [negb]. rewrite Hn. cbn [UserRepo.opt_truthy].
    fold data. rewrite Hp. cbn [bind].
    rewrite insert_one_fresh by (rewrite Hget; exact (find_none_existsb _ _ Hn)).
    reflexivity.
  - unfold UsersApi.get_current_profile, UsersApi.found_user.
    assert (Hf : find_one_by_id (c ++ @cons dict u nil)%list (g_user_sub g) = Some u).
    { unfold find_one_by_id. rewrite find_app_none by exact Hn. cbn [find].
      unfold id_matches. rewrite Hid, value_eqb_refl. reflexivity. }
    rewrite Hf, Hu. reflexivity.
Qed.

Lemma get_current_profile_autocreate_witness :
  let g := mk_flask_g (VStr "u1") (VStr "ann@b.c") (VStr "Ann") (VStr "student") in
  exists u,
    UsersApi.get_current_profile [] g t_now =
      (([] ++ [u])%list, UsersApi.success_response (VDict u) (Some "User profile created automatically") 201) /\
    dict_lookup "_id" u = Some (VStr "u1") /\
    UsersApi.get_current_profile ([] ++ [u])%list g t_later =
      (([] ++ [u])%list, UsersApi.success_response (VDict u) None 200).
Proof.
  intros g. exact (get_current_profile_autocreate [] g t_now t_later "ann@b.c" eq_refl eq_refl eq_refl).
Defined.

(** [GET /profile] for an identity with no record and no email answers 500
    (the email split raises) and writes nothing. *)
Theorem get_current_profile_no_email (c : collection) (g : flask_g) (now : datetime) :
  truthy (g_user_sub g) = true -> g_user_email g = VNone ->
  find_one_by_id c (g_user_sub g) = None ->
  UsersApi.get_current_profile c g now =
    (c, UsersApi.error_response "'NoneType' object has no attribute 'split'" 500).
Proof.
  intros Hs He Hn.
  unfold UsersApi.get_current_profile, UsersApi.found_user. rewrite Hn.
  unfold UserRepo.create. cbn [dict_get dict_lookup String.eqb Ascii.eqb Bool.eqb].
  rewrite Hs. cbn [negb]. rewrite Hn. cbn [UserRepo.opt_truthy].
  unfold UserRepo.new_payload. cbn [dict_get dict_lookup String.eqb Ascii.eqb Bool.eqb].
  rewrite He. reflexivity.
Qed.

Lemma get_current_profile_no_email_witness :
  UsersApi.get_current_profile [[("_id", VStr "u2")]] (mk_flask_g (VStr "u1") VNone VNone VNone) t_now =
    ([[("_id", VStr "u2")]], UsersApi.error_response "'NoneType' object has no attribute 'split'" 500).
Proof. apply get_current_profile_no_email; reflexivity. Defined.


(** ** The [authenticate_jwt] decorator *)

Lemma split_on_cons (c : ascii) (s : string) : exists w ws, Auth.split_on c s = w :: ws.
Proof.
  induction s as [|a s IH]; simpl; [eauto|].
  destruct (Ascii.eqb a c); [eauto|]. destruct IH as (w & ws & ->); eauto.
Qed.

(** The token read from an [Authorization] header ["Bearer " ++ t] is the
    part of [t] before its first space (all of [t] when it has none). *)
Theorem bearer_token_first_word (t : string) :
  Auth.bearer_token (Some ("Bearer " ++ t)) = Some (hd "" (Auth.split_on " "%char t)).
Proof.
  unfold Auth.bearer_token.
  destruct (split_on_cons " "%char t) as (w & ws & Hs).
  simpl. rewrite Hs. destruct t; reflexivity.
Qed.

(** A header ["Bearer " ++ t] in which [t] is empty or starts with a space
    (as in ["Bearer  x"]) is refused with [Token is missing], before the
    JWKS response, the keys or the database are looked at. *)
Theorem authenticate_jwt_empty_token (lib : Auth.jose_lib) (c : collection) (t : string)
    (jwks_resp : http_outcome) :
  hd "" (Auth.split_on " "%char t) = "" ->
  Auth.authenticate_jwt lib c (Some ("Bearer " ++ t)) jwks_resp = Auth.deny_401 "Token is missing".
Proof.
  intros H. unfold Auth.authenticate_jwt. rewrite bearer_token_first_word, H. reflexivity.
Qed.

Lemma authenticate_jwt_empty_token_witness :
  hd "" (Auth.split_on " "%char " abc") = "" /\
  Auth.authenticate_jwt (sample_jose_lib [("sub", VStr "u1")]) [] (Some ("Bearer " ++ " abc")) sample_jwks
  = Auth.deny_401 "Token is missing".
Proof. split; [reflexivity|apply authenticate_jwt_empty_token; reflexivity]. Defined.

(** The store enters [authenticate_jwt] only through the role it reads. *)
Lemma authenticate_jwt_store (lib : Auth.jose_lib) (c : collection) (authorization : option string)
    (jwks_resp : http_outcome) :
  Auth.authenticate_jwt lib c authorization jwks_resp =
  match Auth.authenticate_jwt lib [] authorization jwks_resp with
  | Auth.AuthPassed g =>
      Auth.AuthPassed (mk_flask_g (g_user_sub g) (g_user_email g) (g_user_name g)
                                  (stored_role c (g_user_sub g)))
  | d => d
  end.
Proof.
  unfold Auth.authenticate_jwt.
  destruct (Auth.bearer_token authorization) as [t|]; [|reflexivity].
  destruct (String.eqb t ""); [reflexivity|].
  destruct jwks_resp as [jwks|m]; [|reflexivity].
  destruct (Auth.jose_get_unverified_header lib t) as [h|e]; [|destruct e; reflexivity].
  destruct (Auth.py_getitem jwks "keys") as [keys|e]; [|destruct e; reflexivity].
  destruct (Auth.py_iter keys) as [ks|e]; [|destruct e; reflexivity].
  destruct (Auth.find_pem lib ks h) as [pem|e]; [|destruct e; reflexivity].
  destruct (negb (truthy pem)); [reflexivity|].
  destruct (Auth.jose_decode lib t pem) as [p|e]; [|destruct e; reflexivity].
  destruct (Auth.py_getitem (VDict p) "sub") as [sub|e]; [|destruct e; reflexivity].
  reflexivity.
Qed.

(** Whenever [authenticate_jwt] lets a request through, the role it puts on
    [g] is the stored role of the token's [sub], [student] when the user
    has no record or no role. *)
Theorem authenticate_jwt_role (lib : Auth.jose_lib) (c : collection) (authorization : option string)
    (jwks_resp : http_outcome) (g : flask_g) :
  Auth.authenticate_jwt lib c authorization jwks_resp = Auth.AuthPassed g ->
  g_user_role g = stored_role c (g_user_sub g).
Proof.
  rewrite authenticate_jwt_store.
  destruct (Auth.authenticate_jwt lib [] authorization jwks_resp) as [r|g0]; [discriminate|].
  intros H; injection H as <-. reflexivity.
Qed.

Lemma authenticate_jwt_role_witness :
  Auth.authenticate_jwt (sample_jose_lib [("sub", VStr "u1")]) [[("_id", VStr "u1"); ("role", VStr "admin")]]
    (Some "Bearer abc") sample_jwks =
    Auth.AuthPassed (mk_flask_g (VStr "u1") VNone VNone (VStr "admin")) /\
  g_user_role (mk_flask_g (VStr "u1") VNone VNone (VStr "admin")) =
    stored_role [[("_id", VStr "u1"); ("role", VStr "admin")]] (VStr "u1").
Proof.
  split; [reflexivity|].
  apply (authenticate_jwt_role (sample_jose_lib [("sub", VStr "u1")])
           [[("_id", VStr "u1"); ("role", VStr "admin")]] (Some "Bearer abc") sample_jwks).
  reflexivity.
Defined.

Lemma find_pem_no_match (lib : Auth.jose_lib) (keys : list value) (header : dict) (hk : value) :
  dict_lookup "kid" header = Some hk ->
  Forall (fun k => exists kid, Auth.py_getitem k "kid" = Auth.JOk kid /\ value_eqb kid hk = false) keys ->
  Auth.find_pem lib keys header = Auth.JOk VNone.
Proof.
  intros Hh. induction 1 as [|k rest [kid [Hk Hne]] _ IH]; [reflexivity|].
  cbn [Auth.find_pem]. rewrite Hk. cbn [Auth.py_getitem]. rewrite Hh, Hne. exact IH.
Qed.

(** When no key of the JWKS has the [kid] of the token's header, the request
    is refused with [Unable to find appropriate key]; the signature is
    never checked. *)
Theorem authenticate_jwt_no_matching_key (lib : Auth.jose_lib) (c : collection)
    (authorization : option string) (t : string) (jwks : value) (header : dict) (hk : value)
    (keys : list value) :
  Auth.bearer_token authorization = Some t -> t <> "" ->
  Auth.jose_get_unverified_header lib t = Auth.JOk header ->
  dict_lookup "kid" header = Some hk ->
  Auth.py_getitem jwks "keys" = Auth.JOk (VList keys) ->
  Forall (fun k => exists kid, Auth.py_getitem k "kid" = Auth.JOk kid /\ value_eqb kid hk = false) keys ->
  Auth.authenticate_jwt lib c authorization (HttpJson jwks) = Auth.deny_401 "Unable to find appropriate key".
Proof.
  intros Hb Ht Hh Hk Hj Hks. unfold Auth.authenticate_jwt.
  rewrite Hb. destruct (String.eqb t "") eqn:E; [apply String.eqb_eq in E; contradiction|].
  rewrite Hh, Hj. cbn [Auth.py_iter]. rewrite (find_pem_no_match lib keys header hk Hk Hks).
  reflexivity.
Qed.

Lemma authenticate_jwt_no_matching_key_witness :
  Auth.authenticate_jwt (sample_jose_lib [("sub", VStr "u1")]) [] (Some "Bearer abc")
    (HttpJson (VDict [("keys", VList [VDict [("kid", VStr "k0")]])]))
  = Auth.deny_401 "Unable to find appropriate key".
Proof.
  apply (authenticate_jwt_no_matching_key _ [] (Some "Bearer abc") "abc"
           (VDict [("keys", VList [VDict [("kid", VStr "k0")]])])
           [("kid", VStr "k1"); ("alg", VStr "RS256")] (VStr "k1") [VDict [("kid", VStr "k0")]]);
    try reflexivity; [discriminate|].
  constructor; [|constructor]. exists (VStr "k0"). split; reflexivity.
Defined.

(** [POST /auth/verify] behind [authenticate_jwt] answers with the
    identity the decorator set, and with the same role. *)
Theorem verify_jwt_after_authenticate (lib : Auth.jose_lib) (c : collection)
    (authorization : option string) (jwks_resp : http_outcome) (g : flask_g) :
  Auth.authenticate_jwt lib c authorization jwks_resp = Auth.AuthPassed g ->
  AuthApi.verify_jwt c g =
  UsersApi.success_response (VDict [("user_id", g_user_sub g); ("email", g_user_email g);
                                    ("name", g_user_name g); ("role", g_user_role g)]) None 200.
Proof.
  rewrite authenticate_jwt_store.
  destruct (Auth.authenticate_jwt lib [] authorization jwks_resp) as [r|g0]; [discriminate|].
  intros H; injection H as <-. reflexivity.
Qed.

Lemma verify_jwt_after_authenticate_witness :
  AuthApi.verify_jwt [[("_id", VStr "u1"); ("role", VStr "instructor")]]
    (mk_flask_g (VStr "u1") VNone VNone (VStr "instructor")) =
  UsersApi.success_response (VDict [("user_id", VStr "u1"); ("email", VNone);
                                    ("name", VNone); ("role", VStr "instructor")]) None 200.
Proof.
  apply (verify_jwt_after_authenticate (sample_jose_lib [("sub", VStr "u1")])
           [[("_id", VStr "u1"); ("role", VStr "instructor")]] (Some "Bearer abc") sample_jwks).
  reflexivity.
Defined.

Lemma instructor_required_role (g : flask_g) :
  Auth.instructor_required (Some g) = None <->
  g_user_role g = VStr "instructor" \/ g_user_role g = VStr "admin".
Proof.
  unfold Auth.instructor_required, list_contains. cbn [existsb].
  rewrite orb_false_r.
  destruct (value_eqb (g_user_role g) (VStr "instructor")) eqn:E1;
    [apply value_eqb_eq in E1; split; auto|].
  destruct (value_eqb (g_user_role g) (VStr "admin")) eqn:E2;
    [apply value_eqb_eq in E2; split; auto|].
  split; [discriminate|]. intros [H|H]; rewrite H in *; rewrite value_eqb_refl in *; discriminate.
Qed.

(** Behind [authenticate_jwt], [instructor_required] runs the route exactly
    when the stored role of the token's [sub] is [instructor] or [admin];
    a caller with no user record is refused with 403. *)
Theorem instructor_required_after_authenticate (lib : Auth.jose_lib) (c : collection)
    (authorization : option string) (jwks_resp : http_outcome) (g : flask_g) :
  Auth.authenticate_jwt lib c authorization jwks_resp = Auth.AuthPassed g ->
  (Auth.instructor_required (Some g) = None <->
   stored_role c (g_user_sub g) = VStr "instructor" \/ stored_role c (g_user_sub g) = VStr "admin") /\
  (UsersApi.found_user c (g_user_sub g) = None ->
   exists r, Auth.instructor_required (Some g) = Some r /\ UsersApi.status r = 403).
Proof.
  rewrite authenticate_jwt_store.
  destruct (Auth.authenticate_jwt lib [] authorization jwks_resp) as [r|g0]; [discriminate|].
  intros H; injection H as <-. split.
  - rewrite instructor_required_role. reflexivity.
  - intros Hn. cbn [g_user_sub] in Hn.
    exists (UsersApi.mk_response 403 (VDict [("success", VBool false);
              ("message", VStr "Permission denied. Instructor role required.")])).
    split; [|reflexivity].
    unfold Auth.instructor_required. cbn [g_user_role]. unfold stored_role.
    rewrite Hn. reflexivity.
Qed.

Lemma instructor_required_after_authenticate_witness :
  let g := mk_flask_g (VStr "u9") VNone VNone (VStr "student") in
  (Auth.instructor_required (Some g) = None <->
   stored_role [] (g_user_sub g) = VStr "instructor" \/ stored_role [] (g_user_sub g) = VStr "admin") /\
  (UsersApi.found_user [] (g_user_sub g) = None ->
   exists r, Auth.instructor_required (Some g) = Some r /\ UsersApi.status r = 403).
Proof.
  intros g.
  apply (instructor_required_after_authenticate (sample_jose_lib [("sub", VStr "u9")]) []
           (Some "Bearer abc") sample_jwks g).
  reflexivity.
Defined.

(** A caller whose token is accepted can promote itself: [PUT /<its own id>]
    with the JSON body [{"role": "instructor"}] answers 200, and afterwards
    the same token passes [instructor_required]. *)
Theorem self_promotion_to_instructor (lib : Auth.jose_lib) (c : collection)
    (authorization : option string) (jwks_resp : http_outcome) (g : flask_g) (uid : string)
    (u : dict) (delete_resp upload_resp : http_outcome) (now : datetime) :
  Auth.authenticate_jwt lib c authorization jwks_resp = Auth.AuthPassed g ->
  g_user_sub g = VStr uid -> find_one_by_id c (VStr uid) = Some u ->
  let r := UsersApi.update_user_profile c uid None [] (VDict [("role", VStr "instructor")])
             delete_resp upload_resp now in
  UsersApi.status (snd r) = 200 /\
  exists g', Auth.authenticate_jwt lib (fst r) authorization jwks_resp = Auth.AuthPassed g' /\
    g_user_sub g' = VStr uid /\ Auth.instructor_required (Some g') = None.
Proof.
  intros Ha Hs Hf r.
  destruct (update_profile_role_found c uid [("role", VStr "instructor")] (VStr "instructor")
              delete_resp upload_resp now u Hf eq_refl) as (pre & post & u' & _ & Hr & Hrole & Hf');
    [constructor; [intros []|constructor]|].
  subst r. rewrite Hr. split; [reflexivity|]. cbn [fst].
  rewrite authenticate_jwt_store. rewrite authenticate_jwt_store in Ha.
  destruct (Auth.authenticate_jwt lib [] authorization jwks_resp) as [r0|g0]; [discriminate|].
  injection Ha as <-. cbn [g_user_sub] in Hs.
  eexists; split; [reflexivity|]. split; [exact Hs|].
  apply instructor_required_role. left. cbn [g_user_role].
  unfold stored_role, UsersApi.found_user. rewrite Hs, Hf', (find_one_by_id_nonempty _ _ _ Hf').
  unfold dict_get. rewrite Hrole. reflexivity.
Qed.

Lemma self_promotion_to_instructor_witness :
  let c := [[("_id", VStr "u1"); ("role", VStr "student")]] in
  let r := UsersApi.update_user_profile c "u1" None [] (VDict [("role", VStr "instructor")])
             media_down media_down t_now in
  UsersApi.status (snd r) = 200 /\
  exists g', Auth.authenticate_jwt (sample_jose_lib [("sub", VStr "u1")]) (fst r) (Some "Bearer abc")
               sample_jwks = Auth.AuthPassed g' /\
    g_user_sub g' = VStr "u1" /\ Auth.instructor_required (Some g') = None.
Proof.
  intros c r.
  exact (self_promotion_to_instructor (sample_jose_lib [("sub", VStr "u1")]) c (Some "Bearer abc")
           sample_jwks (mk_flask_g (VStr "u1") VNone VNone (VStr "student")) "u1" _ media_down media_down
           t_now eq_refl eq_refl eq_refl).
Defined.

(** ** Configuration *)

Lemma string_app_assoc (a b c : string) : (a ++ b ++ c) = ((a ++ b) ++ c).
Proof. induction a as [|x a IH]; simpl; [reflexivity|rewrite IH; reflexivity]. Qed.

(** With no JWKS URL and no issuer configured, both are derived from the
    same pool and region: the JWKS URL is the issuer followed by
    [/.well-known/jwks.json], and both are [None] together. *)
Theorem jwks_url_follows_issuer (app_config : option dict) (env : Auth.environ) :
  truthy (py_or (Auth._get_config app_config env "COGNITO_JWKS_URL" VNone)
                (Auth._get_config app_config env "JWKS_URL" VNone)) = false ->
  truthy (py_or (Auth._get_config app_config env "JWT_ISSUER" VNone)
                (Auth._get_config app_config env "COGNITO_ISSUER" VNone)) = false ->
  Auth._get_jwks_url app_config env =
  match Auth._get_issuer app_config env with
  | VStr iss => VStr (iss ++ "/.well-known/jwks.json")
  | v => v
  end.
Proof.
  intros Hj Hi. unfold Auth._get_jwks_url, Auth._get_issuer. rewrite Hj, Hi.
  destruct (Auth.cognito_pool_and_region app_config env) as [pool region].
  destruct (truthy pool && truthy region); [|reflexivity].
  rewrite !string_app_assoc. reflexivity.
Qed.

Lemma jwks_url_follows_issuer_witness :
  let cfg := Some [("COGNITO_USER_POOL_ID", VStr "pool1"); ("COGNITO_REGION", VStr "eu-west-1")] in
  Auth._get_jwks_url cfg [("JWT_ISSUER", "")] =
  match Auth._get_issuer cfg [("JWT_ISSUER", "")] with
  | VStr iss => VStr (iss ++ "/.well-known/jwks.json")
  | v => v
  end.
Proof. intros cfg. apply jwks_url_follows_issuer; reflexivity. Defined.

(** ** The sync route *)

(** [POST /users/sync] for a new user passes [None], not [""], for a
    [gender], [birthdate] or [avatar] the body lacks; the new record stores
    [None] for it. *)
Theorem sync_user_absent_fields_none (c : collection) (g : flask_g) (d : dict) (now : datetime) (e : string) :
  truthy (g_user_sub g) = true -> g_user_email g = VStr e -> e <> "" ->
  find_one_by_id c (g_user_sub g) = None -> find (field_matches "email" (VStr e)) c = None ->
  exists nd,
    UsersApi.sync_user c g (VDict d) now =
      ((c ++ [nd])%list, UsersApi.mk_response 200 (VDict [("success", VBool true);
                                                          ("message", VStr "User synced successfully");
                                                          ("data", VDict nd)])) /\
    (forall k, In k ["gender"; "birthdate"; "avatar"] -> dict_lookup k d = None ->
               dict_lookup k nd = Some VNone).
Proof.
  intros Hs He Hne Hn Hne'.
  assert (Hinfo : (if truthy (VDict d) then VDict d else VDict []) = VDict d) by (destruct d; reflexivity).
  unfold UsersApi.sync_user. cbv zeta. rewrite Hinfo.
  destruct (truthy (g_user_name g)) eqn:Hg; cbv iota beta;
    cbn [dict_set String.eqb Ascii.eqb Bool.eqb];
    (erewrite sync_cognito_user_insert; [| exact Hs | rewrite He; reflexivity | exact Hne | exact Hn | exact Hne']);
    cbv zeta; cbn [fst snd truthy];
    (eexists; split; [reflexivity|]);
    intros k [<-|[<-|[<-|[]]]] Hk; unfold dict_get; simpl; rewrite Hk; reflexivity.
Qed.

Lemma sync_user_absent_fields_none_witness :
  let g := mk_flask_g (VStr "u1") (VStr "ann@b.c") VNone (VStr "student") in
  exists nd,
    UsersApi.sync_user [] g (VDict [("gender", VStr "f")]) t_now =
      (([] ++ [nd])%list, UsersApi.mk_response 200 (VDict [("success", VBool true);
                                                          ("message", VStr "User synced successfully");
                                                          ("data", VDict nd)])) /\
    (forall k, In k ["gender"; "birthdate"; "avatar"] -> dict_lookup k [("gender", VStr "f")] = None ->
               dict_lookup k nd = Some VNone).
Proof.
  intros g.
  exact (sync_user_absent_fields_none [] g [("gender", VStr "f")] t_now "ann@b.c" eq_refl eq_refl
           ltac:(discriminate) eq_refl eq_refl).
Defined.

(** ** Key patterns *)

Lemma ascii_eqb_eq' (a b : ascii) : Ascii.eqb a b = true <-> a = b.
Proof. apply Ascii.eqb_eq. Qed.

Lemma tails_last (s : string) : In "" (tails s).
Proof. induction s as [|a s IH]; simpl; auto. Qed.

Lemma existsb_tails_tails (P : string -> bool) (s : string) :
  existsb (fun t => existsb P (tails t)) (tails s) = existsb P (tails s).
Proof.
  induction s as [|a s IH]; simpl.
  - rewrite !orb_false_r. reflexivity.
  - rewrite IH. destruct (P (String a s)); simpl; [reflexivity|].
    destruct (existsb P (tails s)); reflexivity.
Qed.

Lemma glob_star (q s : string) :
  glob_match (String "*" q) s = existsb (glob_match q) (tails s).
Proof. reflexivity. Qed.

Lemma glob_strip_stars (q s : string) :
  existsb (glob_match q) (tails s) = existsb (glob_match (Cache.strip_stars q)) (tails s).
Proof.
  induction q as [|a q IH]; [reflexivity|].
  cbn [Cache.strip_stars]. destruct (Ascii.eqb a "*") eqn:E; [|reflexivity].
  apply ascii_eqb_eq' in E; subst a. rewrite <- IH.
  transitivity (existsb (fun t => existsb (glob_match q) (tails t)) (tails s));
    [reflexivity|apply existsb_tails_tails].
Qed.

Lemma strip_stars_head (q : string) (b : ascii) (r : string) :
  Cache.strip_stars q = String b r -> Ascii.eqb b "*" = false.
Proof.
  induction q as [|a q IH]; cbn [Cache.strip_stars]; [discriminate|].
  destruct (Ascii.eqb a "*") eqn:E; [exact IH|]. intros H; injection H as <- _; exact E.
Qed.

Lemma strip_stars_length (q : string) : (String.length (Cache.strip_stars q) <= String.length q)%nat.
Proof.
  induction q as [|a q IH]; cbn [Cache.strip_stars]; [simpl; lia|].
  destruct (Ascii.eqb a "*"); simpl; lia.
Qed.

Lemma strip_stars_plain (q : string) : plain_pattern q = true -> plain_pattern (Cache.strip_stars q) = true.
Proof.
  induction q as [|a q IH]; cbn [Cache.strip_stars]; [auto|].
  destruct (Ascii.eqb a "*"); [|auto]. cbn [plain_pattern]. intros H.
  apply andb_true_iff in H as [_ H]; auto.
Qed.

Lemma glob_empty_key (q : string) :
  glob_match q "" = match Cache.strip_stars q with EmptyString => true | _ => false end.
Proof.
  induction q as [|a q IH]; [reflexivity|].
  cbn [glob_match Cache.strip_stars]. destruct (Ascii.eqb a "*"); [|reflexivity].
  cbn [tails existsb]. rewrite orb_false_r. exact IH.
Qed.

Lemma try_from_glob (f : nat) (p : string) (c : ascii) (srest : string) :
  (forall t, t <> "" -> Cache.sm f p t = glob_match p t) -> glob_match p "" = false ->
  (Cache.sm f p (String c srest)
   || (fix try_from (t : string) : bool :=
         match t with
         | EmptyString => false
         | String _ t' => Cache.sm f p t || try_from t'
         end) srest)%bool
  = existsb (glob_match p) (tails (String c srest)).
Proof.
  intros H H0. revert c. induction srest as [|d s IH]; intros c.
  - cbn [tails existsb]. rewrite H by discriminate. rewrite H0. reflexivity.
  - change (existsb (glob_match p) (tails (String c (String d s))))
      with (glob_match p (String c (String d s)) || existsb (glob_match p) (tails (String d s)))%bool.
    rewrite <- (IH d). rewrite H by discriminate. reflexivity.
Qed.

(** On a pattern without [?], [[] and [\] and a non-empty key, Redis' matcher
    is the declarative [glob_match]. *)
Lemma sm_glob (f : nat) : forall p s, plain_pattern p = true -> s <> "" ->
  (String.length p < f)%nat -> Cache.sm f p s = glob_match p s.
Proof.
  induction f as [|f IH]; intros p s Hp Hs Hl; [simpl in Hl; lia|].
  destruct s as [|c srest]; [congruence|].
  destruct p as [|a prest]; [reflexivity|].
  cbn [plain_pattern] in Hp. apply andb_true_iff in Hp as [Ha Hprest]. cbn [String.length] in Hl.
  cbn [Cache.sm glob_match].
  destruct (Ascii.eqb a "*") eqn:Estar.
  - rewrite glob_strip_stars.
    destruct (Cache.strip_stars prest) as [|b r] eqn:Es.
    + symmetry. apply existsb_exists. exists "". split; [apply tails_last|reflexivity].
    + apply try_from_glob.
      * intros t Ht. apply IH; [rewrite <- Es; apply strip_stars_plain; exact Hprest|exact Ht|].
        pose proof (strip_stars_length prest) as Hle. rewrite Es in Hle. lia.
      * cbn [glob_match]. rewrite (strip_stars_head prest b r Es). reflexivity.
  - destruct (Ascii.eqb a "?") eqn:E1, (Ascii.eqb a "[") eqn:E2, (Ascii.eqb a Cache.backslash) eqn:E3;
      try discriminate Ha.
    destruct (Ascii.eqb a c) eqn:Ec; [|reflexivity].
    cbn [andb]. destruct srest as [|d s'].
    + rewrite glob_empty_key. reflexivity.
    + apply IH; [exact Hprest|discriminate|lia].
Qed.

Lemma sm_empty_key (f : nat) (p : string) : p <> "" -> Cache.sm f p "" = false.
Proof. destruct f, p; simpl; congruence. Qed.

Lemma stringmatch_glob (p s : string) :
  plain_pattern p = true -> s <> "" -> Cache.stringmatch p s = glob_match p s.
Proof. intros Hp Hs. apply sm_glob; auto. Qed.

Lemma prefix_star (x : ascii) (t : string) : String.prefix "*" (String x t) = Ascii.eqb x "*".
Proof.
  cbn [String.prefix]. destruct (ascii_dec "*" x) as [<-|Hne].
  - destruct t; reflexivity.
  - symmetry. apply Ascii.eqb_neq. congruence.
Qed.

Lemma no_star_cons (a : ascii) (s : string) :
  is_substring "*" (String a s) = false -> Ascii.eqb a "*" = false /\ is_substring "*" s = false.
Proof.
  cbn [is_substring]. rewrite prefix_star. intros H. apply orb_false_iff in H. exact H.
Qed.

Lemma no_star_app (a b : string) :
  is_substring "*" a = false -> is_substring "*" b = false -> is_substring "*" (a ++ b) = false.
Proof.
  induction a as [|x a IH]; intros Ha Hb; [exact Hb|].
  apply no_star_cons in Ha as [Hx Ha]. cbn [append is_substring]. rewrite prefix_star, Hx.
  apply IH; assumption.
Qed.

Lemma plain_pattern_app (a b : string) :
  plain_pattern (a ++ b) = plain_pattern a && plain_pattern b.
Proof.
  induction a as [|x a IH]; [reflexivity|]. cbn [append plain_pattern]. rewrite IH.
  apply andb_assoc.
Qed.

(** A star-free literal followed by [*] matches exactly the keys it starts. *)
Lemma glob_prefix (lit : string) : forall s,
  is_substring "*" lit = false -> glob_match (lit ++ "*") s = String.prefix lit s.
Proof.
  induction lit as [|a l IH]; intros s H.
  - cbn [append]. rewrite glob_star. transitivity true; [|destruct s; reflexivity].
    apply existsb_exists. exists "". split; [apply tails_last|reflexivity].
  - apply no_star_cons in H as [Ha Hl]. cbn [append glob_match]. rewrite Ha.
    destruct s as [|c s']; [reflexivity|]. cbn [String.prefix].
    destruct (ascii_dec a c) as [<-|Hne].
    + rewrite (proj2 (Ascii.eqb_eq a a) eq_refl). apply IH; exact Hl.
    + rewrite (proj2 (Ascii.eqb_neq a c) Hne). reflexivity.
Qed.

Lemma stringmatch_prefix (lit s : string) :
  lit <> "" -> plain_pattern lit = true -> is_substring "*" lit = false ->
  Cache.stringmatch (lit ++ "*") s = String.prefix lit s.
Proof.
  intros Hne Hp Hs. destruct s as [|c s'].
  - unfold Cache.stringmatch. rewrite sm_empty_key by (destruct lit; [congruence|discriminate]).
    destruct lit; [congruence|reflexivity].
  - rewrite stringmatch_glob; [apply glob_prefix; exact Hs| |discriminate].
    rewrite plain_pattern_app, Hp. reflexivity.
Qed.

Lemma delete_prefix (lit : string) (store : Cache.cache_store) :
  lit <> "" -> plain_pattern lit = true -> is_substring "*" lit = false ->
  Cache._delete_by_pattern true store (lit ++ "*") =
    (filter (fun kv => negb (String.prefix lit (fst kv))) store,
     Z.of_nat (length (filter (fun kv => String.prefix lit (fst kv)) store))).
Proof.
  intros Hne Hp Hs. unfold Cache._delete_by_pattern. f_equal; [|f_equal; f_equal];
    apply filter_ext; intros [k v]; cbn [fst]; rewrite stringmatch_prefix by assumption; reflexivity.
Qed.

(** ** [invalidate_user_cache] and [invalidate_all_cache] *)

(** For a user id with no pattern character, [invalidate_user_cache] deletes
    exactly the stored keys that start with ["flask_cache_educonnect:user_" ++ uid ++ ":"]. *)
Theorem invalidate_user_cache_prefix (store : Cache.cache_store) (uid : string) :
  glob_literal uid = true ->
  Cache.invalidate_user_cache true store uid =
    filter (fun kv => negb (String.prefix (Cache.REDIS_KEY_PREFIX ++ ":user_" ++ uid ++ ":") (fst kv)))
           store.
Proof.
  unfold glob_literal. intros H. apply andb_true_iff in H as [Hp Hs]. apply negb_true_iff in Hs.
  unfold Cache.invalidate_user_cache.
  replace (Cache.REDIS_KEY_PREFIX ++ ":user_" ++ uid ++ ":*")
    with ((Cache.REDIS_KEY_PREFIX ++ ":user_" ++ uid ++ ":") ++ "*")
    by (rewrite <- !string_app_assoc; reflexivity).
  rewrite delete_prefix; [reflexivity|discriminate| |].
  - rewrite !plain_pattern_app, Hp. reflexivity.
  - apply (no_star_app (Cache.REDIS_KEY_PREFIX ++ ":user_")); [reflexivity|].
    apply no_star_app; [exact Hs|reflexivity].
Qed.

Lemma invalidate_user_cache_prefix_witness :
  Cache.invalidate_user_cache true
    [("flask_cache_educonnect:user_u1:GET:/api/v1/users/me:", VNone);
     ("flask_cache_educonnect:user_u12:GET:/api/v1/users/me:", VNone)] "u1" =
  [("flask_cache_educonnect:user_u12:GET:/api/v1/users/me:", VNone)].
Proof.
  rewrite (invalidate_user_cache_prefix _ "u1" eq_refl). reflexivity.
Defined.

(** [invalidate_all_cache] deletes the stored keys under the application's
    prefix and counts them; without Redis it clears the cache and answers [-1]. *)
Theorem invalidate_all_cache_prefix (store : Cache.cache_store) :
  Cache.invalidate_all_cache true store =
    (filter (fun kv => negb (String.prefix "flask_cache_educonnect:" (fst kv))) store,
     Z.of_nat (length (filter (fun kv => String.prefix "flask_cache_educonnect:" (fst kv)) store))) /\
  Cache.invalidate_all_cache false store = ([], -1).
Proof.
  split; [|reflexivity]. unfold Cache.invalidate_all_cache.
  apply (delete_prefix "flask_cache_educonnect:"); [discriminate|reflexivity|reflexivity].
Qed.

(** ** [invalidate_lessons_cache] *)

Lemma glob_app_star (q : string) : forall t s,
  glob_match (q ++ t) s = true -> glob_match (q ++ "*") s = true.
Proof.
  induction q as [|a q IH]; intros t s H.
  - cbn [append]. rewrite glob_star. apply existsb_exists. exists "".
    split; [apply tails_last|reflexivity].
  - cbn [append glob_match] in *. destruct (Ascii.eqb a "*").
    + apply existsb_exists in H as [u [Hu Hg]]. apply existsb_exists. exists u. eauto.
    + destruct s as [|c s']; [discriminate|]. apply andb_true_iff in H as [Ha Hg].
      rewrite Ha. cbn [andb]. eauto.
Qed.

Lemma filter_subsumed (m1 m2 : string -> bool) (st : Cache.cache_store) :
  (forall k, m1 k = true -> m2 k = true) ->
  filter (fun kv => negb (m2 (fst kv))) (filter (fun kv => negb (m1 (fst kv))) st) =
  filter (fun kv => negb (m2 (fst kv))) st.
Proof.
  intros Himp. induction st as [|[k v] st IH]; [reflexivity|]. cbn [filter fst].
  destruct (m1 k) eqn:E1.
  - rewrite (Himp k E1). cbn [negb]. exact IH.
  - cbn [negb filter fst]. rewrite IH. reflexivity.
Qed.

Lemma stringmatch_app_star (q t k : string) :
  plain_pattern (q ++ t) = true -> plain_pattern q = true -> q ++ t <> "" ->
  Cache.stringmatch (q ++ t) k = true -> Cache.stringmatch (q ++ "*") k = true.
Proof.
  intros Hqt Hq Hne H. destruct k as [|c k'].
  - unfold Cache.stringmatch in H. rewrite sm_empty_key in H by exact Hne. discriminate.
  - rewrite stringmatch_glob in H by (exact Hqt || discriminate).
    rewrite stringmatch_glob by (rewrite ?plain_pattern_app, ?Hq; reflexivity || discriminate).
    eapply glob_app_star; exact H.
Qed.

(** The deletion of one lesson's keys that [invalidate_lessons_cache] makes
    first changes nothing: the series-wide pattern it deletes next covers them,
    so the result is the one without a lesson id. *)
Theorem invalidate_lessons_cache_lesson_subsumed (store : Cache.cache_store)
    (series_id lesson_id : string) :
  plain_pattern series_id = true -> plain_pattern lesson_id = true ->
  Cache.invalidate_lessons_cache true store series_id (Some lesson_id) =
  Cache.invalidate_lessons_cache true store series_id None.
Proof.
  intros Hs Hl. unfold Cache.invalidate_lessons_cache. cbv beta iota zeta.
  destruct (truthy (VStr lesson_id)); [|reflexivity].
  unfold Cache._delete_by_pattern. cbv beta iota. cbn [fst].
  apply (filter_subsumed
           (Cache.stringmatch ((Cache.REDIS_KEY_PREFIX ++ ":user_*:GET:/api/v1/series/" ++ series_id ++
                                "/lessons") ++ "/" ++ lesson_id ++ "*"))).
  intros k. apply stringmatch_app_star.
  - rewrite !plain_pattern_app, Hs, Hl. reflexivity.
  - rewrite !plain_pattern_app, Hs. reflexivity.
  - discriminate.
Qed.

Lemma invalidate_lessons_cache_lesson_subsumed_witness :
  let st := [("flask_cache_educonnect:user_u1:GET:/api/v1/series/s1/lessons/l1:", VNone);
             ("flask_cache_educonnect:user_u1:GET:/api/v1/series/s1/lessons:", VNone);
             ("flask_cache_educonnect:public:GET:/api/v1/series/s1:", VNone)] in
  Cache.invalidate_lessons_cache true st "s1" (Some "l1") =
    Cache.invalidate_lessons_cache true st "s1" None /\
  Cache.invalidate_lessons_cache true st "s1" None =
    [("flask_cache_educonnect:public:GET:/api/v1/series/s1:", VNone)].
Proof.
  intros st. split; [exact (invalidate_lessons_cache_lesson_subsumed st "s1" "l1" eq_refl eq_refl)|].
  vm_compute. reflexivity.
Defined.

(** ** [invalidate_series_cache] *)

Lemma delete_all_in (pats : list string) : forall st kv,
  In kv (Cache.delete_all st pats) ->
  In kv st /\ forall pat, In pat pats -> Cache.stringmatch pat (fst kv) = false.
Proof.
  induction pats as [|p ps IH]; intros st kv H.
  - split; [exact H|intros pat []].
  - change (In kv (Cache.delete_all (fst (Cache._delete_by_pattern true st p)) ps)) in H.
    apply IH in H as [H1 H2]. unfold Cache._delete_by_pattern in H1. cbn [fst] in H1.
    apply filter_In in H1 as [Hin Hp]. split; [exact Hin|].
    intros pat [<-|Hpat]; [apply negb_true_iff; exact Hp|auto].
Qed.

Lemma prefix_app_l (a r : string) : String.prefix a (a ++ r) = true.
Proof.
  induction a as [|x a IH]; [destruct r; reflexivity|]. cbn [append String.prefix].
  destruct (ascii_dec x x) as [_|Hne]; [exact IH|congruence].
Qed.

Lemma prefix_split (a : string) : forall b, String.prefix a b = true -> exists r, b = a ++ r.
Proof.
  induction a as [|x a IH]; intros b H; [exists b; reflexivity|].
  destruct b as [|y b]; [discriminate|]. cbn [String.prefix] in H.
  destruct (ascii_dec x y) as [<-|]; [|discriminate].
  destruct (IH b H) as [r ->]. exists r. reflexivity.
Qed.

Lemma tails_app (u s : string) : In s (tails (u ++ s)).
Proof. induction u as [|x u IH]; [destruct s; left; reflexivity|right; exact IH]. Qed.

Lemma glob_lit_app (lit : string) : forall q s,
  is_substring "*" lit = false -> glob_match (lit ++ q) (lit ++ s) = glob_match q s.
Proof.
  induction lit as [|a l IH]; intros q s H; [reflexivity|].
  apply no_star_cons in H as [Ha Hl]. cbn [append glob_match]. rewrite Ha.
  rewrite (proj2 (Ascii.eqb_eq a a) eq_refl). apply IH; exact Hl.
Qed.

(** Keys of the shape [A ++ _ ++ B ++ _] match the pattern [A*B*]. *)
Lemma stringmatch_two_stars (A B u r : string) :
  A <> "" -> plain_pattern A = true -> plain_pattern B = true ->
  is_substring "*" A = false -> is_substring "*" B = false ->
  Cache.stringmatch (A ++ "*" ++ B ++ "*") (A ++ u ++ B ++ r) = true.
Proof.
  intros Hne HpA HpB HsA HsB. rewrite stringmatch_glob.
  - rewrite glob_lit_app by exact HsA. cbn [append]. rewrite glob_star.
    apply existsb_exists. exists (B ++ r). split; [apply tails_app|].
    rewrite glob_prefix by exact HsB. apply prefix_app_l.
  - rewrite !plain_pattern_app, HpA, HpB. reflexivity.
  - destruct A; [congruence|discriminate].
Qed.

Lemma public_key_shape (req : Cache.request) (g : Cache.g_context) (r : string) :
  Cache.method req = "GET" -> Cache.path req = ("/api/v1/series" ++ r)%string ->
  Cache.stored_key (Cache.make_cache_key_public req g) =
    ("flask_cache_educonnect:public:GET:/api/v1/series" ++ (r ++ ":" ++ Cache.query_string req))%string.
Proof.
  intros Hm Hp. unfold Cache.stored_key, Cache.make_cache_key_public, Cache._build_cache_key.
  rewrite Hm, Hp. rewrite <- !string_app_assoc. reflexivity.
Qed.

Lemma user_key_shape (req : Cache.request) (g : Cache.g_context) (B r : string) :
  Cache.method req = "GET" -> Cache.path req = ("/api/v1/series/" ++ B ++ r)%string ->
  Cache.stored_key (Cache.make_cache_key_with_user req g) =
    ("flask_cache_educonnect:user_" ++
     py_str (dict_get (match g with Some u => u | None => [] end) "userId" (VStr "anonymous")) ++
     (":GET:/api/v1/series/" ++ B) ++ (r ++ ":" ++ Cache.query_string req))%string.
Proof.
  intros Hm Hp. unfold Cache.stored_key, Cache.make_cache_key_with_user, Cache._build_cache_key.
  rewrite Hm, Hp. cbv iota. rewrite <- !string_app_assoc. reflexivity.
Qed.

(** With Redis, after [invalidate_series_cache] no cached public GET under
    [/api/v1/series] is left, and no user-scoped GET under
    [/api/v1/series/subscriptions] or [/api/v1/series/me], whoever the user. *)
Theorem invalidate_series_cache_clears_listings (store : Cache.cache_store)
    (serie_id : option string) (req : Cache.request) (g : Cache.g_context) (v : value) :
  Cache.method req = "GET" ->
  (String.prefix "/api/v1/series" (Cache.path req) = true ->
     ~ In (Cache.stored_key (Cache.make_cache_key_public req g), v)
          (Cache.invalidate_series_cache true store serie_id)) /\
  (String.prefix "/api/v1/series/subscriptions" (Cache.path req) = true \/
   String.prefix "/api/v1/series/me" (Cache.path req) = true ->
     ~ In (Cache.stored_key (Cache.make_cache_key_with_user req g), v)
          (Cache.invalidate_series_cache true store serie_id)).
Proof.
  intros Hm. unfold Cache.invalidate_series_cache. cbv beta iota zeta. split.
  - intros Hp Hin. apply prefix_split in Hp as [r Hr].
    apply delete_all_in in Hin as [_ Hall]. cbn [fst] in Hall.
    specialize (Hall (Cache.REDIS_KEY_PREFIX ++ ":public:GET:/api/v1/series*")
                  ltac:(apply in_or_app; left; left; reflexivity)).
    rewrite (public_key_shape req g r Hm Hr) in Hall.
    change (Cache.REDIS_KEY_PREFIX ++ ":public:GET:/api/v1/series*")%string
      with ("flask_cache_educonnect:public:GET:/api/v1/series" ++ "*")%string in Hall.
    rewrite stringmatch_prefix, prefix_app_l in Hall by (reflexivity || discriminate).
    discriminate.
  - intros Hp Hin. apply delete_all_in in Hin as [_ Hall]. cbn [fst] in Hall.
    destruct Hp as [Hp|Hp]; apply prefix_split in Hp as [r Hr].
    + specialize (Hall (Cache.REDIS_KEY_PREFIX ++ ":user_*:GET:/api/v1/series/subscriptions*")
                    ltac:(apply in_or_app; left; right; left; reflexivity)).
      rewrite (user_key_shape req g "subscriptions" r Hm Hr) in Hall.
      change (Cache.REDIS_KEY_PREFIX ++ ":user_*:GET:/api/v1/series/subscriptions*")%string
        with ("flask_cache_educonnect:user_" ++ "*" ++
              (":GET:/api/v1/series/" ++ "subscriptions") ++ "*")%string in Hall.
      rewrite stringmatch_two_stars in Hall by (reflexivity || discriminate). discriminate.
    + specialize (Hall (Cache.REDIS_KEY_PREFIX ++ ":user_*:GET:/api/v1/series/me*")
                    ltac:(apply in_or_app; left; right; right; left; reflexivity)).
      rewrite (user_key_shape req g "me" r Hm Hr) in Hall.
      change (Cache.REDIS_KEY_PREFIX ++ ":user_*:GET:/api/v1/series/me*")%string
        with ("flask_cache_educonnect:user_" ++ "*" ++ (":GET:/api/v1/series/" ++ "me") ++ "*")%string
        in Hall.
      rewrite stringmatch_two_stars in Hall by (reflexivity || discriminate). discriminate.
Qed.

Lemma invalidate_series_cache_clears_listings_witness :
  let req := Cache.mk_request "GET" "/api/v1/series/subscriptions" "page=2" in
  let g := Some [("userId", VStr "u1")] in
  let st := [(Cache.stored_key (Cache.make_cache_key_with_user req g), VNone);
             (Cache.stored_key (Cache.make_cache_key_public req g), VNone)] in
  ~ In (Cache.stored_key (Cache.make_cache_key_public req g), VNone)
       (Cache.invalidate_series_cache true st None) /\
  ~ In (Cache.stored_key (Cache.make_cache_key_with_user req g), VNone)
       (Cache.invalidate_series_cache true st None).
Proof.
  intros req g st.
  destruct (invalidate_series_cache_clears_listings st None req g VNone eq_refl) as [H1 H2].
  split; [apply H1; reflexivity|apply H2; left; reflexivity].
Defined.

Lemma filter_keep_all {A : Type} (f : A -> bool) (l : list A) :
  (forall x, In x l -> f x = true) -> filter f l = l.
Proof.
  induction l as [|x l IH]; intros H; [reflexivity|]. cbn [filter].
  rewrite (H x (or_introl eq_refl)). f_equal. apply IH. intros y Hy. apply H. right; exact Hy.
Qed.

Lemma delete_all_app (st : Cache.cache_store) (ps qs : list string) :
  Cache.delete_all st (app ps qs) = Cache.delete_all (Cache.delete_all st ps) qs.
Proof. unfold Cache.delete_all. apply fold_left_app. Qed.

(** With a series id, the deletion of that series' public keys in
    [invalidate_series_cache] changes nothing: the first pattern, for every
    public key under [/api/v1/series], has already removed them. *)
Theorem invalidate_series_cache_public_subsumed (store : Cache.cache_store) (sid : string) :
  plain_pattern sid = true -> sid <> "" ->
  Cache.invalidate_series_cache true store (Some sid) =
  Cache.delete_all store
    [Cache.REDIS_KEY_PREFIX ++ ":public:GET:/api/v1/series*";
     Cache.REDIS_KEY_PREFIX ++ ":user_*:GET:/api/v1/series/subscriptions*";
     Cache.REDIS_KEY_PREFIX ++ ":user_*:GET:/api/v1/series/me*";
     Cache.REDIS_KEY_PREFIX ++ ":user_*:GET:/api/v1/series/" ++ sid ++ "/lessons*"].
Proof.
  intros Hp Hne. unfold Cache.invalidate_series_cache. cbv beta iota zeta.
  rewrite (truthy_str_nonempty sid Hne).
  set (P1 := (Cache.REDIS_KEY_PREFIX ++ ":public:GET:/api/v1/series*")%string).
  set (P4 := (Cache.REDIS_KEY_PREFIX ++ ":public:GET:/api/v1/series/" ++ sid ++ "*")%string).
  set (P5 := (Cache.REDIS_KEY_PREFIX ++ ":user_*:GET:/api/v1/series/" ++ sid ++ "/lessons*")%string).
  set (P2 := (Cache.REDIS_KEY_PREFIX ++ ":user_*:GET:/api/v1/series/subscriptions*")%string).
  set (P3 := (Cache.REDIS_KEY_PREFIX ++ ":user_*:GET:/api/v1/series/me*")%string).
  change (app [P1; P2; P3] [P4; P5]) with (app [P1; P2; P3] (app [P4] [P5])).
  change [P1; P2; P3; P5] with (app [P1; P2; P3] [P5]).
  rewrite !delete_all_app. f_equal.
  change (Cache.delete_all (Cache.delete_all store [P1; P2; P3]) [P4])
    with (filter (fun kv => negb (Cache.stringmatch P4 (fst kv))) (Cache.delete_all store [P1; P2; P3])).
  apply filter_keep_all. intros [k v] Hin. apply delete_all_in in Hin as [_ Hall].
  cbn [fst] in *. specialize (Hall P1 (or_introl eq_refl)).
  apply negb_true_iff. destruct (Cache.stringmatch P4 k) eqn:E4; [|reflexivity].
  assert (Hsub : Cache.stringmatch P1 k = true).
  { apply (stringmatch_app_star (Cache.REDIS_KEY_PREFIX ++ ":public:GET:/api/v1/series")
                                ("/" ++ sid ++ "*")).
    - rewrite !plain_pattern_app, Hp. reflexivity.
    - reflexivity.
    - discriminate.
    - exact E4. }
  congruence.
Qed.

Lemma invalidate_series_cache_public_subsumed_witness :
  let st := [("flask_cache_educonnect:public:GET:/api/v1/series/s1:", VNone);
             ("flask_cache_educonnect:user_u1:GET:/api/v1/series/s1/lessons:", VNone);
             ("flask_cache_educonnect:user_u1:GET:/api/v1/users/me:", VNone)] in
  Cache.invalidate_series_cache true st (Some "s1") =
    Cache.delete_all st
      [Cache.REDIS_KEY_PREFIX ++ ":public:GET:/api/v1/series*";
       Cache.REDIS_KEY_PREFIX ++ ":user_*:GET:/api/v1/series/subscriptions*";
       Cache.REDIS_KEY_PREFIX ++ ":user_*:GET:/api/v1/series/me*";
       Cache.REDIS_KEY_PREFIX ++ ":user_*:GET:/api/v1/series/" ++ "s1" ++ "/lessons*"] /\
  Cache.invalidate_series_cache true st (Some "s1") =
    [("flask_cache_educonnect:user_u1:GET:/api/v1/users/me:", VNone)].
Proof.
  intros st. split; [exact (invalidate_series_cache_public_subsumed st "s1" eq_refl ltac:(discriminate))|].
  vm_compute. reflexivity.
Defined.

(** ** [create_profile] *)

Lemma json_body_dict_dict (d : dict) : UsersApi.json_body_dict (VDict d) = Ok d.
Proof. destruct d; reflexivity. Qed.

Lemma opt_truthy_find_none (c : collection) (v : value) :
  UserRepo.opt_truthy (find_one_by_id c v) = false -> find_one_by_id c v = None.
Proof.
  destruct (find_one_by_id c v) as [u|] eqn:E; [|reflexivity].
  apply find_one_by_id_lookup in E. destruct u; [discriminate|]. discriminate.
Qed.

Lemma create_new_found (c c' : collection) (data r : dict) (now : datetime) :
  truthy (dict_get data "userId" VNone) = true ->
  UserRepo.opt_truthy (find_one_by_id c (dict_get data "userId" VNone)) = false ->
  UserRepo.create c data now = Ok (c', r) ->
  UserRepo.opt_truthy (find_one_by_id c' (dict_get data "userId" VNone)) = true.
Proof.
  intros Hu Hf Hc. unfold UserRepo.create in Hc. rewrite Hu, Hf in Hc. cbn [negb] in Hc.
  unfold UserRepo.new_payload in Hc.
  destruct (UserRepo.email_local_part (dict_get data "email" VNone)) as [dn|e]; [|discriminate].
  cbn [bind] in Hc.
  destruct (insert_one c _) as [c2|e] eqn:Ei; [|discriminate].
  cbn [bind] in Hc. injection Hc as <- _. unfold insert_one in Ei.
  destruct (existsb _ c); [discriminate|]. injection Ei as <-.
  unfold find_one_by_id. rewrite find_app_none by (apply opt_truthy_find_none; exact Hf).
  cbn [find]. unfold id_matches. cbn [dict_lookup String.eqb Ascii.eqb Bool.eqb andb].
  rewrite value_eqb_refl. reflexivity.
Qed.

(** Once [POST /api/v1/users/profile] has created a profile (201), the same
    body posted again is refused with 409 and leaves the collection as it is. *)
Theorem create_profile_twice (c c1 : collection) (data : dict) (now now' : datetime)
    (r1 : UsersApi.response) :
  UsersApi.create_profile c (VDict data) now = (c1, r1) -> UsersApi.status r1 = 201 ->
  UsersApi.create_profile c1 (VDict data) now' =
    (c1, UsersApi.error_response "User profile already exists" 409).
Proof.
  intros H Hs. unfold UsersApi.create_profile in *. rewrite json_body_dict_dict in *.
  destruct (truthy (dict_get data "userId" VNone)) eqn:Eu; cbn [negb] in H |- *;
    [|injection H as <- <-; discriminate].
  destruct (UserRepo.opt_truthy (find_one_by_id c (dict_get data "userId" VNone))) eqn:Ef;
    [injection H as <- <-; discriminate|].
  destruct (UserRepo.create c data now) as [[c' r]|e] eqn:Ec; [|injection H as <- <-; discriminate].
  injection H as <- _. rewrite (create_new_found c c' data r now Eu Ef Ec). reflexivity.
Qed.

Lemma create_profile_twice_witness :
  let data := [("userId", VStr "u9"); ("email", VStr "kim@x.org")] in
  UsersApi.create_profile [] (VDict data) t_now =
    (fst (UsersApi.create_profile [] (VDict data) t_now),
     snd (UsersApi.create_profile [] (VDict data) t_now)) /\
  UsersApi.status (snd (UsersApi.create_profile [] (VDict data) t_now)) = 201 /\
  UsersApi.create_profile (fst (UsersApi.create_profile [] (VDict data) t_now)) (VDict data) t_now =
    (fst (UsersApi.create_profile [] (VDict data) t_now),
     UsersApi.error_response "User profile already exists" 409).
Proof.
  intros data. split; [reflexivity|]. split; [reflexivity|].
  apply (create_profile_twice [] _ data t_now t_now (snd (UsersApi.create_profile [] (VDict data) t_now)));
    reflexivity.
Defined.

Lemma serialize_doc_json_safe_fixed_witness :
  let v := VDict [("title", VStr "Intro"); ("tags", VList [VStr "a"; VInt 2]);
                  ("meta", VDict [("free", VBool true); ("price", VNone)])] in
  json_safe v = true /\ serialize_doc v = v.
Proof.
  intros v. split; [reflexivity|]. apply serialize_doc_json_safe_fixed. reflexivity.
Defined.
